(** * Battery-Health-Prediction: extraction and health-estimation stages

    A shallow embedding of [src/load_data.py] (raw-record extraction into
    per-cycle tables and the metadata index) and of [src/process_data.py]
    (capacity / SoC / SoH derivation with fixed-size binning), followed by
    the properties of that code.

    Conventions of the embedding:
    - the estimator is embedded twice.  [ProcessData] evaluates it in
      exact arithmetic: a finite float64 is idealised as a rational ([Q]),
      results that are equal as rationals are related by [Qeq] ([==]), a
      missing value (pandas NaN, an empty CSV cell) is [None], and a
      quotient by a zero divisor, which numpy evaluates to NaN or to an
      infinity without raising, is recorded as the non-finite value
      [None].  What is stated about it is which rows are kept, dropped,
      grouped and written, and how the columns of a row relate;
    - [Estimator] is the loop body over an arithmetic given by its
      operations, of which float64 (the primitive binary64 floats) and the
      exact arithmetic are instances; [exact_process_frame] shows that
      [ProcessData] is [Estimator] over the exact arithmetic.  What
      depends on the value of a float64 sum is stated there;
    - a Python exception is a value of [exn]; fallible code returns
      [exn + A];
    - console output is an explicit list of printed lines, files are an
      explicit store. *)

From Stdlib Require Import QArith Qabs ZArith String Ascii List Lia
  DecimalString DecimalN DecimalPos Sorted Floats.
From stdpp Require Import base option list gmap strings.

(** ** Python exceptions *)

Inductive exn : Type :=
| FileNotFoundError (msg : string)
| KeyError (msg : string)
| ValueError (msg : string)
| IndexError (msg : string)
| TypeError (msg : string)
| OverflowError (msg : string).

(** [str(e)] *)
Definition exn_str (e : exn) : string :=
  match e with
  | FileNotFoundError m | KeyError m | ValueError m | IndexError m
  | TypeError m | OverflowError m => m
  end.

(** [a < b] on rationals, as a boolean. *)
Definition Qltb (a b : Q) : bool := negb (Qle_bool b a).

(** ** The numpy and pandas operations the two scripts call *)

Module Numpy.

(** [ary[st:end]] *)
Definition slice {A} (ary : list A) (st en : nat) : list A :=
  take (en - st) (drop st ary).

(** [numpy.cumsum] of a list of section sizes. *)
Fixpoint cumsum_nat (acc : nat) (xs : list nat) : list nat :=
  match xs with
  | [] => []
  | x :: tl => (acc + x)%nat :: cumsum_nat (acc + x) tl
  end.

(** The division points of [numpy.array_split] for an integer number of
    sections: [section_sizes = [0] + extras * [Neach+1] +
    (Nsections-extras) * [Neach]], then their running sums. *)
Definition div_points (Ntotal Nsections : nat) : list nat :=
  let Neach_section := (Ntotal / Nsections)%nat in
  let extras := (Ntotal mod Nsections)%nat in
  let section_sizes :=
    0%nat :: replicate extras (S Neach_section)
          ++ replicate (Nsections - extras) Neach_section in
  cumsum_nat 0 section_sizes.

(** [numpy.array_split(ary, indices_or_sections)] with a scalar second
    argument. *)
Definition array_split {A} (ary : list A) (sections : Z)
  : exn + list (list A) :=
  if (sections <=? 0)%Z
  then inl (ValueError "number sections must be larger than 0.")
  else
    let Nsections := Z.to_nat sections in
    let dp := div_points (length ary) Nsections in
    inr (map (fun i => slice ary (nth i dp 0%nat) (nth (S i) dp 0%nat))
             (seq 0 Nsections)).

(** The consecutive chunks of the given sizes; the slices between
    successive division points are these chunks ([slices_chunks]
    below). *)
Fixpoint chunks {A} (sizes : list nat) (l : list A) : list (list A) :=
  match sizes with
  | [] => []
  | n :: tl => take n l :: chunks tl (drop n l)
  end.

(** The section sizes of [div_points]. *)
Definition section_sizes (Ntotal Nsections : nat) : list nat :=
  replicate (Ntotal mod Nsections) (S (Ntotal / Nsections))
    ++ replicate (Nsections - Ntotal mod Nsections) (Ntotal / Nsections).

End Numpy.

Module LoadData.

(** *** Python values reaching [format_matlab_time]

    The built-in scalars and containers, numpy arrays, and objects of any
    other class: [PyObject format] is an object given by its
    [__format__], the string it returns or the exception it raises for a
    format spec. *)

Inductive pyfloat : Type :=
| Finite (q : Q)
| FNaN
| FInf (negative : bool).

#[warnings="-register-all"]
Inductive pyval : Type :=
| PyNone
| PyBool (b : bool)
| PyInt (z : Z)
| PyFloat (x : pyfloat)
| PyStr (s : string)
| PyList (items : list pyval)
| PyTuple (items : list pyval)
| NdArray (items : list pyval)
| PyObject (format : string -> exn + string).

(** [ndarray.tolist()]: nested arrays become nested lists. *)
Fixpoint tolist (v : pyval) : pyval :=
  match v with
  | NdArray items => PyList (map tolist items)
  | _ => v
  end.

(** Rounding to the nearest integer, ties to even, as the float
    formatter does on the exact value. *)
Definition round_half_even (q : Q) : Z :=
  let n := Qnum q in
  let d := Z.pos (Qden q) in
  let a := (n / d)%Z in
  let r := (n mod d)%Z in
  match (2 * r ?= d)%Z with
  | Lt => a
  | Gt => (a + 1)%Z
  | Eq => if Z.even a then a else (a + 1)%Z
  end.

(** [str.zfill]-like left padding with the digit zero. *)
Definition zfill (width : nat) (s : string) : string :=
  string_of_list_ascii (replicate (width - String.length s) "0"%char) +:+ s.

(** [format(x, '.<prec>f')] of a finite number. *)
Definition format_fixed (prec : nat) (q : Q) : string :=
  let m :=
    Z.to_N (round_half_even (Qabs q * inject_Z (10 ^ Z.of_nat prec))) in
  let ds := zfill (S prec) (NilZero.string_of_uint (N.to_uint m)) in
  let k := (String.length ds - prec)%nat in
  let body :=
    match prec with
    | O => ds
    | S _ => substring 0 k ds +:+ "." +:+ substring k prec ds
    end in
  if Qltb q 0 then "-" +:+ body else body.

(** The largest magnitude an [int] may have to convert to a float. *)
Definition float_overflow_bound : Z := (2 ^ 1024 - 2 ^ 970)%Z.

(** [float(z)] of an [int] below the overflow bound: [z] itself up to 53
    significant bits, beyond that the nearest multiple of the power of two
    that leaves 53 bits, ties to the even one. *)
Definition int_to_float (z : Z) : Z :=
  let shift := (Z.log2 (Z.abs z) - 52)%Z in
  if (shift <=? 0)%Z then z
  else
    (Z.sgn z
     * (round_half_even (Z.abs z # Z.to_pos (2 ^ shift)) * 2 ^ shift))%Z.

(** The format spec of the field [{x:.<prec>f}]. *)
Definition format_spec (prec : nat) : string :=
  "." +:+ NilZero.string_of_uint (Nat.to_uint prec) +:+ "f".

(** [format(v, '.<prec>f')] as an f-string field evaluates it: an [int]
    is converted to a float first, an object of another class answers
    with its own [__format__]. *)
Definition format_f (prec : nat) (v : pyval) : exn + string :=
  match v with
  | PyBool b => inr (format_fixed prec (if b then 1 else 0))
  | PyInt z =>
      if (float_overflow_bound <=? Z.abs z)%Z
      then inl (OverflowError "int too large to convert to float")
      else inr (format_fixed prec (inject_Z (int_to_float z)))
  | PyFloat (Finite q) => inr (format_fixed prec q)
  | PyFloat FNaN => inr "nan"
  | PyFloat (FInf negative) => inr (if negative then "-inf" else "inf")
  | PyStr _ =>
      inl (ValueError "Unknown format code 'f' for object of type 'str'")
  | PyNone | PyList _ | PyTuple _ | NdArray _ =>
      inl (TypeError "unsupported format string passed to __format__")
  | PyObject format => format (format_spec prec)
  end.

(** [datetime.date.__format__]: [str(self)] for an empty spec, otherwise
    [strftime(spec)], which copies a spec holding no [%] directive (the
    specs of lines 17-18 hold none). *)
Definition date_format (isoformat : string) (spec : string) : exn + string :=
  match spec with
  | EmptyString => inr isoformat
  | _ => inr spec
  end.

(** A [datetime.date], by its ISO text. *)
Definition datetime_date (isoformat : string) : pyval :=
  PyObject (date_format isoformat).

(** The numeric scalars: [bool] (a subclass of [int]), [int], [float]. *)
Definition is_number (v : pyval) : bool :=
  match v with
  | PyBool _ | PyInt _ | PyFloat _ => true
  | _ => false
  end.

(** A number, or an object whose own [__format__] returns a string for
    the spec of a field of the given precision. *)
Definition formattable (prec : nat) (v : pyval) : bool :=
  match v with
  | PyObject format =>
      match format (format_spec prec) with
      | inr _ => true
      | inl _ => false
      end
  | _ => is_number v
  end.

(** The precisions of the six fields of lines 17-18. *)
Definition field_precisions : list nat := [0; 0; 0; 0; 0; 3]%nat.

(** A vector, list or array, of exactly six components, each of them
    formattable under the spec of its field. *)
Definition six_formattable (v : pyval) : Prop :=
  exists items,
    (v = PyList items \/ v = NdArray items)
    /\ length items = 6%nat
    /\ forallb id (zip_with formattable field_precisions items) = true.

(** Sequencing of fallible evaluations. *)
Definition ebind {A B} (r : exn + A) (k : A -> exn + B) : exn + B :=
  match r with
  | inl e => inl e
  | inr a => k a
  end.

(** Lines 6-21. *)
Definition format_matlab_time (matlab_time : pyval) : string :=
  let matlab_time :=
    match matlab_time with
    | NdArray _ => tolist matlab_time
    | _ => matlab_time
    end in
  match matlab_time with
  | PyList [t0; t1; t2; t3; t4; t5] =>
      let formatted :=
        ebind (format_f 0 t0) (fun s0 =>
        ebind (format_f 0 t1) (fun s1 =>
        ebind (format_f 0 t2) (fun s2 =>
        ebind (format_f 0 t3) (fun s3 =>
        ebind (format_f 0 t4) (fun s4 =>
        ebind (format_f 3 t5) (fun s5 =>
          inr ("[" +:+ s0 +:+ ". " +:+ s1 +:+ ". " +:+ s2 +:+ ". "
                   +:+ s3 +:+ ". " +:+ s4 +:+ ". " +:+ s5 +:+ "]"))))))) in
      match formatted with
      | inr s => s
      | inl _ => "[]"
      end
  | _ => "[]"
  end.

(** *** Raw cycle records and tables *)

(** An element of a numpy object array or a cell of a written table. *)
Inductive obj : Type :=
| OFloat (x : option Q)
| OInt (z : Z)
| OStr (s : string).

(** One element of the [cycle] struct array of a battery record:
    [cycle['type'][0]], [cycle["time"][0]],
    [cycle["ambient_temperature"][0][0]], and the [data] struct (field
    name and flattened array, in dtype order) when the dtype has a
    [data] field. *)
Record cycle : Type := mkCycle {
  cyc_type : string;
  cyc_time : pyval;
  cyc_ambient_temperature : obj;
  cyc_data : option (list (string * list obj))
}.

(** A line of a CSV file. *)
Inductive csv_line : Type :=
| Header (columns : list string)
| Line (cells : list obj).

(** The interpreter state the script acts on: the module-level
    [file_id], the files below [output_folder], and the printed lines. *)
Record world : Type := mkWorld {
  file_id : N;
  files : gmap string (list csv_line);
  stdout : list string
}.

(** State and exceptions. *)
Definition M (A : Type) : Type := world -> world * (exn + A).

Definition ret {A} (a : A) : M A := fun w => (w, inr a).

Definition raise {A} (e : exn) : M A := fun w => (w, inl e).

Definition bind {A B} (m : M A) (k : A -> M B) : M B :=
  fun w =>
    match m w with
    | (w', inl e) => (w', inl e)
    | (w', inr a) => k a w'
    end.

Notation "'let*' x ':=' c 'in' k" := (bind c (fun x => k))
  (at level 10, x pattern, c at level 100, k at level 200).
Notation "c ';;' k" := (bind c (fun _ => k))
  (at level 100, k at level 200, right associativity).

Definition lift {A} (r : exn + A) : M A :=
  match r with
  | inl e => raise e
  | inr a => ret a
  end.

Definition print (s : string) : M unit :=
  fun w =>
    ({| file_id := file_id w; files := files w; stdout := stdout w ++ [s] |},
     inr tt).

Definition get_file_id : M N := fun w => (w, inr (file_id w)).

Definition set_file_id (n : N) : M unit :=
  fun w => ({| file_id := n; files := files w; stdout := stdout w |}, inr tt).

(** [os.path.exists] *)
Definition path_exists (path : string) : M bool :=
  fun w => (w, inr (bool_decide (is_Some (files w !! path)))).

(** [os.path.join] of two components. *)
Definition path_join (a b : string) : string :=
  if String.prefix "/" b then b
  else if bool_decide (a = "") then b
  else if String.eqb (substring (String.length a - 1) 1 a) "/" then a +:+ b
  else a +:+ "/" +:+ b.

(** What [os.path.join] puts before a relative second component. *)
Definition path_prefix (a : string) : string :=
  if bool_decide (a = "") then ""
  else if String.eqb (substring (String.length a - 1) 1 a) "/" then a
  else a +:+ "/".

(** The rows of a data frame given by its columns. *)
Definition frame_rows (columns : list (string * list obj)) : list csv_line :=
  match columns with
  | [] => []
  | (_, c0) :: _ =>
      map (fun i => Line (map (fun c => default (OStr "") (c.2 !! i)) columns))
          (seq 0 (length c0))
  end.

(** [df.to_csv(path, index=False)] of a frame given by its columns. *)
Definition to_csv (columns : list (string * list obj)) (path : string)
  : M unit :=
  fun w =>
    ({| file_id := file_id w;
        files := <[path := Header (map fst columns) :: frame_rows columns]>
                   (files w);
        stdout := stdout w |}, inr tt).

(** [df.to_csv(path, index=False, mode='a', header=header)] of a frame
    given by its column names and its rows. *)
Definition to_csv_append (columns : list string) (rows : list csv_line)
    (path : string) (header : bool) : M unit :=
  fun w =>
    ({| file_id := file_id w;
        files :=
          <[path := default [] (files w !! path)
                    ++ (if header then [Header columns] else []) ++ rows]>
            (files w);
        stdout := stdout w |}, inr tt).

(** *** [process_cycle_data], lines 23-71 *)

Definition charge_fields : list string :=
  ["Voltage_measured"; "Current_measured"; "Temperature_measured";
   "Current_charge"; "Voltage_charge"; "Time"].

Definition discharge_fields : list string :=
  ["Voltage_measured"; "Current_measured"; "Temperature_measured";
   "Current_load"; "Voltage_load"; "Time"].

Definition impedance_fields : list string :=
  ["Sense_current"; "Battery_current"; "Current_ratio";
   "Battery_impedance"; "Rectified_Impedance"].

(** Lines 40-48. *)
Definition fields_of (cycle_type : string) : option (list string) :=
  if String.eqb cycle_type "charge" then Some charge_fields
  else if String.eqb cycle_type "discharge" then Some discharge_fields
  else if String.eqb cycle_type "impedance" then Some impedance_fields
  else None.

(** A Python [dict] with string keys: insertion-ordered, an assignment
    to an existing key keeps its place. *)
Fixpoint dict_set {V} (k : string) (v : V) (d : list (string * V))
  : list (string * V) :=
  match d with
  | [] => [(k, v)]
  | (k', v') :: tl =>
      if String.eqb k' k then (k, v) :: tl else (k', v') :: dict_set k v tl
  end.

Fixpoint dict_get {V} (k : string) (d : list (string * V)) : option V :=
  match d with
  | [] => None
  | (k', v') :: tl => if String.eqb k' k then Some v' else dict_get k tl
  end.

(** Lines 50-60: the loop over the declared fields, on the pair
    [(max_len, data_dict)]. *)
Definition collect_step (data : list (string * list obj))
    (acc : nat * list (string * list obj)) (name : string)
  : nat * list (string * list obj) :=
  match dict_get name data with
  | Some arr => (Nat.max acc.1 (length arr), dict_set name arr acc.2)
  | None => (acc.1, dict_set name [] acc.2)
  end.

Definition collect (data : list (string * list obj)) (fields : list string)
  : nat * list (string * list obj) :=
  fold_left (collect_step data) fields (0%nat, []).

(** Lines 62-67: the loop over the keys of [data_dict]. *)
Definition pad_step (max_len : nat) (data_dict : list (string * list obj))
    (name : string) : list (string * list obj) :=
  match dict_get name data_dict with
  | Some arr =>
      let cur_len := length arr in
      if (cur_len <? max_len)%nat
      then dict_set name (arr ++ replicate (max_len - cur_len) (OStr ""))
                    data_dict
      else data_dict
  | None => data_dict
  end.

Definition pad (max_len : nat) (data_dict : list (string * list obj))
  : list (string * list obj) :=
  fold_left (pad_step max_len) (map fst data_dict) data_dict.

(** The flattened array of a field, empty when the struct lacks it. *)
Definition field_array (data : list (string * list obj)) (name : string)
  : list obj :=
  default [] (dict_get name data).

(** The longest declared field. *)
Definition longest (data : list (string * list obj)) (fields : list string)
  : nat :=
  foldr Nat.max 0%nat (map (fun name => length (field_array data name)) fields).

(** A column right-padded with empty strings up to a length. *)
Definition padded (max_len : nat) (arr : list obj) : list obj :=
  arr ++ replicate (max_len - length arr) (OStr "").

(** [pd.DataFrame(data_dict)]: the columns must have one length. *)
Definition DataFrame (data_dict : list (string * list obj))
  : exn + list (string * list obj) :=
  match data_dict with
  | [] => inr []
  | (_, c0) :: tl =>
      if forallb (fun kv => (length kv.2 =? length c0)%nat) tl
      then inr data_dict
      else inl (ValueError "All arrays must be of the same length")
  end.

(** The frame of lines 50-69 for a data struct and a field list. *)
Definition cycle_frame (data : list (string * list obj))
    (fields : list string) : exn + list (string * list obj) :=
  let '(max_len, data_dict) := collect data fields in
  DataFrame (pad max_len data_dict).

Definition process_cycle_data (cycle : cycle) (cycle_type : string)
    (file_path : string) : M unit :=
  match cyc_data cycle with
  | None => print ("Skipping cycle, no 'data' field found: " +:+ file_path)
  | Some data =>
      match fields_of cycle_type with
      | None =>
          print ("Skipping cycle, unknown cycle type: " +:+ file_path)
      | Some fields =>
          let* df := lift (cycle_frame data fields) in
          to_csv df file_path;;
          print ("Saved " +:+ cycle_type +:+ " data to " +:+ file_path)
      end
  end.

(** *** [process_metadata_and_cycles], lines 75-118 *)

(** One entry of [cycle_info]. *)
Record meta_row : Type := mkMeta {
  m_type : string;
  m_start_time : string;
  m_ambient_temperature : obj;
  m_battery_id : string;
  m_test_id : N;
  m_uid : N;
  m_filename : string;
  m_Capacity : obj;
  m_Re : obj;
  m_Rct : obj
}.

Definition metadata_columns : list string :=
  ["type"; "start_time"; "ambient_temperature"; "battery_id"; "test_id";
   "uid"; "filename"; "Capacity"; "Re"; "Rct"].

Definition meta_line (m : meta_row) : csv_line :=
  Line [OStr (m_type m); OStr (m_start_time m); m_ambient_temperature m;
        OStr (m_battery_id m); OInt (Z.of_N (m_test_id m));
        OInt (Z.of_N (m_uid m)); OStr (m_filename m);
        m_Capacity m; m_Re m; m_Rct m].

(** [f"{file_id:05d}.csv"] *)
Definition file_number_of (file_id : N) : string :=
  zfill 5 (NilZero.string_of_uint (N.to_uint file_id)) +:+ ".csv".

(** Lines 100-102: [cycle["data"][field][0, 0].flatten()[0] if cycle_type
    == wanted and field in cycle["data"].dtype.names else ""]. *)
Definition first_value (cycle : cycle) (cycle_type wanted field : string)
  : M obj :=
  if String.eqb cycle_type wanted then
    match cyc_data cycle with
    | None => raise (ValueError "no field of name data")
    | Some data =>
        match dict_get field data with
        | None => ret (OStr "")
        | Some [] =>
            raise (IndexError
                     "index 0 is out of bounds for axis 0 with size 0")
        | Some (x :: _) => ret x
        end
    end
  else ret (OStr "").

(** Lines 90-109: one iteration, on the locals [(cycle_info, test_id)]. *)
Definition cycle_step (battery_id data_folder : string)
    (acc : list meta_row * N) (cycle : cycle) : M (list meta_row * N) :=
  let '(cycle_info, test_id) := acc in
  let cycle_type := cyc_type cycle in
  let start_time := format_matlab_time (cyc_time cycle) in
  let ambient_temperature := cyc_ambient_temperature cycle in
  let* fid := get_file_id in
  let file_number := file_number_of fid in
  let file_path := path_join data_folder file_number in
  process_cycle_data cycle cycle_type file_path;;
  let* capacity := first_value cycle cycle_type "discharge" "Capacity" in
  let* re := first_value cycle cycle_type "impedance" "Re" in
  let* rct := first_value cycle cycle_type "impedance" "Rct" in
  let cycle_info :=
    cycle_info ++
      [{| m_type := cycle_type; m_start_time := start_time;
          m_ambient_temperature := ambient_temperature;
          m_battery_id := battery_id; m_test_id := test_id; m_uid := fid;
          m_filename := file_number; m_Capacity := capacity; m_Re := re;
          m_Rct := rct |}] in
  let* fid' := get_file_id in
  set_file_id (fid' + 1);;
  ret (cycle_info, (test_id + 1)%N).

(** The [for] loop of line 89.  ([os.makedirs] on line 84 only creates
    the directory; the store is keyed by full path.) *)
Fixpoint for_cycles (battery_id data_folder : string)
    (acc : list meta_row * N) (cycles : list cycle)
  : M (list meta_row * N) :=
  match cycles with
  | [] => ret acc
  | c :: tl =>
      let* acc' := cycle_step battery_id data_folder acc c in
      for_cycles battery_id data_folder acc' tl
  end.

Definition process_metadata_and_cycles (cycle_data : list cycle)
    (battery_id : string) (output_folder : string) : M unit :=
  let data_folder := path_join output_folder "data" in
  let* acc := for_cycles battery_id data_folder ([], 0%N) cycle_data in
  let metadata_path := path_join output_folder "metadata.csv" in
  let* present := path_exists metadata_path in
  to_csv_append metadata_columns (map meta_line acc.1) metadata_path
                (negb present);;
  print ("Metadata saved to " +:+ metadata_path).

(** *** The script, lines 73 and 120-138 *)

Definition dataset_folder : string := "dataset/raw".
Definition output_folder : string := "dataset/processed".

(** [s.endswith(suffix)] *)
Definition endswith (s suffix : string) : bool :=
  let n := String.length s in
  let m := String.length suffix in
  (m <=? n)%nat && String.eqb (substring (n - m) m s) suffix.

(** [s.split(".")[0]] *)
Fixpoint before_dot (s : string) : string :=
  match s with
  | EmptyString => EmptyString
  | String c tl =>
      if Ascii.eqb c "."%char then EmptyString else String c (before_dot tl)
  end.

Definition excluded : list string :=
  ["B0049.mat"; "B0050.mat"; "B0051.mat"; "B0052.mat"].

(** The loop of lines 126-136 over [sorted(os.listdir(dataset_folder))];
    each name comes with the [cycle] array that [loadmat] decodes from
    it. *)
Fixpoint for_files (listing : list (string * list cycle)) : M unit :=
  match listing with
  | [] => ret tt
  | (filename, cycle_data) :: tl =>
      (if endswith filename ".mat" && negb (bool_decide (filename ∈ excluded))
       then
         let battery_id := before_dot filename in
         print (String "010"%char "Processing " +:+ filename
                +:+ " (Battery ID: " +:+ battery_id +:+ ")");;
         process_metadata_and_cycles cycle_data battery_id output_folder
       else ret tt);;
      for_files tl
  end.

(** Lines 123-138; [None] when [dataset_folder] does not exist. *)
Definition main (raw : option (list (string * list cycle))) : M unit :=
  match raw with
  | None => print ("Error: Folder '" +:+ dataset_folder +:+ "' not found.")
  | Some listing =>
      for_files listing;;
      print (String "010"%char
               "Processing complete! Check the 'processed' folder for results.")
  end.

(** One run of the script over the files already on disk: line 73 sets
    [file_id = 1] when the module is loaded. *)
Definition run_script (on_disk : gmap string (list csv_line))
    (raw : option (list (string * list cycle))) : world * (exn + unit) :=
  main raw {| file_id := 1; files := on_disk; stdout := [] |}.

(** *** Reading the metadata index back, and concrete inputs *)

Definition is_header (l : csv_line) : bool :=
  match l with
  | Header _ => true
  | Line _ => false
  end.

(** The [uid] cell of a line of the metadata index. *)
Definition line_uid (l : csv_line) : option Z :=
  match l with
  | Line (_ :: _ :: _ :: _ :: _ :: OInt uid :: _) => Some uid
  | _ => None
  end.

Definition metadata_path : string := path_join output_folder "metadata.csv".

Definition april_2 : pyval :=
  NdArray (map (fun z => PyFloat (Finite (inject_Z z)))
               [2008; 4; 2; 13; 8; 17]%Z).

(** A charge cycle with two voltage samples and three time samples. *)
Definition charge_cycle : cycle :=
  {| cyc_type := "charge"; cyc_time := april_2;
     cyc_ambient_temperature := OFloat (Some 24%Q);
     cyc_data :=
       Some [("Voltage_measured", [OFloat (Some 4%Q); OFloat (Some (41 # 10))]);
             ("Time", [OFloat (Some 0%Q); OFloat (Some 10%Q);
                       OFloat (Some 20%Q)])] |}.

(** A cycle of a type outside charge, discharge and impedance. *)
Definition rest_cycle : cycle :=
  {| cyc_type := "rest"; cyc_time := april_2;
     cyc_ambient_temperature := OFloat (Some 24%Q);
     cyc_data := Some [("Time", [OFloat (Some 0%Q)])] |}.

(** A charge cycle of a record whose cycles have no [data] field. *)
Definition bare_cycle : cycle :=
  {| cyc_type := "charge"; cyc_time := april_2;
     cyc_ambient_temperature := OFloat (Some 24%Q);
     cyc_data := None |}.

Definition fresh_world : world :=
  {| file_id := 1; files := ∅; stdout := [] |}.

(** One battery whose record holds the three cycles above. *)
Definition mixed_corpus : option (list (string * list cycle)) :=
  Some [("B0005.mat", [bare_cycle; rest_cycle; charge_cycle])].

(** A world in which the metadata index already exists. *)
Definition indexed_world : world :=
  {| file_id := 1;
     files := {[ metadata_path := [Header metadata_columns] ]};
     stdout := [] |}.

(** *** The loop of lines 89-109 as a function of its input *)

(** The test of line 128 on an entry of the listing. *)
Definition processed (entry : string * list cycle) : bool :=
  endswith entry.1 ".mat" && negb (bool_decide (entry.1 ∈ excluded)).

(** What lines 100-102 evaluate to when they do not raise. *)
Definition gated_value (c : cycle) (wanted field : string) : obj :=
  if String.eqb (cyc_type c) wanted then
    match cyc_data c with
    | Some data =>
        match dict_get field data with
        | Some (x :: _) => x
        | _ => OStr ""
        end
    | None => OStr ""
    end
  else OStr "".

(** A value [v] agrees with the gate of lines 100-102: empty unless the
    cycle has the wanted type and the field, and then its first element. *)
Definition gated (c : cycle) (wanted field : string) (v : obj) : Prop :=
  (cyc_type c <> wanted -> v = OStr "")
  /\ (forall data,
        cyc_type c = wanted -> cyc_data c = Some data ->
        match dict_get field data with
        | None => v = OStr ""
        | Some (x :: _) => v = x
        | Some [] => False
        end).

(** The cycles on which lines 100-102 do not raise: a discharge or
    impedance cycle needs its data container, and the summary fields it
    has must not be empty arrays. *)
Definition has_value (c : cycle) (wanted field : string) : Prop :=
  cyc_type c = wanted ->
  exists data, cyc_data c = Some data /\ dict_get field data <> Some [].

Definition well_formed (c : cycle) : Prop :=
  has_value c "discharge" "Capacity"
  /\ has_value c "impedance" "Re"
  /\ has_value c "impedance" "Rct".

(** The entry that lines 104-106 append for a cycle. *)
Definition expected_row (battery_id : string) (fid test_id : N) (c : cycle)
  : meta_row :=
  {| m_type := cyc_type c;
     m_start_time := format_matlab_time (cyc_time c);
     m_ambient_temperature := cyc_ambient_temperature c;
     m_battery_id := battery_id; m_test_id := test_id; m_uid := fid;
     m_filename := file_number_of fid;
     m_Capacity := gated_value c "discharge" "Capacity";
     m_Re := gated_value c "impedance" "Re";
     m_Rct := gated_value c "impedance" "Rct" |}.

Fixpoint rows_from (battery_id : string) (fid test_id : N)
    (cycles : list cycle) : list meta_row :=
  match cycles with
  | [] => []
  | c :: tl =>
      expected_row battery_id fid test_id c
        :: rows_from battery_id (fid + 1) (test_id + 1) tl
  end.

(** The table that lines 50-69 write for a cycle, when it is not
    skipped. *)
Definition cycle_table (c : cycle) : option (list csv_line) :=
  match cyc_data c, fields_of (cyc_type c) with
  | Some data, Some fields =>
      Some (Header fields
            :: frame_rows
                 (map (fun name =>
                         (name, padded (longest data fields)
                                       (field_array data name)))
                      fields))
  | _, _ => None
  end.

(** The tables that the loop of line 89 leaves in the store for cycles
    numbered from [fid]. *)
Fixpoint write_tables (data_folder : string) (fid : N) (cycles : list cycle)
    (fs : gmap string (list csv_line)) : gmap string (list csv_line) :=
  match cycles with
  | [] => fs
  | c :: tl =>
      write_tables data_folder (fid + 1) tl
        match cycle_table c with
        | Some t => <[path_join data_folder (file_number_of fid) := t]> fs
        | None => fs
        end
  end.

(** The entries of a whole run over the processed files of a listing,
    numbered from [fid]. *)
Fixpoint run_rows (fid : N) (kept : list (string * list cycle))
  : list meta_row :=
  match kept with
  | [] => []
  | (filename, cycle_data) :: tl =>
      rows_from (before_dot filename) fid 0 cycle_data
        ++ run_rows (fid + N.of_nat (length cycle_data)) tl
  end.

(** The number of cycles in the processed files of a listing. *)
Definition total_cycles (kept : list (string * list cycle)) : nat :=
  sum_list (map (fun e => length e.2) kept).

(** A discharge cycle with its summary capacity, and an impedance cycle
    with its two resistances. *)
Definition discharge_cycle : cycle :=
  {| cyc_type := "discharge"; cyc_time := april_2;
     cyc_ambient_temperature := OFloat (Some 24%Q);
     cyc_data :=
       Some [("Voltage_measured", [OFloat (Some 4%Q); OFloat (Some (27 # 10))]);
             ("Time", [OFloat (Some 0%Q); OFloat (Some 3600%Q)]);
             ("Capacity", [OFloat (Some (185 # 100))])] |}.

Definition impedance_cycle : cycle :=
  {| cyc_type := "impedance"; cyc_time := april_2;
     cyc_ambient_temperature := OFloat (Some 24%Q);
     cyc_data :=
       Some [("Battery_impedance", [OFloat (Some (2 # 10))]);
             ("Re", [OFloat (Some (44 # 1000))]);
             ("Rct", [OFloat (Some (69 # 1000))])] |}.

(** An [int] small enough to convert to a float; other values pass. *)
Definition in_float_range (v : pyval) : bool :=
  match v with
  | PyInt z => (Z.abs z <? float_overflow_bound)%Z
  | _ => true
  end.

(** A component that a field of the given precision formats. *)
Definition accepted (prec : nat) (v : pyval) : bool :=
  formattable prec v && in_float_range v.

(** A vector, list or array, of exactly six components, each of them
    accepted by its field. *)
Definition six_accepted (v : pyval) : Prop :=
  exists items,
    (v = PyList items \/ v = NdArray items)
    /\ length items = 6%nat
    /\ forallb id (zip_with accepted field_precisions items) = true.

(** Six dates, as [tolist()] returns them for an array of dates. *)
Definition six_dates : list pyval :=
  replicate 6 (datetime_date "2008-04-02").

End LoadData.

Module ProcessData.

(** A float64 cell of a data frame; [None] is NaN. *)
Definition cell : Type := option Q.

(** The columns of a per-cycle table that the estimator reads. *)
Record row : Type := mkRow {
  Voltage_measured : cell;
  Current_measured : cell;
  Temperature_measured : cell;
  Time : cell
}.

(** What [data_folder] holds under a file name: a table with the four
    numeric columns, or a file on which [pd.read_csv] or a column access
    of the loop body raises the given exception.  A name that is absent
    from the store raises [FileNotFoundError]. *)
Inductive csv_content : Type :=
| Frame (rows : list row)
| Malformed (e : exn).

(** The columns of the metadata index that the estimator reads
    ([battery_id] after [astype(str)]). *)
Record md_row : Type := mkMd {
  md_type : string;
  md_battery_id : string;
  md_filename : string
}.

(** The keyword arguments of [compute_battery_health]. *)
Record config : Type := mkConfig {
  num_bins : Z;
  nominal_capacity : Q;
  min_capacity : Q;
  disc_cutoff_voltage : Q
}.

(** The defaults of the signature. *)
Definition default_config : config :=
  {| num_bins := 20; nominal_capacity := 2; min_capacity := 14 # 10;
     disc_cutoff_voltage := 27 # 10 |}.

(** One row of the health dataset. *)
Record health_row : Type := mkHealth {
  h_Voltage_measured : cell;
  h_Current_measured : cell;
  h_Temperature_measured : cell;
  h_SoC : cell;
  h_cycle_number : nat;
  h_battery_id : string;
  h_SoH : cell
}.

(** *** Series operations *)

(** [series < x]: a NaN cell compares false. *)
Definition cell_ltb (c : cell) (x : Q) : bool :=
  match c with
  | Some v => Qltb v x
  | None => false
  end.

(** Binary float operations propagate NaN. *)
Definition cell_op (f : Q -> Q -> Q) (a b : cell) : cell :=
  match a, b with
  | Some x, Some y => Some (f x y)
  | _, _ => None
  end.

(** [df[mask].index]: the labels of a default range index kept by a
    boolean mask. *)
Fixpoint mask_index (i : nat) (mask : list bool) : list nat :=
  match mask with
  | [] => []
  | true :: tl => i :: mask_index (S i) tl
  | false :: tl => mask_index (S i) tl
  end.

(** [Index.min()]: NaN ([None]) on an empty index. *)
Definition index_min (ix : list nat) : option nat :=
  match ix with
  | [] => None
  | i :: tl => Some (fold_left Nat.min tl i)
  end.

(** [Series.diff()] *)
Definition diff (xs : list cell) : list cell :=
  match xs with
  | [] => []
  | _ :: tl => None :: zip_with (cell_op Qminus) tl xs
  end.

(** [Series.fillna(v)] *)
Definition fillna (v : Q) (xs : list cell) : list cell :=
  map (fun c => Some (default v c)) xs.

(** [Series.sum()] with the default [skipna=True], added exactly. *)
Definition nansum (xs : list cell) : Q :=
  fold_left (fun acc c => match c with Some x => acc + x | None => acc end)%Q
            xs 0%Q.

(** [Series.cumsum()] with the default [skipna=True], added exactly: a
    NaN stays NaN and does not enter the running total. *)
Fixpoint cumsum_from (acc : Q) (xs : list cell) : list cell :=
  match xs with
  | [] => []
  | None :: tl => None :: cumsum_from acc tl
  | Some x :: tl => Some (acc + x)%Q :: cumsum_from (acc + x)%Q tl
  end.

Definition cumsum (xs : list cell) : list cell := cumsum_from 0%Q xs.

(** [Series.mean()] with the default [skipna=True], in exact
    arithmetic. *)
Definition mean (xs : list cell) : cell :=
  match omap id xs with
  | [] => None
  | ys => Some (fold_left Qplus ys 0 / inject_Z (Z.of_nat (length ys)))%Q
  end.

(** *** The body of the loop, lines 29-70 *)

(** Lines 32-33: the cut-off index and the trimmed frame. *)
Definition cutoff_idx (cfg : config) (df : list row) : option nat :=
  index_min
    (mask_index 0
       (map (fun r => cell_ltb (Voltage_measured r) (disc_cutoff_voltage cfg))
            df)).

Definition trimmed_df (cfg : config) (df : list row) : list row :=
  match cutoff_idx cfg df with
  | None => df
  | Some k => take k df
  end.

(** Line 36: [Time.diff().fillna(0) / 3600]. *)
Definition Time_diff_hr (trimmed : list row) : list cell :=
  map (fun c => (fun x => x / 3600)%Q <$> c)
      (fillna 0 (diff (map Time trimmed))).

(** Line 38. *)
Definition Delta_Q (trimmed : list row) : list cell :=
  zip_with (cell_op Qmult) (map Current_measured trimmed)
           (Time_diff_hr trimmed).

(** Line 39, in exact arithmetic; [Estimator.capacity] is the value
    in float64. *)
Definition capacity (trimmed : list row) : Q :=
  Qabs (nansum (Delta_Q trimmed)).

(** Line 46. *)
Definition Cumulative_Q (trimmed : list row) : list cell :=
  cumsum (Delta_Q trimmed).

(** Line 47: [(1 + Cumulative_Q / capacity) * 100]; with a zero capacity
    every quotient is NaN or infinite. *)
Definition SoC_of (cap : Q) (cq : cell) : cell :=
  if Qeq_bool cap 0 then None
  else (fun q => (1 + q / cap) * 100)%Q <$> cq.

Definition SoC (trimmed : list row) : list cell :=
  map (SoC_of (capacity trimmed)) (Cumulative_Q trimmed).

(** Line 50: [(capacity / nominal_capacity) * 100]. *)
Definition SoH_of (cfg : config) (cap : Q) : cell :=
  if Qeq_bool (nominal_capacity cfg) 0 then None
  else Some (cap / nominal_capacity cfg * 100)%Q.

(** A row of the trimmed frame with the columns that lines 42-50 add and
    that the binning reads. *)
Record arow : Type := mkArow {
  a_row : row;
  a_battery_id : string;
  a_cycle_number : nat;
  a_SoC : cell;
  a_SoH : cell
}.

Definition augment (cfg : config) (battery : string) (cycle_number : nat)
    (trimmed : list row) : list arow :=
  zip_with
    (fun r soc =>
       {| a_row := r; a_battery_id := battery;
          a_cycle_number := cycle_number; a_SoC := soc;
          a_SoH := SoH_of cfg (capacity trimmed) |})
    trimmed (SoC trimmed).

(** Lines 55-66: one aggregated row per non-empty bin. *)
Fixpoint agg_rows (bins : list (list arow)) : list health_row :=
  match bins with
  | [] => []
  | [] :: tl => agg_rows tl
  | (r0 :: _) as b :: tl =>
      {| h_Voltage_measured := mean (map (fun a => Voltage_measured (a_row a)) b);
         h_Current_measured := mean (map (fun a => Current_measured (a_row a)) b);
         h_Temperature_measured :=
           mean (map (fun a => Temperature_measured (a_row a)) b);
         h_SoC := mean (map a_SoC b);
         h_cycle_number := a_cycle_number r0;
         h_battery_id := a_battery_id r0;
         h_SoH := a_SoH r0 |} :: agg_rows tl
  end.

(** Lines 32-70 on a loaded frame: the data frames that this cycle
    appends to [processed_dfs] (none or one), or the exception raised. *)
Definition process_frame (cfg : config) (battery : string)
    (cycle_number : nat) (df : list row) : exn + list (list health_row) :=
  let trimmed := trimmed_df cfg df in
  if Qltb (min_capacity cfg) (capacity trimmed) then
    match Numpy.array_split (augment cfg battery cycle_number trimmed)
                            (num_bins cfg) with
    | inl e => inl e
    | inr bins =>
        let cycle_df := agg_rows bins in
        if (Z.of_nat (length cycle_df) =? num_bins cfg)%Z
        then inr [cycle_df]
        else inr []
    end
  else inr [].

(** Line 30 *)
Definition read_csv (files : gmap string csv_content) (file_path : string)
  : exn + list row :=
  match files !! file_path with
  | None =>
      inl (FileNotFoundError
             ("[Errno 2] No such file or directory: '" +:+ file_path +:+ "'"))
  | Some (Malformed e) => inl e
  | Some (Frame rows) => inr rows
  end.

(** Lines 29-70: the body of the [try]. *)
Definition try_body (cfg : config) (data_folder : string)
    (files : gmap string csv_content) (r : md_row) (cycle_number : nat)
  : exn + list (list health_row) :=
  let file_path := data_folder +:+ "/" +:+ md_filename r in
  match read_csv files file_path with
  | inl e => inl e
  | inr df => process_frame cfg (md_battery_id r) cycle_number df
  end.

(** What one iteration adds to [processed_dfs]: the frames of the
    [try] body, nothing when the handler of line 72 runs. *)
Definition appended (cfg : config) (data_folder : string)
    (files : gmap string csv_content) (rn : md_row * nat)
  : list (list health_row) :=
  match try_body cfg data_folder files rn.1 rn.2 with
  | inr dfs => dfs
  | inl _ => []
  end.

(** What one iteration prints: the line of the handler, if it runs. *)
Definition error_lines (cfg : config) (data_folder : string)
    (files : gmap string csv_content) (rn : md_row * nat) : list string :=
  match try_body cfg data_folder files rn.1 rn.2 with
  | inr _ => []
  | inl e =>
      ["Error processing " +:+ md_filename rn.1 +:+ ": " +:+ exn_str e]
  end.

(** *** The function *)

(** Line 22. *)
Definition discharge_metadata (metadata : list md_row) : list md_row :=
  filter (fun r => md_type r = "discharge") metadata.

(** Line 23: [groupby('battery_id').cumcount() + 1]. *)
Fixpoint cumcount_from (seen : list string) (rows : list md_row)
  : list (md_row * nat) :=
  match rows with
  | [] => []
  | r :: tl =>
      (r, S (length (filter (fun b => b = md_battery_id r) seen)))
        :: cumcount_from (md_battery_id r :: seen) tl
  end.

Definition with_cycle_number (rows : list md_row) : list (md_row * nat) :=
  cumcount_from [] rows.

(** What a call leaves behind: the printed lines and, when [to_csv] ran,
    the path and rows of the health dataset. *)
Record outcome : Type := mkOutcome {
  stdout : list string;
  written : option (string * list health_row)
}.

(** The state of the loop of lines 27-73. *)
Record loop_state : Type := mkLoop {
  processed_dfs : list (list health_row);
  printed : list string
}.

(** One iteration: the [try] body with its [except Exception] handler. *)
Definition loop_step (cfg : config) (data_folder : string)
    (files : gmap string csv_content) (st : loop_state)
    (rn : md_row * nat) : loop_state :=
  match try_body cfg data_folder files rn.1 rn.2 with
  | inr dfs =>
      {| processed_dfs := processed_dfs st ++ dfs; printed := printed st |}
  | inl e =>
      {| processed_dfs := processed_dfs st;
         printed := printed st ++
           ["Error processing " +:+ md_filename rn.1 +:+ ": " +:+ exn_str e] |}
  end.

(** [compute_battery_health], on the parsed metadata index (line 18)
    and the content of [data_folder]; the [tqdm] progress bar is not
    part of the outcome. *)
Definition compute_battery_health (metadata : list md_row)
    (data_folder : string) (files : gmap string csv_content)
    (output_path : string) (cfg : config) : outcome :=
  let st :=
    fold_left (loop_step cfg data_folder files)
              (with_cycle_number (discharge_metadata metadata))
              {| processed_dfs := []; printed := [] |} in
  match processed_dfs st with
  | [] =>
      {| stdout := printed st ++ ["No valid files found!"]; written := None |}
  | _ :: _ =>
      {| stdout := printed st ++
           ["Saved processed dataset to " +:+ output_path];
         written := Some (output_path, concat (processed_dfs st)) |}
  end.

(** *** Concrete inputs *)

Definition numeric_row (v i temp t : Q) : row :=
  {| Voltage_measured := Some v; Current_measured := Some i;
     Temperature_measured := Some temp; Time := Some t |}.

(** A discharge at a constant 2 A sampled every 180 s for an hour, with
    20 samples after the first. *)
Definition steady_tail : list row :=
  map (fun k => numeric_row 4 (-2) 24 (inject_Z (180 * Z.of_nat k)))
      (seq 1 20).

Definition steady_df : list row := numeric_row 4 (-2) 24 0 :: steady_tail.

(** The same discharge whose first sample has no current reading. *)
Definition gap_first_df : list row :=
  {| Voltage_measured := Some 4%Q; Current_measured := None;
     Temperature_measured := Some 24%Q; Time := Some 0%Q |} :: steady_tail.

(** A single sample with no current flowing, under a negative threshold. *)
Definition idle_df : list row := [numeric_row 4 0 24 0].

Definition lenient_config : config :=
  {| num_bins := 1; nominal_capacity := 2; min_capacity := -1;
     disc_cutoff_voltage := 27 # 10 |}.

(** The path of the table of a metadata row, line 29. *)
Definition table_path (data_folder : string) (r : md_row) : string :=
  data_folder +:+ "/" +:+ md_filename r.

End ProcessData.

(** ** The loop body of the estimator over an arithmetic

    [ProcessData] evaluates lines 32-66 in exact rational arithmetic.
    [Estimator] is the same loop body over an arithmetic given by its
    operations, which leaves open how an operation rounds and in which
    order a reduction adds its terms.  The float64 arithmetic of numpy and
    the exact arithmetic of [ProcessData] are two such arithmetics
    ([binary64] and [exact] below). *)

Module Estimator.

Record arith : Type := mkArith {
  (** the values of a float64 column: numbers, infinities and NaN *)
  num : Type;
  (** a Python [int] operand, converted to a float *)
  of_int : Z -> num;
  nan : num;
  (** [pd.isna] *)
  isna : num -> bool;
  fadd : num -> num -> num;
  fsub : num -> num -> num;
  fmul : num -> num -> num;
  fdiv : num -> num -> num;
  (** the built-in [abs] *)
  fabs : num -> num;
  (** [a < b]; the test [a > b] is [b < a] *)
  flt : num -> num -> bool;
  (** [a <= b] *)
  fle : num -> num -> bool;
  (** [Series.sum()], [Series.cumsum()] and [Series.mean()], with the
      default [skipna=True] *)
  Series_sum : list num -> num;
  Series_cumsum : list num -> list num;
  Series_mean : list num -> num;
  (** NaN is missing; a value that is not above another is not greater
      than it; a running sum has an entry for every row *)
  isna_nan : isna nan = true;
  fle_not_gt : forall a b, fle a b = true -> flt b a = false;
  Series_cumsum_length :
    forall xs, length (Series_cumsum xs) = length xs
}.

Section Pipeline.
Context {A : arith}.

(** The columns of a per-cycle table that the estimator reads. *)
Record row : Type := mkRow {
  Voltage_measured : num A;
  Current_measured : num A;
  Temperature_measured : num A;
  Time : num A
}.

(** What [data_folder] holds under a file name, as in [ProcessData]. *)
Inductive csv_content : Type :=
| Frame (rows : list row)
| Malformed (e : exn).

(** The keyword arguments of [compute_battery_health]. *)
Record config : Type := mkConfig {
  num_bins : Z;
  nominal_capacity : num A;
  min_capacity : num A;
  disc_cutoff_voltage : num A
}.

(** One row of the health dataset. *)
Record health_row : Type := mkHealth {
  h_Voltage_measured : num A;
  h_Current_measured : num A;
  h_Temperature_measured : num A;
  h_SoC : num A;
  h_cycle_number : nat;
  h_battery_id : string;
  h_SoH : num A
}.

(** [Series.diff()] *)
Definition diff (xs : list (num A)) : list (num A) :=
  match xs with
  | [] => []
  | _ :: tl => nan A :: zip_with (fsub A) tl xs
  end.

(** [Series.fillna(v)] *)
Definition fillna (v : num A) (xs : list (num A)) : list (num A) :=
  map (fun c => if isna A c then v else c) xs.

(** Lines 32-33: the cut-off index and the trimmed frame. *)
Definition cutoff_idx (cfg : config) (df : list row) : option nat :=
  ProcessData.index_min
    (ProcessData.mask_index 0
       (map (fun r => flt A (Voltage_measured r) (disc_cutoff_voltage cfg))
            df)).

Definition trimmed_df (cfg : config) (df : list row) : list row :=
  match cutoff_idx cfg df with
  | None => df
  | Some k => take k df
  end.

(** Line 36: [Time.diff().fillna(0) / 3600]. *)
Definition Time_diff_hr (trimmed : list row) : list (num A) :=
  map (fun x => fdiv A x (of_int A 3600))
      (fillna (of_int A 0) (diff (map Time trimmed))).

(** Line 38. *)
Definition Delta_Q (trimmed : list row) : list (num A) :=
  zip_with (fmul A) (map Current_measured trimmed) (Time_diff_hr trimmed).

(** Line 39. *)
Definition capacity (trimmed : list row) : num A :=
  fabs A (Series_sum A (Delta_Q trimmed)).

(** Stated from the specification (4.4, steps 3 and 4), sample by
    sample: the elapsed time of a sample is 0 for the first one and the
    time since the previous sample otherwise (0 when that difference is
    missing), expressed in hours; the incremental charge of a sample is
    its measured current times its elapsed hours. *)
Definition spec_elapsed (prev : option (num A)) (t : num A) : num A :=
  match prev with
  | None => of_int A 0
  | Some t0 => if isna A (fsub A t t0) then of_int A 0 else fsub A t t0
  end.

Fixpoint spec_increments (prev : option (num A)) (rows : list row)
  : list (num A) :=
  match rows with
  | [] => []
  | r :: tl =>
      fmul A (Current_measured r)
             (fdiv A (spec_elapsed prev (Time r)) (of_int A 3600))
        :: spec_increments (Some (Time r)) tl
  end.

(** Line 46. *)
Definition Cumulative_Q (trimmed : list row) : list (num A) :=
  Series_cumsum A (Delta_Q trimmed).

(** Line 47: [(1 + Cumulative_Q / capacity) * 100]. *)
Definition SoC (trimmed : list row) : list (num A) :=
  map (fun cq =>
         fmul A (fadd A (of_int A 1) (fdiv A cq (capacity trimmed)))
                (of_int A 100))
      (Cumulative_Q trimmed).

(** Line 50: [(capacity / nominal_capacity) * 100]. *)
Definition SoH (cfg : config) (trimmed : list row) : num A :=
  fmul A (fdiv A (capacity trimmed) (nominal_capacity cfg)) (of_int A 100).

(** A row of the trimmed frame with the columns that lines 42-50 add. *)
Record arow : Type := mkArow {
  a_row : row;
  a_battery_id : string;
  a_cycle_number : nat;
  a_SoC : num A;
  a_SoH : num A
}.

Definition augment (cfg : config) (battery : string) (cycle_number : nat)
    (trimmed : list row) : list arow :=
  zip_with
    (fun r soc =>
       {| a_row := r; a_battery_id := battery;
          a_cycle_number := cycle_number; a_SoC := soc;
          a_SoH := SoH cfg trimmed |})
    trimmed (SoC trimmed).

(** Lines 55-66: one aggregated row per non-empty bin. *)
Fixpoint agg_rows (bins : list (list arow)) : list health_row :=
  match bins with
  | [] => []
  | [] :: tl => agg_rows tl
  | (r0 :: _) as b :: tl =>
      {| h_Voltage_measured :=
           Series_mean A (map (fun a => Voltage_measured (a_row a)) b);
         h_Current_measured :=
           Series_mean A (map (fun a => Current_measured (a_row a)) b);
         h_Temperature_measured :=
           Series_mean A (map (fun a => Temperature_measured (a_row a)) b);
         h_SoC := Series_mean A (map a_SoC b);
         h_cycle_number := a_cycle_number r0;
         h_battery_id := a_battery_id r0;
         h_SoH := a_SoH r0 |} :: agg_rows tl
  end.

(** Lines 32-70 on a loaded frame: the data frames that this cycle
    appends to [processed_dfs] (none or one), or the exception raised. *)
Definition process_frame (cfg : config) (battery : string)
    (cycle_number : nat) (df : list row) : exn + list (list health_row) :=
  let trimmed := trimmed_df cfg df in
  if flt A (min_capacity cfg) (capacity trimmed) then
    match Numpy.array_split (augment cfg battery cycle_number trimmed)
                            (num_bins cfg) with
    | inl e => inl e
    | inr bins =>
        let cycle_df := agg_rows bins in
        if (Z.of_nat (length cycle_df) =? num_bins cfg)%Z
        then inr [cycle_df]
        else inr []
    end
  else inr [].

(** Line 30 *)
Definition read_csv (files : gmap string csv_content) (file_path : string)
  : exn + list row :=
  match files !! file_path with
  | None =>
      inl (FileNotFoundError
             ("[Errno 2] No such file or directory: '" +:+ file_path +:+ "'"))
  | Some (Malformed e) => inl e
  | Some (Frame rows) => inr rows
  end.

(** Lines 29-70: the body of the [try]. *)
Definition try_body (cfg : config) (data_folder : string)
    (files : gmap string csv_content) (r : ProcessData.md_row)
    (cycle_number : nat) : exn + list (list health_row) :=
  let file_path := data_folder +:+ "/" +:+ ProcessData.md_filename r in
  match read_csv files file_path with
  | inl e => inl e
  | inr df => process_frame cfg (ProcessData.md_battery_id r) cycle_number df
  end.

(** What one iteration adds to [processed_dfs]: the frames of the
    [try] body, nothing when the handler of line 72 runs. *)
Definition appended (cfg : config) (data_folder : string)
    (files : gmap string csv_content) (rn : ProcessData.md_row * nat)
  : list (list health_row) :=
  match try_body cfg data_folder files rn.1 rn.2 with
  | inr dfs => dfs
  | inl _ => []
  end.

(** A row, and a row of the augmented frame, without its time stamp. *)
Definition forget_time (r : row) : row :=
  {| Voltage_measured := Voltage_measured r;
     Current_measured := Current_measured r;
     Temperature_measured := Temperature_measured r;
     Time := nan A |}.

Definition forget_arow_time (a : arow) : arow :=
  {| a_row := forget_time (a_row a); a_battery_id := a_battery_id a;
     a_cycle_number := a_cycle_number a; a_SoC := a_SoC a;
     a_SoH := a_SoH a |}.

(** A row of integer readings (voltage, current, temperature, time). *)
Definition sample_row (s : Z * Z * Z * Z) : row :=
  let '(v, i, temp, t) := s in
  {| Voltage_measured := of_int A v; Current_measured := of_int A i;
     Temperature_measured := of_int A temp; Time := of_int A t |}.

End Pipeline.

Arguments row : clear implicits.
Arguments csv_content : clear implicits.
Arguments config : clear implicits.
Arguments health_row : clear implicits.
Arguments arow : clear implicits.

(** *** The exact arithmetic of [ProcessData]

    [None] is NaN; a quotient by zero is NaN. *)

Definition exact_div (a b : option Q) : option Q :=
  match a, b with
  | Some x, Some y => if Qeq_bool y 0 then None else Some (x / y)%Q
  | _, _ => None
  end.

Definition exact_ltb (a b : option Q) : bool :=
  match a, b with
  | Some x, Some y => Qltb x y
  | _, _ => false
  end.

Definition exact_leb (a b : option Q) : bool :=
  match a, b with
  | Some x, Some y => Qle_bool x y
  | _, _ => false
  end.

Lemma exact_leb_not_gt (a b : option Q) :
  exact_leb a b = true -> exact_ltb b a = false.
Proof.
  destruct a as [x|], b as [y|]; cbn; try reflexivity.
  unfold Qltb. intros ->. reflexivity.
Qed.

Lemma exact_cumsum_length (xs : list (option Q)) :
  length (ProcessData.cumsum xs) = length xs.
Proof.
  unfold ProcessData.cumsum. generalize 0%Q.
  induction xs as [|[x|] tl IH]; intros acc; cbn; [reflexivity| |];
    rewrite IH; reflexivity.
Qed.

Definition exact : arith :=
  {| num := option Q;
     of_int := fun z => Some (inject_Z z);
     nan := None;
     isna := fun c => match c with None => true | Some _ => false end;
     fadd := ProcessData.cell_op Qplus;
     fsub := ProcessData.cell_op Qminus;
     fmul := ProcessData.cell_op Qmult;
     fdiv := exact_div;
     fabs := option_map Qabs;
     flt := exact_ltb;
     fle := exact_leb;
     Series_sum := fun xs => Some (ProcessData.nansum xs);
     Series_cumsum := ProcessData.cumsum;
     Series_mean := ProcessData.mean;
     isna_nan := eq_refl;
     fle_not_gt := exact_leb_not_gt;
     Series_cumsum_length := exact_cumsum_length |}.

(** The rows, configuration and results of [ProcessData] as those of the
    estimator over the exact arithmetic. *)
Definition of_row (r : ProcessData.row) : row exact :=
  @mkRow exact
    (ProcessData.Voltage_measured r) (ProcessData.Current_measured r)
    (ProcessData.Temperature_measured r) (ProcessData.Time r).

Definition of_config (cfg : ProcessData.config) : config exact :=
  @mkConfig exact
    (ProcessData.num_bins cfg)
    (Some (ProcessData.nominal_capacity cfg))
    (Some (ProcessData.min_capacity cfg))
    (Some (ProcessData.disc_cutoff_voltage cfg)).

Definition of_arow (a : ProcessData.arow) : arow exact :=
  @mkArow exact
    (of_row (ProcessData.a_row a)) (ProcessData.a_battery_id a)
    (ProcessData.a_cycle_number a) (ProcessData.a_SoC a)
    (ProcessData.a_SoH a).

Definition of_health_row (h : ProcessData.health_row) : health_row exact :=
  @mkHealth exact
    (ProcessData.h_Voltage_measured h) (ProcessData.h_Current_measured h)
    (ProcessData.h_Temperature_measured h) (ProcessData.h_SoC h)
    (ProcessData.h_cycle_number h) (ProcessData.h_battery_id h)
    (ProcessData.h_SoH h).

(** *** float64 arithmetic

    The primitive binary64 operations, rounding to nearest with ties to
    even.  A reduction fills NaN with 0 and adds in index order; numpy
    adds a long series pairwise, which no statement below depends on. *)

Definition float_of_int (z : Z) : float :=
  if (z <? 0)%Z
  then PrimFloat.opp (PrimFloat.of_uint63 (Uint63.of_Z (- z)))
  else PrimFloat.of_uint63 (Uint63.of_Z z).

Definition float_fill (x : float) : float :=
  if PrimFloat.is_nan x then PrimFloat.zero else x.

Definition float_sum (xs : list float) : float :=
  fold_left (fun acc x => PrimFloat.add acc (float_fill x)) xs PrimFloat.zero.

(** The running sum of the filled values, NaN put back where it was. *)
Fixpoint float_cumsum_from (acc : option float) (xs : list float)
  : list float :=
  match xs with
  | [] => []
  | x :: tl =>
      let total :=
        match acc with
        | None => float_fill x
        | Some a => PrimFloat.add a (float_fill x)
        end in
      (if PrimFloat.is_nan x then PrimFloat.nan else total)
        :: float_cumsum_from (Some total) tl
  end.

Definition float_cumsum (xs : list float) : list float :=
  float_cumsum_from None xs.

(** The sum over the count of the values that are not NaN; NaN when
    there is none. *)
Definition float_mean (xs : list float) : float :=
  match filter (fun x => Is_true (negb (PrimFloat.is_nan x))) xs with
  | [] => PrimFloat.nan
  | ys => PrimFloat.div (float_sum xs) (float_of_int (Z.of_nat (length ys)))
  end.

Lemma SFcompare_antisym (a b : spec_float) :
  SFcompare b a
  = match SFcompare a b with
    | Some c => Some (CompOpp c)
    | None => None
    end.
Proof.
  destruct a as [sa|sa| |sa ma ea], b as [sb|sb| |sb mb eb]; cbn;
    try destruct sa; try destruct sb; cbn; try reflexivity;
    rewrite (Z.compare_antisym ea eb); destruct (ea ?= eb)%Z; cbn;
    try reflexivity;
    change (Pos.compare_cont Eq mb ma) with (mb ?= ma)%positive;
    change (Pos.compare_cont Eq ma mb) with (ma ?= mb)%positive;
    rewrite (Pos.compare_antisym ma mb);
    destruct (ma ?= mb)%positive; reflexivity.
Qed.

Lemma float_leb_not_gt (a b : float) :
  PrimFloat.leb a b = true -> PrimFloat.ltb b a = false.
Proof.
  rewrite FloatAxioms.leb_spec, FloatAxioms.ltb_spec. unfold SFleb, SFltb.
  rewrite (SFcompare_antisym (Prim2SF a)).
  destruct (SFcompare (Prim2SF a) (Prim2SF b)) as [[]|]; cbn; congruence.
Qed.

Lemma float_cumsum_length (xs : list float) :
  length (float_cumsum xs) = length xs.
Proof.
  unfold float_cumsum. generalize (@None float).
  induction xs as [|x tl IH]; intros acc; cbn; [reflexivity|].
  rewrite IH. reflexivity.
Qed.

Definition binary64 : arith :=
  {| num := float;
     of_int := float_of_int;
     nan := PrimFloat.nan;
     isna := PrimFloat.is_nan;
     fadd := PrimFloat.add;
     fsub := PrimFloat.sub;
     fmul := PrimFloat.mul;
     fdiv := PrimFloat.div;
     fabs := PrimFloat.abs;
     flt := PrimFloat.ltb;
     fle := PrimFloat.leb;
     Series_sum := float_sum;
     Series_cumsum := float_cumsum;
     Series_mean := float_mean;
     isna_nan := eq_refl;
     fle_not_gt := float_leb_not_gt;
     Series_cumsum_length := float_cumsum_length |}.

(** A discharge at a constant 2 A, sampled every [dt] seconds, with [n]
    samples after the first. *)
Definition discharge_samples (dt : Z) (n : nat) : list (Z * Z * Z * Z) :=
  map (fun k => (4, -2, 24, dt * Z.of_nat k)%Z) (seq 0 (S n)).

(** The same readings on a clock that is [c] seconds ahead. *)
Definition later (c : Z) (s : Z * Z * Z * Z) : Z * Z * Z * Z :=
  let '(v, i, temp, t) := s in (v, i, temp, (t + c)%Z).

(** The defaults of the signature: 20 bins, 2.0 Ah nominal, 1.4 Ah
    minimum, 2.7 V cut-off, each decimal literal as the nearest float. *)
Definition float_default_config : config binary64 :=
  @mkConfig binary64 20 (float_of_int 2)
    (PrimFloat.div (float_of_int 14) (float_of_int 10))
    (PrimFloat.div (float_of_int 27) (float_of_int 10)).

End Estimator.

(** * Properties *)

(** ** [numpy.array_split] *)

Section ArraySplit.
Import Numpy.
Context {A : Type}.
Implicit Types (l ary : list A) (sizes : list nat).

Lemma slices_chunks ary sizes acc :
  map (fun i => slice ary (nth i (acc :: cumsum_nat acc sizes) 0%nat)
                          (nth (S i) (acc :: cumsum_nat acc sizes) 0%nat))
      (seq 0 (length sizes))
  = chunks sizes (drop acc ary).
Proof.
  revert acc. induction sizes as [|n tl IH]; intros acc; [reflexivity|].
  cbn [length seq map chunks cumsum_nat nth]. f_equal.
  - unfold slice. f_equal. lia.
  - rewrite <- fmap_S_seq, <- list_fmap_compose, drop_drop.
    rewrite <- (IH (acc + n)%nat). reflexivity.
Qed.

Lemma section_sizes_length Ntotal k :
  (0 < k)%nat -> length (section_sizes Ntotal k) = k.
Proof.
  intros Hk. unfold section_sizes.
  rewrite length_app, !length_replicate.
  pose proof (Nat.mod_upper_bound Ntotal k). lia.
Qed.

Lemma sum_list_append (xs ys : list nat) :
  sum_list (xs ++ ys) = (sum_list xs + sum_list ys)%nat.
Proof. induction xs as [|x xs IH]; cbn; [reflexivity | rewrite IH; lia]. Qed.

Lemma section_sizes_sum Ntotal k :
  (0 < k)%nat -> sum_list (section_sizes Ntotal k) = Ntotal.
Proof.
  intros Hk. unfold section_sizes.
  rewrite sum_list_append, !sum_list_replicate.
  pose proof (Nat.mod_upper_bound Ntotal k).
  pose proof (Nat.div_mod_eq Ntotal k). nia.
Qed.

Lemma section_sizes_elem Ntotal k n :
  n ∈ section_sizes Ntotal k ->
  n = (Ntotal / k)%nat \/ n = S (Ntotal / k).
Proof.
  unfold section_sizes. rewrite elem_of_app.
  intros [H|H]; apply elem_of_replicate in H; tauto.
Qed.

Lemma array_split_chunks ary sections :
  (0 < sections)%Z ->
  array_split ary sections
  = inr (chunks (section_sizes (length ary) (Z.to_nat sections)) ary).
Proof.
  intros Hs. unfold array_split.
  destruct (Z.leb_spec sections 0) as [?|_]; [lia|].
  f_equal. unfold div_points. fold (section_sizes (length ary) (Z.to_nat sections)).
  cbn [cumsum_nat Nat.add].
  pose proof (slices_chunks ary (section_sizes (length ary) (Z.to_nat sections)) 0)
    as H.
  rewrite section_sizes_length in H by lia. exact H.
Qed.

Lemma chunks_length sizes l : length (chunks sizes l) = length sizes.
Proof. revert l. induction sizes; intros; cbn; auto. Qed.

Lemma chunks_concat sizes l :
  concat (chunks sizes l) = take (sum_list sizes) l.
Proof.
  revert l. induction sizes as [|n tl IH]; intros l; cbn.
  - reflexivity.
  - rewrite IH. rewrite take_take_drop. reflexivity.
Qed.

Lemma chunks_sizes sizes l :
  (sum_list sizes <= length l)%nat ->
  map length (chunks sizes l) = sizes.
Proof.
  revert l. induction sizes as [|n tl IH]; intros l Hle; cbn in *.
  - reflexivity.
  - rewrite length_take, IH by (rewrite length_drop; lia). f_equal. lia.
Qed.

Lemma chunks_elem sizes l b x : b ∈ chunks sizes l -> x ∈ b -> x ∈ l.
Proof.
  revert l. induction sizes as [|n tl IH]; intros l Hb Hx; cbn in *.
  - inversion Hb.
  - apply elem_of_cons in Hb as [->|Hb].
    + eapply subseteq_take; eauto.
    + eapply subseteq_drop. eapply IH; eauto.
Qed.

(** What [array_split] returns for a positive number of sections: that
    many bins, whose concatenation is the input and whose sizes are the
    quotient of the division or one more. *)
Lemma array_split_bins ary sections bins :
  (0 < sections)%Z ->
  array_split ary sections = inr bins ->
  length bins = Z.to_nat sections
  /\ concat bins = ary
  /\ (forall b, b ∈ bins ->
        length b = (length ary / Z.to_nat sections)%nat
        \/ length b = S (length ary / Z.to_nat sections))
  /\ (forall b x, b ∈ bins -> x ∈ b -> x ∈ ary).
Proof.
  intros Hs Hsplit. rewrite array_split_chunks in Hsplit by exact Hs.
  injection Hsplit as <-.
  set (k := Z.to_nat sections). assert (0 < k)%nat as Hk by (subst k; lia).
  split; [rewrite chunks_length; apply section_sizes_length, Hk|].
  split.
  { rewrite chunks_concat, section_sizes_sum by exact Hk.
    apply firstn_all. }
  split; [|intros b x; apply chunks_elem].
  intros b Hb.
  assert (length b ∈ map length (chunks (section_sizes (length ary) k) ary))
    as Hlen by (apply list_elem_of_fmap; eauto).
  rewrite chunks_sizes in Hlen by (rewrite section_sizes_sum; [lia | exact Hk]).
  apply section_sizes_elem in Hlen. exact Hlen.
Qed.

Lemma array_split_nonpositive ary sections :
  (sections <= 0)%Z -> exists e, array_split ary sections = inl e.
Proof.
  intros Hs. unfold array_split.
  destruct (Z.leb_spec sections 0) as [_|?]; [eauto | lia].
Qed.

Lemma nonempty_bins_count (bins : list (list A)) :
  Forall (fun b => b <> []) bins -> (length bins <= length (concat bins))%nat.
Proof.
  induction 1 as [|b tl Hb _ IH]; cbn; [lia|].
  rewrite length_app. destruct b; [congruence | cbn; lia].
Qed.

End ArraySplit.

(** ** The health estimator *)

Section Truncation.
Import ProcessData.

Lemma fold_min_lower (tl : list nat) (i : nat) :
  Forall (fun x => (i <= x)%nat) tl -> fold_left Nat.min tl i = i.
Proof.
  induction 1 as [|x tl Hx _ IH]; cbn; [reflexivity|].
  rewrite Nat.min_l by lia. exact IH.
Qed.

Lemma mask_index_lower (mask : list bool) (i : nat) :
  Forall (fun x => (i <= x)%nat) (mask_index i mask).
Proof.
  revert i. induction mask as [|b tl IH]; intros i; cbn; [constructor|].
  destruct b.
  - constructor; [lia|]. eapply Forall_impl; [apply IH|]. cbn. lia.
  - eapply Forall_impl; [apply IH|]. cbn. lia.
Qed.

(** The minimum of the kept labels is the position of the first [true]
    of the mask. *)
Lemma index_min_first_true (mask : list bool) (i : nat) :
  match index_min (mask_index i mask) with
  | None => Forall (fun b => b = false) mask
  | Some k =>
      exists j, k = (i + j)%nat /\ mask !! j = Some true
                /\ Forall (fun b => b = false) (take j mask)
  end.
Proof.
  revert i. induction mask as [|b tl IH]; intros i; cbn; [constructor|].
  destruct b; cbn.
  - exists 0%nat. split; [|split; [reflexivity | constructor]].
    rewrite fold_min_lower; [lia|].
    eapply Forall_impl; [apply mask_index_lower|]. cbn. lia.
  - specialize (IH (S i)).
    destruct (index_min (mask_index (S i) tl)) as [k|].
    + destruct IH as (j & -> & Hj & Hall).
      exists (S j). split; [lia|]. split; [exact Hj|].
      cbn. constructor; auto.
    + constructor; auto.
Qed.

(** C4. Truncation keeps exactly the rows before the first row whose
    measured voltage is below the cut-off: the frame is the trimmed frame
    followed by a rest that is empty or starts with a row below the
    cut-off, and no row of the trimmed frame is below it.  When no row is
    below the cut-off the trimmed frame is the whole frame, of the same
    length. *)
Theorem truncation_keeps_prefix_before_cutoff (cfg : config) (df : list row) :
  let below r :=
    cell_ltb (Voltage_measured r) (disc_cutoff_voltage cfg) = true in
  (exists rest,
      df = trimmed_df cfg df ++ rest
      /\ Forall (fun r => ~ below r) (trimmed_df cfg df)
      /\ match rest with
         | [] => True
         | r :: _ => below r
         end)
  /\ (Forall (fun r => ~ below r) df ->
      trimmed_df cfg df = df
      /\ length (trimmed_df cfg df) = length df).
Proof.
  intros below. unfold trimmed_df, cutoff_idx.
  set (f := fun r => cell_ltb (Voltage_measured r) (disc_cutoff_voltage cfg)).
  pose proof (index_min_first_true (map f df) 0) as H.
  destruct (index_min (mask_index 0 (map f df))) as [k|].
  - destruct H as (j & -> & Hj & Hall). cbn [Nat.add].
    rewrite list_lookup_fmap in Hj.
    destruct (df !! j) as [r|] eqn:Hr; [|discriminate].
    cbn in Hj. injection Hj as Hfr.
    split.
    + exists (drop j df). split; [symmetry; apply take_drop|]. split.
      * rewrite <- fmap_take in Hall.
        rewrite Forall_fmap in Hall.
        eapply Forall_impl; [exact Hall|]. cbn. intros x Hx.
        unfold below. fold (f x). rewrite Hx. discriminate.
      * erewrite drop_S by exact Hr. exact Hfr.
    + intros Hnone. exfalso.
      rewrite Forall_forall in Hnone.
      apply (Hnone r); [eapply list_elem_of_lookup_2; eauto | exact Hfr].
  - split; [|auto].
    exists []. rewrite app_nil_r. split; [reflexivity|]. split; [|exact I].
    rewrite Forall_fmap in H.
    eapply Forall_impl; [exact H|]. cbn. intros x Hx.
    unfold below. fold (f x). rewrite Hx. discriminate.
Qed.

End Truncation.

Section Capacity.
Import ProcessData.

Lemma process_frame_low_capacity (cfg : config) (battery : string)
    (cycle_number : nat) (df : list row) :
  (capacity (trimmed_df cfg df) <= min_capacity cfg)%Q ->
  process_frame cfg battery cycle_number df = inr [].
Proof.
  intros Hle. unfold process_frame, Qltb.
  apply Qle_bool_iff in Hle. rewrite Hle. reflexivity.
Qed.

End Capacity.

(** The charge increments and the capacity test of lines 36-41 over any
    arithmetic, float64 included. *)
Section Charge.
Import Estimator.
Context {A : arith}.
Implicit Types (cfg : config A) (df trimmed rows : list (row A)).

(** The charge increments of the rows after a sample taken at [prev]. *)
Lemma Delta_Q_tail rows (prev : num A) :
  zip_with (fmul A) (map Current_measured rows)
    (map (fun x => fdiv A x (of_int A 3600))
       (fillna (of_int A 0)
          (zip_with (fsub A) (map Time rows) (prev :: map Time rows))))
  = spec_increments (Some prev) rows.
Proof.
  revert prev. induction rows as [|r tl IH]; intros prev; [reflexivity|].
  cbn [map zip_with fillna spec_increments spec_elapsed].
  rewrite <- (IH (Time r)). reflexivity.
Qed.

Lemma Delta_Q_increments trimmed :
  Delta_Q trimmed = spec_increments None trimmed.
Proof.
  destruct trimmed as [|r tl]; [reflexivity|].
  unfold Delta_Q, Time_diff_hr.
  cbn [map diff zip_with fillna spec_increments spec_elapsed].
  rewrite <- (Delta_Q_tail tl (Time r)), isna_nan. reflexivity.
Qed.

(** A cycle that fails the test of line 41 appends nothing. *)
Lemma process_frame_rejected cfg (battery : string) (cycle_number : nat) df :
  flt A (min_capacity cfg) (capacity (trimmed_df cfg df)) = false ->
  process_frame cfg battery cycle_number df = inr [].
Proof. intros Hlt. unfold process_frame. rewrite Hlt. reflexivity. Qed.

(** C3. In the arithmetic the code runs on, the charge increments of
    the trimmed series are, sample by sample, the measured current times
    the elapsed hours, the first sample's elapsed time being 0; the
    capacity computed for a cycle is the absolute value of their sum; and a
    cycle whose capacity is at most [min_capacity] adds no row to the
    output. *)
Theorem capacity_is_abs_sum_of_increments
    cfg (data_folder : string) (files : gmap string (csv_content A))
    (r : ProcessData.md_row) (cycle_number : nat) df :
  Delta_Q (trimmed_df cfg df) = spec_increments None (trimmed_df cfg df)
  /\ capacity (trimmed_df cfg df)
     = fabs A (Series_sum A (spec_increments None (trimmed_df cfg df)))
  /\ (fle A (capacity (trimmed_df cfg df)) (min_capacity cfg) = true ->
      process_frame cfg (ProcessData.md_battery_id r) cycle_number df = inr []
      /\ (read_csv files (data_folder +:+ "/" +:+ ProcessData.md_filename r)
          = inr df ->
          concat (appended cfg data_folder files (r, cycle_number)) = [])).
Proof.
  split; [apply Delta_Q_increments|].
  split; [unfold capacity; rewrite Delta_Q_increments; reflexivity|].
  intros Hle. apply fle_not_gt in Hle.
  split; [apply process_frame_rejected; exact Hle|].
  intros Hread. unfold appended, try_body. cbn [fst snd].
  rewrite Hread, process_frame_rejected by exact Hle. reflexivity.
Qed.

(** Every row of the trimmed frame gets its SoC. *)
Lemma float_augment_length cfg (battery : string) (cycle_number : nat)
    trimmed :
  length (augment cfg battery cycle_number trimmed) = length trimmed.
Proof.
  unfold augment, SoC, Cumulative_Q, Delta_Q, Time_diff_hr, fillna.
  rewrite length_zip_with, length_map, Series_cumsum_length,
    length_zip_with, !length_map.
  destruct trimmed as [|r tl]; [reflexivity|].
  cbn [map diff length]. rewrite length_zip_with, length_map.
  cbn [length].
  assert (length (map Time tl) = length tl) as -> by apply length_map.
  lia.
Qed.

End Charge.

(** In float64, a discharge of 20 increments of 1/18 Ah has a capacity
    below the default [min_capacity] and adds nothing. *)
Lemma capacity_is_abs_sum_of_increments_witness :
  let cfg := Estimator.float_default_config in
  let df :=
    map Estimator.sample_row (Estimator.discharge_samples 100 20) in
  let files := {[ "d/00002.csv" := Estimator.Frame df ]} in
  let r := ProcessData.mkMd "discharge" "B0005" "00002.csv" in
  Estimator.fle Estimator.binary64
    (Estimator.capacity (Estimator.trimmed_df cfg df))
    (Estimator.min_capacity cfg) = true
  /\ Estimator.process_frame cfg "B0005" 1 df = inr []
  /\ concat (Estimator.appended cfg "d" files (r, 1%nat)) = [].
Proof.
  intros cfg df files r.
  destruct (capacity_is_abs_sum_of_increments cfg "d" files r 1 df)
    as (_ & _ & Hlow).
  assert (Estimator.fle Estimator.binary64
            (Estimator.capacity (Estimator.trimmed_df cfg df))
            (Estimator.min_capacity cfg) = true) as Hle
    by (vm_compute; reflexivity).
  destruct (Hlow Hle) as [Hframe Happended].
  split; [exact Hle|]. split; [exact Hframe|].
  apply Happended. vm_compute. reflexivity.
Defined.

(** [ProcessData] is the estimator over the exact arithmetic. *)
Section ExactArithmetic.
Import Estimator.

Lemma array_split_map {X Y} (f : X -> Y) (l : list X) (sections : Z) :
  Numpy.array_split (map f l) sections
  = match Numpy.array_split l sections with
    | inl e => inl e
    | inr bins => inr (map (map f) bins)
    end.
Proof.
  unfold Numpy.array_split. destruct (sections <=? 0)%Z; [reflexivity|].
  rewrite length_map, map_map. f_equal. apply map_ext. intros i.
  unfold Numpy.slice. rewrite skipn_map, firstn_map. reflexivity.
Qed.

Lemma zip_with_map_both {X X' Y Y1 Y2 Z Z'} (f : X' -> Y1 -> Z')
    (f' : X -> Y2 -> Z) (g : X -> X') (h : Y -> Y1) (h' : Y -> Y2)
    (F : Z -> Z') (l : list X) (k : list Y) :
  (forall x y, f (g x) (h y) = F (f' x (h' y))) ->
  zip_with f (map g l) (map h k) = map F (zip_with f' l (map h' k)).
Proof.
  intros Hf. revert k.
  induction l as [|x l IH]; intros [|y k]; try reflexivity.
  cbn [map zip_with]. rewrite Hf, IH. reflexivity.
Qed.

Lemma exact_trimmed_df (cfg : ProcessData.config) (df : list ProcessData.row) :
  trimmed_df (of_config cfg) (map of_row df)
  = map of_row (ProcessData.trimmed_df cfg df).
Proof.
  unfold trimmed_df, ProcessData.trimmed_df, cutoff_idx,
    ProcessData.cutoff_idx.
  rewrite map_map.
  rewrite (map_ext _ (fun r => ProcessData.cell_ltb
                                 (ProcessData.Voltage_measured r)
                                 (ProcessData.disc_cutoff_voltage cfg))).
  - destruct (ProcessData.index_min _) as [k|]; [|reflexivity].
    apply firstn_map.
  - intros r. cbn. destruct (ProcessData.Voltage_measured r); reflexivity.
Qed.

Lemma exact_Delta_Q (rows : list ProcessData.row) :
  Delta_Q (map of_row rows) = ProcessData.Delta_Q rows.
Proof.
  unfold Delta_Q, ProcessData.Delta_Q, Time_diff_hr, ProcessData.Time_diff_hr,
    fillna, ProcessData.fillna.
  rewrite !map_map. cbn [of_row Current_measured Time].
  change (zip_with (fmul exact)) with (zip_with (ProcessData.cell_op Qmult)).
  f_equal. apply map_ext. intros [q|]; reflexivity.
Qed.

Lemma exact_capacity (rows : list ProcessData.row) :
  capacity (map of_row rows) = Some (ProcessData.capacity rows).
Proof. unfold capacity. rewrite exact_Delta_Q. reflexivity. Qed.

Lemma exact_augment (cfg : ProcessData.config) (battery : string)
    (cycle_number : nat) (rows : list ProcessData.row) :
  augment (of_config cfg) battery cycle_number (map of_row rows)
  = map of_arow (ProcessData.augment cfg battery cycle_number rows).
Proof.
  unfold augment, ProcessData.augment, SoC, ProcessData.SoC, SoH,
    Cumulative_Q, ProcessData.Cumulative_Q.
  rewrite exact_capacity, exact_Delta_Q.
  apply zip_with_map_both. intros r cq. unfold of_arow.
  cbn [ProcessData.a_row ProcessData.a_battery_id ProcessData.a_cycle_number
       ProcessData.a_SoC ProcessData.a_SoH].
  f_equal.
  - unfold ProcessData.SoC_of. cbn. unfold exact_div.
    destruct cq as [q|], (Qeq_bool (ProcessData.capacity rows) 0);
      reflexivity.
  - unfold ProcessData.SoH_of. cbn. unfold exact_div.
    destruct (Qeq_bool (ProcessData.nominal_capacity cfg) 0); reflexivity.
Qed.

Lemma exact_agg_rows (bins : list (list ProcessData.arow)) :
  agg_rows (map (map of_arow) bins)
  = map of_health_row (ProcessData.agg_rows bins).
Proof.
  induction bins as [|[|r0 b] tl IH]; [reflexivity | exact IH |].
  cbn [map agg_rows ProcessData.agg_rows]. rewrite <- IH.
  f_equal. unfold of_health_row.
  cbn [ProcessData.h_Voltage_measured ProcessData.h_Current_measured
       ProcessData.h_Temperature_measured ProcessData.h_SoC
       ProcessData.h_cycle_number ProcessData.h_battery_id
       ProcessData.h_SoH].
  f_equal; try reflexivity;
    cbn [Series_mean exact]; f_equal; cbn [of_arow of_row a_row a_SoC
      Voltage_measured Current_measured Temperature_measured];
    f_equal; rewrite map_map; reflexivity.
Qed.

(** The exact evaluation of lines 32-70 is the estimator over the exact
    arithmetic. *)
Lemma exact_process_frame (cfg : ProcessData.config) (battery : string)
    (cycle_number : nat) (df : list ProcessData.row) :
  process_frame (of_config cfg) battery cycle_number (map of_row df)
  = match ProcessData.process_frame cfg battery cycle_number df with
    | inl e => inl e
    | inr groups => inr (map (map of_health_row) groups)
    end.
Proof.
  unfold process_frame, ProcessData.process_frame.
  rewrite exact_trimmed_df, exact_capacity.
  cbn [min_capacity of_config flt exact exact_ltb num_bins].
  destruct (Qltb _ _); [|reflexivity].
  rewrite exact_augment, array_split_map.
  destruct (Numpy.array_split _ _) as [e|bins]; [reflexivity|].
  rewrite exact_agg_rows, length_map.
  destruct (_ =? _)%Z; reflexivity.
Qed.


End ExactArithmetic.

(** Rounding is visible in float64.  Twenty increments of 0.07 Ah sum to
    1.4 Ah exactly, which is not above [min_capacity]; added as floats,
    in index order, they exceed the float nearest to 1.4, and the cycle
    is kept.  Six voltages at the cut-off, none of them below it, average
    to a float below it. *)
Example rounding_decides_acceptance :
  let samples := Estimator.discharge_samples 126 20 in
  Estimator.process_frame (Estimator.of_config ProcessData.default_config)
    "B0005" 1 (map Estimator.sample_row samples)
  = inr []
  /\ (exists cycle_df,
        Estimator.process_frame Estimator.float_default_config
          "B0005" 1 (map Estimator.sample_row samples)
        = inr [cycle_df]
        /\ length cycle_df = 20%nat).
Proof.
  split; [vm_compute; reflexivity|].
  eexists. split; [vm_compute; reflexivity | reflexivity].
Qed.

Example float_mean_below_cutoff :
  let cutoff :=
    Estimator.disc_cutoff_voltage Estimator.float_default_config in
  forallb (fun v => negb (PrimFloat.ltb v cutoff)) (replicate 6 cutoff)
  = true
  /\ PrimFloat.ltb (Estimator.float_mean (replicate 6 cutoff)) cutoff = true.
Proof. split; vm_compute; reflexivity. Qed.

(** The examples of the numpy documentation. *)
Example array_split_8_3 :
  Numpy.array_split [0; 1; 2; 3; 4; 5; 6; 7]%nat 3
  = inr [[0; 1; 2]; [3; 4; 5]; [6; 7]]%nat.
Proof. reflexivity. Qed.

Example array_split_9_4 :
  Numpy.array_split [0; 1; 2; 3; 4; 5; 6; 7; 8]%nat 4
  = inr [[0; 1; 2]; [3; 4]; [5; 6]; [7; 8]]%nat.
Proof. reflexivity. Qed.

Example array_split_short :
  Numpy.array_split [0; 1]%nat 3 = inr [[0]; [1]; []]%nat.
Proof. reflexivity. Qed.

Section Binning.
Import ProcessData.

(** An hour at 2 A integrates to 2 Ah, which is accepted and gives an
    SoH of 100; the 21 samples fall into one bin of two rows and 19 of
    one. *)
Example steady_capacity :
  (capacity (trimmed_df default_config steady_df) == 2)%Q.
Proof. vm_compute. reflexivity. Qed.

Example steady_bin_sizes :
  match Numpy.array_split
          (augment default_config "B0005" 1
             (trimmed_df default_config steady_df)) 20 with
  | inr bins => map length bins = (2 :: replicate 19 1)%nat
  | inl _ => False
  end.
Proof. vm_compute. reflexivity. Qed.

Lemma diff_length (xs : list cell) : length (diff xs) = length xs.
Proof.
  destruct xs as [|x tl]; [reflexivity|]. cbn.
  rewrite length_zip_with. cbn. lia.
Qed.

Lemma cumsum_from_length (xs : list cell) (acc : Q) :
  length (cumsum_from acc xs) = length xs.
Proof.
  revert acc. induction xs as [|[x|] tl IH]; intros acc; cbn; auto.
Qed.

Lemma Delta_Q_length (trimmed : list row) :
  length (Delta_Q trimmed) = length trimmed.
Proof.
  unfold Delta_Q, Time_diff_hr, fillna.
  rewrite length_zip_with, !length_map, diff_length, length_map. lia.
Qed.

Lemma SoC_length (trimmed : list row) : length (SoC trimmed) = length trimmed.
Proof.
  unfold SoC, Cumulative_Q, cumsum.
  rewrite length_map, cumsum_from_length. apply Delta_Q_length.
Qed.

Lemma augment_length cfg battery cn trimmed :
  length (augment cfg battery cn trimmed) = length trimmed.
Proof. unfold augment. rewrite length_zip_with, SoC_length. lia. Qed.

Lemma agg_rows_length_le (bins : list (list arow)) :
  (length (agg_rows bins) <= length bins)%nat.
Proof. induction bins as [|[|r0 b] tl IH]; cbn; lia. Qed.

Lemma agg_rows_full (bins : list (list arow)) :
  length (agg_rows bins) = length bins -> Forall (fun b => b <> []) bins.
Proof.
  induction bins as [|[|r0 b] tl IH]; cbn; intros Hlen.
  - constructor.
  - pose proof (agg_rows_length_le tl). lia.
  - constructor; [discriminate | apply IH; lia].
Qed.

(** Every aggregated row is built from a non-empty bin and its first
    row. *)
Lemma agg_rows_elem (bins : list (list arow)) (h : health_row) :
  h ∈ agg_rows bins ->
  exists r0 b,
    (r0 :: b) ∈ bins
    /\ h_SoH h = a_SoH r0
    /\ h_cycle_number h = a_cycle_number r0
    /\ h_battery_id h = a_battery_id r0
    /\ h_SoC h = mean (map a_SoC (r0 :: b)).
Proof.
  induction bins as [|[|r0 b] tl IH]; cbn; intros Hin.
  - inversion Hin.
  - destruct (IH Hin) as (r & b' & Hb & H). exists r, b'.
    split; [right; exact Hb | exact H].
  - apply elem_of_cons in Hin as [->|Hin].
    + exists r0, b. cbn. split; [left|]; auto.
    + destruct (IH Hin) as (r & b' & Hb & H). exists r, b'.
      split; [right; exact Hb | exact H].
Qed.

(** The three ways the processing of a loaded frame ends. *)
Lemma process_frame_cases cfg battery cn df :
  process_frame cfg battery cn df = inr []
  \/ (exists e, process_frame cfg battery cn df = inl e)
  \/ (exists bins,
        (0 < num_bins cfg)%Z
        /\ Qltb (min_capacity cfg) (capacity (trimmed_df cfg df)) = true
        /\ Numpy.array_split (augment cfg battery cn (trimmed_df cfg df))
                             (num_bins cfg) = inr bins
        /\ Z.of_nat (length (agg_rows bins)) = num_bins cfg
        /\ process_frame cfg battery cn df = inr [agg_rows bins]).
Proof.
  unfold process_frame.
  destruct (Qltb _ _) eqn:Hacc; [|left; reflexivity].
  destruct (Z_lt_le_dec 0 (num_bins cfg)) as [Hpos|Hnon].
  - destruct (Numpy.array_split _ _) as [e|bins] eqn:Hsplit;
      [right; left; eauto|].
    destruct (Z.eqb_spec (Z.of_nat (length (agg_rows bins))) (num_bins cfg))
      as [Heq|_]; [|left; reflexivity].
    right; right. exists bins. auto.
  - destruct (array_split_nonpositive
                (augment cfg battery cn (trimmed_df cfg df)) _ Hnon)
      as [e ->].
    right; left; eauto.
Qed.

(** C2. The rows a discharge cycle contributes to the output are
    all-or-nothing: none, or exactly [num_bins] rows, one per bin of the
    row-count partition of the trimmed series, whose bin sizes differ by
    at most one; a trimmed series shorter than [num_bins] contributes
    none. *)
Theorem health_group_all_or_nothing (cfg : config) (data_folder : string)
    (files : gmap string csv_content) (r : md_row) (cycle_number : nat) :
  let out := concat (appended cfg data_folder files (r, cycle_number)) in
  let file_path := data_folder +:+ "/" +:+ md_filename r in
  (out = []
   \/ (Z.of_nat (length out) = num_bins cfg
       /\ exists df bins,
           read_csv files file_path = inr df
           /\ Numpy.array_split
                (augment cfg (md_battery_id r) cycle_number (trimmed_df cfg df))
                (num_bins cfg) = inr bins
           /\ concat bins
              = augment cfg (md_battery_id r) cycle_number (trimmed_df cfg df)
           /\ out = agg_rows bins
           /\ Forall (fun b => b <> []) bins
           /\ forall b1 b2, b1 ∈ bins -> b2 ∈ bins ->
                (length b1 <= length b2 + 1)%nat))
  /\ (forall df,
        read_csv files file_path = inr df ->
        (Z.of_nat (length (trimmed_df cfg df)) < num_bins cfg)%Z ->
        out = []).
Proof.
  intros out file_path. subst out. unfold appended, try_body. cbn [fst snd].
  fold file_path.
  destruct (read_csv files file_path) as [e|df] eqn:Hread.
  { split; [left; reflexivity | intros ? [=]]. }
  destruct (process_frame_cases cfg (md_battery_id r) cycle_number df)
    as [-> | [[e ->] | (bins & Hpos & _ & Hsplit & Hlen & ->)]].
  1, 2: split; [left; reflexivity | reflexivity].
  destruct (array_split_bins _ _ _ Hpos Hsplit) as (Hk & Hcat & Hsz & _).
  assert (Forall (fun b => b <> []) bins) as Hfull
    by (apply agg_rows_full; lia).
  cbn [concat]. rewrite app_nil_r. split.
  - right. split; [exact Hlen|]. exists df, bins.
    repeat split; auto.
    intros b1 b2 Hb1 Hb2.
    destruct (Hsz b1 Hb1), (Hsz b2 Hb2); lia.
  - intros df' [= <-] Hshort. exfalso.
    pose proof (nonempty_bins_count bins Hfull) as Hcount.
    rewrite Hcat, augment_length in Hcount. lia.
Qed.

End Binning.

Section Health.
Import ProcessData.

Lemma augment_SoH cfg battery cn trimmed (a : arow) :
  a ∈ augment cfg battery cn trimmed ->
  a_SoH a = SoH_of cfg (capacity trimmed).
Proof.
  unfold augment. intros Ha.
  apply elem_of_zip_with in Ha as (x & y & -> & _ & _). reflexivity.
Qed.

(** C7. In the rows emitted for an accepted cycle, of which there are
    [num_bins], the SoH is everywhere the single value computed on line
    50, which is [(capacity / nominal_capacity) * 100] for the cycle's
    integrated capacity. *)
Theorem soh_same_in_every_bin (cfg : config) (battery : string)
    (cycle_number : nat) (df : list row) (g : list health_row) :
  process_frame cfg battery cycle_number df = inr [g] ->
  Z.of_nat (length g) = num_bins cfg
  /\ (forall h, h ∈ g ->
        h_SoH h = SoH_of cfg (capacity (trimmed_df cfg df)))
  /\ (~ (nominal_capacity cfg == 0)%Q ->
      forall h, h ∈ g ->
        h_SoH h
        = Some (capacity (trimmed_df cfg df) / nominal_capacity cfg * 100)%Q).
Proof.
  intros Hg.
  destruct (process_frame_cases cfg battery cycle_number df)
    as [H | [[e H] | (bins & Hpos & _ & Hsplit & Hlen & H)]];
    rewrite H in Hg; try discriminate.
  injection Hg as <-.
  destruct (array_split_bins _ _ _ Hpos Hsplit) as (_ & _ & _ & Hsub).
  assert (forall h, h ∈ agg_rows bins ->
            h_SoH h = SoH_of cfg (capacity (trimmed_df cfg df))) as Hall.
  { intros h Hh. apply agg_rows_elem in Hh as (r0 & b & Hb & -> & _).
    eapply augment_SoH, Hsub; [exact Hb | left]. }
  split; [exact Hlen|]. split; [exact Hall|].
  intros Hnom h Hh. rewrite (Hall h Hh). unfold SoH_of.
  destruct (Qeq_bool (nominal_capacity cfg) 0) eqn:Hz; [|reflexivity].
  apply Qeq_bool_iff in Hz. contradiction.
Qed.

Lemma soh_same_in_every_bin_witness :
  exists g,
    process_frame default_config "B0005" 1 steady_df = inr [g]
    /\ Z.of_nat (length g) = 20%Z
    /\ forall h, h ∈ g ->
         h_SoH h = SoH_of default_config
                     (capacity (trimmed_df default_config steady_df)).
Proof.
  eexists. split; [vm_compute; reflexivity|].
  refine (let H := soh_same_in_every_bin default_config "B0005" 1 steady_df _ _
          in conj (proj1 H) (proj1 (proj2 H))).
  vm_compute. reflexivity.
Defined.

Lemma accepted_capacity_nonzero (cfg : config) (trimmed : list row) :
  Qltb (min_capacity cfg) (capacity trimmed) = true ->
  (0 <= min_capacity cfg)%Q ->
  ~ (capacity trimmed == 0)%Q.
Proof.
  unfold Qltb. intros Hacc Hmin Hzero.
  apply negb_true_iff in Hacc.
  assert (Qle_bool (capacity trimmed) (min_capacity cfg) = true) as Hle
    by (apply Qle_bool_iff; rewrite Hzero; exact Hmin).
  congruence.
Qed.

Lemma SoC_head (cap : Q) (r : row) (rest : list row) (i : Q) :
  Current_measured r = Some i ->
  Qeq_bool cap 0 = false ->
  map (SoC_of cap) (Cumulative_Q (r :: rest)) !! 0%nat
  = Some (Some ((1 + (0 + i * (0 / 3600)) / cap) * 100)%Q).
Proof.
  intros Hcur Hz.
  unfold Cumulative_Q, cumsum, Delta_Q, Time_diff_hr, fillna.
  cbn [map diff zip_with]. rewrite Hcur. cbn.
  unfold SoC_of. rewrite Hz. reflexivity.
Qed.

(** C10, as the code has it. When the first row of a non-empty trimmed
    series has a measured current and the cycle's capacity is not zero (as
    it is for every accepted cycle under a non-negative [min_capacity]),
    the SoC of the first sample is 100, in the SoC column and in the first
    row handed to the binning. *)
Theorem first_sample_soc_is_100 (cfg : config) (battery : string)
    (cycle_number : nat) (trimmed rest : list row) (r : row) (i : Q) :
  trimmed = r :: rest ->
  Current_measured r = Some i ->
  ~ (capacity trimmed == 0)%Q ->
  exists q,
    (q == 100)%Q
    /\ SoC trimmed !! 0%nat = Some (Some q)
    /\ a_SoC <$> (augment cfg battery cycle_number trimmed !! 0%nat)
       = Some (Some q).
Proof.
  intros Htr Hcur Hcap.
  exists ((1 + (0 + i * (0 / 3600)) / capacity trimmed) * 100)%Q.
  split; [field; exact Hcap|].
  assert (Qeq_bool (capacity trimmed) 0 = false) as Hz.
  { destruct (Qeq_bool (capacity trimmed) 0) eqn:Hz; [|reflexivity].
    apply Qeq_bool_iff in Hz. contradiction. }
  assert (SoC trimmed !! 0%nat
          = Some (Some ((1 + (0 + i * (0 / 3600)) / capacity trimmed) * 100)%Q))
    as Hsoc.
  { unfold SoC. rewrite Htr at 2. apply SoC_head; assumption. }
  split; [exact Hsoc|].
  unfold augment. generalize (SoH_of cfg (capacity trimmed)) as soh.
  intros soh.
  destruct (SoC trimmed) as [|s0 tl]; [discriminate|].
  cbn in Hsoc. injection Hsoc as ->.
  rewrite Htr. reflexivity.
Qed.

Lemma first_sample_soc_is_100_witness :
  exists q,
    (q == 100)%Q
    /\ SoC (trimmed_df default_config steady_df) !! 0%nat = Some (Some q)
    /\ a_SoC <$> (augment default_config "B0005" 1
                    (trimmed_df default_config steady_df) !! 0%nat)
       = Some (Some q).
Proof.
  apply (first_sample_soc_is_100 default_config "B0005" 1
           (trimmed_df default_config steady_df) steady_tail
           (numeric_row 4 (-2) 24 0) (-2)%Q).
  - vm_compute. reflexivity.
  - reflexivity.
  - vm_compute. discriminate.
Defined.

(** C10 as stated fails on two accepted cycles with a non-empty trimmed
    series: one whose first sample has no current reading (its increment,
    running total and SoC are NaN), and one of zero capacity accepted
    under a negative threshold (its first SoC is 0/0). *)
Lemma first_sample_soc_not_always_100 :
  ((exists g, process_frame default_config "B0005" 1 gap_first_df = inr [g])
   /\ trimmed_df default_config gap_first_df = gap_first_df
   /\ SoC (trimmed_df default_config gap_first_df) !! 0%nat = Some None)
  /\ ((exists g, process_frame lenient_config "B0005" 1 idle_df = inr [g])
      /\ trimmed_df lenient_config idle_df = idle_df
      /\ SoC (trimmed_df lenient_config idle_df) !! 0%nat = Some None).
Proof.
  split; (split; [eexists; vm_compute; reflexivity|]);
    split; vm_compute; reflexivity.
Qed.

End Health.

Section ErrorHandling.
Import ProcessData.
Context (cfg : config) (data_folder : string)
        (files : gmap string csv_content).

Lemma loop_step_spec (st : loop_state) (rn : md_row * nat) :
  loop_step cfg data_folder files st rn
  = {| processed_dfs := processed_dfs st ++ appended cfg data_folder files rn;
       printed := printed st ++ error_lines cfg data_folder files rn |}.
Proof.
  unfold loop_step, appended, error_lines.
  destruct (try_body cfg data_folder files rn.1 rn.2);
    cbn; rewrite ?app_nil_r; reflexivity.
Qed.

(** The loop visits every row: its final state holds what each row
    appended and printed, in the order of the rows. *)
Lemma loop_spec (rows : list (md_row * nat)) (st : loop_state) :
  fold_left (loop_step cfg data_folder files) rows st
  = {| processed_dfs :=
         processed_dfs st
           ++ flat_map (appended cfg data_folder files) rows;
       printed :=
         printed st ++ flat_map (error_lines cfg data_folder files) rows |}.
Proof.
  revert st. induction rows as [|rn tl IH]; intros st; cbn [fold_left flat_map].
  - destruct st. cbn. rewrite !app_nil_r. reflexivity.
  - rewrite IH, loop_step_spec. cbn. rewrite <- !app_assoc. reflexivity.
Qed.

(** An appended frame is never empty. *)
Lemma appended_nonempty (rn : md_row * nat) (g : list health_row) :
  g ∈ appended cfg data_folder files rn -> g <> [].
Proof.
  unfold appended, try_body.
  destruct (read_csv _ _) as [e|df]; [inversion 1|].
  destruct (process_frame_cases cfg (md_battery_id rn.1) rn.2 df)
    as [-> | [[e ->] | (bins & Hpos & _ & _ & Hlen & ->)]];
    [inversion 1 | inversion 1 |].
  intros Hg. apply list_elem_of_singleton in Hg as ->.
  intros Hnil. rewrite Hnil in Hlen. cbn in Hlen. lia.
Qed.

Lemma error_line_not_final (rows : list (md_row * nat)) :
  "No valid files found!" ∉ flat_map (error_lines cfg data_folder files) rows.
Proof.
  intros Hin. apply list_elem_of_In, in_flat_map in Hin as (rn & _ & Hin).
  unfold error_lines in Hin.
  destruct (try_body _ _ _ _ _); cbn in Hin; [|tauto].
  destruct Hin as [Hin|[]]. discriminate Hin.
Qed.

(** C9. No cycle's exception leaves the loop: the function returns an
    outcome for every input, in which each cycle whose body raised has its
    line, naming the file and the error; the loop went on over all rows,
    so the output is made of the frames of every accepted cycle, in row
    order.  With no accepted cycle nothing is written and the last line
    says so; otherwise the dataset is written, is never empty, and the
    last line names it; the line reporting the absence is printed exactly
    when nothing is written. *)
Theorem cycle_errors_contained_and_absence_reported
    (metadata : list md_row) (output_path : string) :
  let rows := with_cycle_number (discharge_metadata metadata) in
  let out :=
    compute_battery_health metadata data_folder files output_path cfg in
  let groups := flat_map (appended cfg data_folder files) rows in
  (forall rn e,
      rn ∈ rows ->
      try_body cfg data_folder files rn.1 rn.2 = inl e ->
      ("Error processing " +:+ md_filename rn.1 +:+ ": " +:+ exn_str e)
        ∈ stdout out)
  /\ (exists final,
        stdout out
        = flat_map (error_lines cfg data_folder files) rows ++ [final])
  /\ (groups = [] ->
      written out = None
      /\ last (stdout out) = Some "No valid files found!")
  /\ (groups <> [] ->
      written out = Some (output_path, concat groups)
      /\ concat groups <> []
      /\ last (stdout out)
         = Some ("Saved processed dataset to " +:+ output_path))
  /\ ("No valid files found!" ∈ stdout out <-> written out = None).
Proof.
  intros rows out groups. subst out. unfold compute_battery_health.
  fold rows. rewrite loop_spec. cbn [processed_dfs printed app].
  fold groups.
  set (errs := flat_map (error_lines cfg data_folder files) rows).
  assert (forall rn e,
             rn ∈ rows ->
             try_body cfg data_folder files rn.1 rn.2 = inl e ->
             ("Error processing " +:+ md_filename rn.1 +:+ ": " +:+ exn_str e)
               ∈ errs) as Herr.
  { intros rn e Hrn Hbody. apply list_elem_of_In, in_flat_map.
    exists rn. split; [apply list_elem_of_In; exact Hrn|].
    unfold error_lines. rewrite Hbody. left. reflexivity. }
  pose proof (error_line_not_final rows) as Hnot. fold errs in Hnot.
  destruct groups as [|g gs] eqn:Hgroups; cbn [stdout written].
  - split; [intros; apply elem_of_app; left; eauto|].
    split; [eauto|].
    split; [intros _; split; [reflexivity | apply last_snoc]|].
    split; [congruence|].
    split; [reflexivity|]. intros _. apply elem_of_app. right. left.
  - split; [intros; apply elem_of_app; left; eauto|].
    split; [eauto|].
    split; [discriminate|].
    split.
    + intros _. split; [reflexivity|]. split; [|apply last_snoc].
      assert (g <> []) as Hg.
      { assert (g ∈ flat_map (appended cfg data_folder files) rows) as Hin
          by (fold groups; rewrite Hgroups; left).
        apply list_elem_of_In, in_flat_map in Hin as (rn & _ & Hin).
        eapply appended_nonempty, list_elem_of_In, Hin. }
      cbn. destruct g; [congruence | discriminate].
    + split; [|discriminate].
      intros Hin. apply elem_of_app in Hin as [Hin|Hin]; [contradiction|].
      apply list_elem_of_singleton in Hin. discriminate Hin.
Qed.

End ErrorHandling.

(** ** The extraction stage *)

Section Timestamp.
Import LoadData.

Example format_half_even :
  format_fixed 0 (5 # 2) = "2" /\ format_fixed 0 (7 # 2) = "4"
  /\ format_fixed 0 (-4 # 10) = "-0" /\ format_fixed 3 (17921 # 1000) = "17.921".
Proof. repeat split; vm_compute; reflexivity. Qed.

Example file_number_widths :
  file_number_of 1 = "00001.csv" /\ file_number_of 123456 = "123456.csv".
Proof. split; vm_compute; reflexivity. Qed.

Example path_join_cases :
  path_join "dataset/processed" "data" = "dataset/processed/data"
  /\ path_join "dataset/processed/" "data" = "dataset/processed/data"
  /\ path_join "" "data" = "data"
  /\ path_join "dataset" "/data" = "/data".
Proof. repeat split; vm_compute; reflexivity. Qed.

Lemma format_f_formattable (prec : nat) (v : pyval) (s : string) :
  format_f prec v = inr s -> formattable prec v = true.
Proof.
  destruct v; cbn; try congruence. intros ->. reflexivity.
Qed.

Lemma tolist_formattable (prec : nat) (v : pyval) :
  formattable prec (tolist v) = formattable prec v.
Proof. destruct v; reflexivity. Qed.

(** A list that is formatted has six items, each formattable under the
    spec of its field. *)
Lemma format_list_formattable (items : list pyval) :
  format_matlab_time (PyList items) <> "[]" ->
  length items = 6%nat
  /\ forallb id (zip_with formattable field_precisions items) = true.
Proof.
  destruct items as [|t0 [|t1 [|t2 [|t3 [|t4 [|t5 [|t6 tl]]]]]]];
    cbn; try congruence.
  unfold ebind.
  destruct (format_f 0 t0) as [?|s0] eqn:H0; [congruence|].
  destruct (format_f 0 t1) as [?|s1] eqn:H1; [congruence|].
  destruct (format_f 0 t2) as [?|s2] eqn:H2; [congruence|].
  destruct (format_f 0 t3) as [?|s3] eqn:H3; [congruence|].
  destruct (format_f 0 t4) as [?|s4] eqn:H4; [congruence|].
  destruct (format_f 3 t5) as [?|s5] eqn:H5; [congruence|].
  intros _. split; [reflexivity|].
  rewrite (format_f_formattable _ _ _ H0), (format_f_formattable _ _ _ H1),
    (format_f_formattable _ _ _ H2), (format_f_formattable _ _ _ H3),
    (format_f_formattable _ _ _ H4), (format_f_formattable _ _ _ H5).
  reflexivity.
Qed.

Lemma zip_with_tolist (f : nat -> pyval -> bool) (precs : list nat)
    (items : list pyval) :
  (forall prec v, f prec (tolist v) = f prec v) ->
  zip_with f precs (map tolist items) = zip_with f precs items.
Proof.
  intros Hf. revert precs.
  induction items as [|x tl IH]; intros [|prec precs]; try reflexivity.
  cbn [map zip_with]. rewrite Hf, IH. reflexivity.
Qed.

(** An [int] is converted to a float before it is formatted. *)
Example format_large_int :
  format_f 0 (PyInt (2 ^ 53 + 1)) = inr "9007199254740992"
  /\ format_f 0 (PyInt (2 ^ 53 + 3)) = inr "9007199254740996"
  /\ format_f 0 (PyInt (- (2 ^ 53 + 1))) = inr "-9007199254740992"
  /\ format_f 3 (PyInt (2 ^ 53 - 1)) = inr "9007199254740991.000".
Proof. repeat split; vm_compute; reflexivity. Qed.

(** C5 as stated fails on six dates, which are not numeric: each field
    copies its own spec, and the result is not the sentinel. *)
Lemma six_dates_are_formatted :
  forallb is_number six_dates = false
  /\ format_matlab_time (PyList six_dates) = "[.0f. .0f. .0f. .0f. .0f. .3f]"
  /\ format_matlab_time (NdArray six_dates) = "[.0f. .0f. .0f. .0f. .0f. .3f]"
  /\ format_matlab_time (PyList six_dates) <> "[]".
Proof.
  split; [reflexivity|].
  split; [vm_compute; reflexivity|].
  split; [vm_compute; reflexivity|].
  vm_compute. discriminate.
Qed.

(** C5, as the code has it. The date vector [2008, 4, 2, 0, 0, 0] is
    formatted as "[2008. 4. 2. 0. 0. 0.000]", given as a list of ints, as
    a list of floats or as an array of floats; and every input that is
    not a vector of exactly six components, each of them numeric or an
    object whose own [__format__] accepts the spec of its field, yields
    "[]". *)
Theorem format_matlab_time_sentinel_unless_formattable :
  format_matlab_time
    (PyList [PyInt 2008; PyInt 4; PyInt 2; PyInt 0; PyInt 0; PyInt 0])
  = "[2008. 4. 2. 0. 0. 0.000]"
  /\ format_matlab_time
       (PyList (map (fun z => PyFloat (Finite (inject_Z z)))
                    [2008; 4; 2; 0; 0; 0]%Z))
     = "[2008. 4. 2. 0. 0. 0.000]"
  /\ format_matlab_time
       (NdArray (map (fun z => PyFloat (Finite (inject_Z z)))
                     [2008; 4; 2; 0; 0; 0]%Z))
     = "[2008. 4. 2. 0. 0. 0.000]"
  /\ forall v, ~ six_formattable v -> format_matlab_time v = "[]".
Proof.
  split; [vm_compute; reflexivity|].
  split; [vm_compute; reflexivity|].
  split; [vm_compute; reflexivity|].
  intros v Hnot.
  destruct (decide (format_matlab_time v = "[]")) as [Heq|Hne];
    [exact Heq|].
  exfalso. apply Hnot. destruct v; try (cbn in Hne; congruence).
  - exists items. apply format_list_formattable in Hne. tauto.
  - exists items.
    change (format_matlab_time (PyList (map tolist items)) <> "[]") in Hne.
    apply format_list_formattable in Hne as [Hlen Hall].
    rewrite length_map in Hlen.
    rewrite (zip_with_tolist _ _ _ tolist_formattable) in Hall.
    split; [auto|]. split; [exact Hlen | exact Hall].
Qed.

(** A vector that is too short, one holding a string, a tuple and
    [None] all yield the sentinel. *)
Lemma format_matlab_time_sentinel_unless_formattable_witness :
  format_matlab_time (PyList [PyInt 2008; PyInt 4; PyInt 2]) = "[]"
  /\ format_matlab_time
       (PyList [PyStr "2008"; PyInt 4; PyInt 2; PyInt 0; PyInt 0; PyInt 0])
     = "[]"
  /\ format_matlab_time
       (PyTuple [PyInt 2008; PyInt 4; PyInt 2; PyInt 0; PyInt 0; PyInt 0])
     = "[]"
  /\ format_matlab_time PyNone = "[]".
Proof.
  destruct format_matlab_time_sentinel_unless_formattable
    as (_ & _ & _ & Hsentinel).
  repeat split; apply Hsentinel;
    intros (items & [Hv | Hv] & Hlen & Hall);
    inversion Hv; subst items; cbn in Hlen, Hall; discriminate.
Defined.

End Timestamp.

Section CycleTable.
Import LoadData.
Implicit Types (d : list (string * list obj)) (k name : string).

Lemma dict_get_app_fresh {V} k (d1 d2 : list (string * V)) :
  k ∉ map fst d1 -> dict_get k (d1 ++ d2) = dict_get k d2.
Proof.
  induction d1 as [|[k' v'] tl IH]; cbn; intros Hk; [reflexivity|].
  apply not_elem_of_cons in Hk as [Hne Hk].
  destruct (String.eqb_spec k' k); [congruence | auto].
Qed.

Lemma dict_set_app_fresh {V} k (v : V) (d1 d2 : list (string * V)) :
  k ∉ map fst d1 -> dict_set k v (d1 ++ d2) = d1 ++ dict_set k v d2.
Proof.
  induction d1 as [|[k' v'] tl IH]; cbn; intros Hk; [reflexivity|].
  apply not_elem_of_cons in Hk as [Hne Hk].
  destruct (String.eqb_spec k' k); [congruence | rewrite IH; auto].
Qed.

(** Lines 50-60 on distinct field names: one column per declared field,
    in declared order, and the length of the longest. *)
Lemma collect_fold data (fields : list string) (m : nat) d :
  NoDup (map fst d ++ fields) ->
  fold_left (collect_step data) fields (m, d)
  = (Nat.max m (longest data fields),
     d ++ map (fun name => (name, field_array data name)) fields).
Proof.
  revert m d. induction fields as [|name tl IH]; intros m d Hnd.
  - unfold longest. cbn [fold_left map foldr].
    rewrite Nat.max_0_r, app_nil_r. reflexivity.
  - cbn [fold_left].
    assert (name ∉ map fst d) as Hfresh.
    { apply NoDup_app in Hnd as (_ & Hdisj & _). intros Hin.
      apply (Hdisj name Hin). left. }
    assert (collect_step data (m, d) name
            = (Nat.max m (length (field_array data name)),
               d ++ [(name, field_array data name)])) as ->.
    { unfold collect_step, field_array. cbn [fst snd].
      assert (forall v, dict_set name v d = d ++ [(name, v)]) as Hset.
      { intros v. pose proof (dict_set_app_fresh name v d [] Hfresh) as H.
        rewrite app_nil_r in H. exact H. }
      destruct (dict_get name data) as [arr|];
        cbn [default from_option id length];
        rewrite Hset, ?Nat.max_0_r; reflexivity. }
    rewrite IH.
    + unfold longest. cbn [map foldr].
      rewrite <- app_assoc, Nat.max_assoc. reflexivity.
    + rewrite map_app. cbn. rewrite <- app_assoc. exact Hnd.
Qed.

Lemma collect_spec data (fields : list string) :
  NoDup fields ->
  collect data fields
  = (longest data fields,
     map (fun name => (name, field_array data name)) fields).
Proof.
  intros Hnd. unfold collect. rewrite collect_fold by exact Hnd. reflexivity.
Qed.

(** Lines 62-67 on distinct keys: every column is padded in place. *)
Lemma pad_fold (max_len : nat) (done todo : list (string * list obj)) :
  NoDup (map fst (done ++ todo)) ->
  Forall (fun kv => (length kv.2 <= max_len)%nat) todo ->
  fold_left (pad_step max_len) (map fst todo) (done ++ todo)
  = done ++ map (fun kv => (kv.1, padded max_len kv.2)) todo.
Proof.
  revert done. induction todo as [|[k v] tl IH]; intros done Hnd Hlen;
    [reflexivity|].
  cbn [map fold_left fst snd].
  assert (k ∉ map fst done) as Hfresh.
  { rewrite map_app in Hnd. apply NoDup_app in Hnd as (_ & Hdisj & _).
    intros Hin. apply (Hdisj k Hin). left. }
  apply Forall_cons in Hlen as [Hv Hlen]. cbn in Hv.
  assert (pad_step max_len (done ++ (k, v) :: tl) k
          = (done ++ [(k, padded max_len v)]) ++ tl) as ->.
  { unfold pad_step. rewrite dict_get_app_fresh by exact Hfresh.
    cbn [dict_get]. rewrite String.eqb_refl. cbv zeta.
    rewrite <- app_assoc. cbn [app].
    destruct (Nat.ltb_spec (length v) max_len) as [Hlt|Hge].
    - rewrite dict_set_app_fresh by exact Hfresh. cbn [dict_set].
      rewrite String.eqb_refl. reflexivity.
    - unfold padded. replace (max_len - length v)%nat with 0%nat by lia.
      cbn [replicate]. rewrite app_nil_r. reflexivity. }
  rewrite IH.
  - rewrite <- app_assoc. reflexivity.
  - rewrite <- app_assoc. cbn.
    rewrite !map_app in *. cbn in *. exact Hnd.
  - exact Hlen.
Qed.

Lemma longest_bound data (fields : list string) name :
  name ∈ fields -> (length (field_array data name) <= longest data fields)%nat.
Proof.
  unfold longest. induction fields as [|f tl IH]; intros Hin.
  - inversion Hin.
  - cbn. apply elem_of_cons in Hin as [->|Hin]; [lia|].
    specialize (IH Hin). lia.
Qed.

Lemma padded_length (max_len : nat) (arr : list obj) :
  (length arr <= max_len)%nat -> length (padded max_len arr) = max_len.
Proof.
  intros Hle. unfold padded. rewrite length_app, length_replicate. lia.
Qed.

(** The frame of a cycle: never an exception, and the declared columns
    padded to the longest. *)
Lemma cycle_frame_spec data (fields : list string) :
  NoDup fields ->
  cycle_frame data fields
  = inr (map (fun name =>
                (name, padded (longest data fields) (field_array data name)))
             fields).
Proof.
  intros Hnd. unfold cycle_frame. rewrite collect_spec by exact Hnd.
  unfold pad.
  pose proof (pad_fold (longest data fields) []
                (map (fun name => (name, field_array data name)) fields))
    as Hpad.
  cbn [app] in Hpad. rewrite Hpad; clear Hpad.
  - rewrite <- list_fmap_compose. unfold compose. cbn [fst snd].
    unfold DataFrame.
    destruct fields as [|f0 tl]; [reflexivity|]. rewrite fmap_cons.
    cbn [map].
    match goal with |- (if ?c then _ else _) = _ =>
      assert (c = true) as ->; [|reflexivity] end.
    apply forallb_forall. intros [k v] Hin. cbn [snd].
    apply in_map_iff in Hin as (name & [= <- <-] & Hname).
    apply Nat.eqb_eq.
    rewrite !padded_length; [reflexivity | |];
      apply longest_bound; [left | right; apply list_elem_of_In, Hname].
  - rewrite <- list_fmap_compose. unfold compose. cbn [fst].
    rewrite list_fmap_id. exact Hnd.
  - apply Forall_fmap, Forall_forall. intros name Hname. cbn.
    apply longest_bound, Hname.
Qed.

Lemma fields_of_cases (cycle_type : string) (fields : list string) :
  fields_of cycle_type = Some fields ->
  (cycle_type = "charge" /\ fields = charge_fields /\ length fields = 6%nat)
  \/ (cycle_type = "discharge" /\ fields = discharge_fields
      /\ length fields = 6%nat)
  \/ (cycle_type = "impedance" /\ fields = impedance_fields
      /\ length fields = 5%nat).
Proof.
  unfold fields_of.
  destruct (String.eqb_spec cycle_type "charge");
    [intros [= <-]; auto|].
  destruct (String.eqb_spec cycle_type "discharge");
    [intros [= <-]; auto|].
  destruct (String.eqb_spec cycle_type "impedance");
    [intros [= <-]; auto 6 | discriminate].
Qed.

Lemma fields_of_NoDup (cycle_type : string) (fields : list string) :
  fields_of cycle_type = Some fields -> NoDup fields.
Proof.
  intros H. apply fields_of_cases in H as [(_ & -> & _)|[(_ & -> & _)|(_ & -> & _)]];
    refine (bool_decide_unpack _ _); vm_compute; exact I.
Qed.

Lemma dict_get_declared {V} (f : string -> V) (fields : list string) name :
  name ∈ fields ->
  dict_get name (map (fun n => (n, f n)) fields) = Some (f name).
Proof.
  induction fields as [|f0 tl IH]; intros Hin; [inversion Hin|].
  cbn. destruct (String.eqb_spec f0 name) as [->|Hne]; [reflexivity|].
  apply elem_of_cons in Hin as [->|Hin]; [congruence | auto].
Qed.

(** C6. For a cycle of a known type whose data container is present,
    serialization succeeds and writes the table whose columns are exactly
    the type's declared fields, in declared order (6 for charge, 6 for
    discharge, 5 for impedance); a field the record lacks is a column of
    empty strings, a field it has is its array right-padded with empty
    strings, and every column has the length of the longest field. *)
Theorem cycle_table_has_declared_columns (cycle : cycle)
    (cycle_type file_path : string) (w : world)
    (data : list (string * list obj)) (fields : list string) :
  cyc_data cycle = Some data ->
  fields_of cycle_type = Some fields ->
  let max_len := longest data fields in
  let table :=
    map (fun name => (name, padded max_len (field_array data name))) fields in
  process_cycle_data cycle cycle_type file_path w
  = ({| file_id := file_id w;
        files := <[file_path := Header fields :: frame_rows table]> (files w);
        stdout := stdout w ++
          ["Saved " +:+ cycle_type +:+ " data to " +:+ file_path] |},
     inr tt)
  /\ map fst table = fields
  /\ Forall (fun kv => length kv.2 = max_len) table
  /\ length (frame_rows table) = max_len
  /\ (forall name, name ∈ fields -> dict_get name data = None ->
        dict_get name table = Some (replicate max_len (OStr "")))
  /\ (forall name arr, name ∈ fields -> dict_get name data = Some arr ->
        dict_get name table
        = Some (arr ++ replicate (max_len - length arr) (OStr "")))
  /\ ((cycle_type = "charge" /\ fields = charge_fields
       /\ length fields = 6%nat)
      \/ (cycle_type = "discharge" /\ fields = discharge_fields
          /\ length fields = 6%nat)
      \/ (cycle_type = "impedance" /\ fields = impedance_fields
          /\ length fields = 5%nat)).
Proof.
  intros Hdata Hfields max_len table.
  pose proof (fields_of_NoDup _ _ Hfields) as Hnd.
  pose proof (cycle_frame_spec data fields Hnd) as Hframe.
  fold max_len table in Hframe.
  assert (Forall (fun kv => length kv.2 = max_len) table) as Hlens.
  { subst table. apply Forall_fmap, Forall_forall. intros name Hname. cbn.
    apply padded_length, longest_bound, Hname. }
  assert (map fst table = fields) as Hcols.
  { subst table. rewrite <- list_fmap_compose. apply list_fmap_id. }
  split.
  { unfold process_cycle_data. rewrite Hdata, Hfields.
    unfold bind, lift. rewrite Hframe.
    unfold ret, to_csv, print. cbn [file_id files stdout].
    rewrite Hcols. reflexivity. }
  split; [exact Hcols|].
  split; [exact Hlens|].
  split.
  { pose proof (fields_of_cases _ _ Hfields) as Hc.
    destruct fields as [|f0 tl];
      [destruct Hc as [(_ & _ & H)|[(_ & _ & H)|(_ & _ & H)]];
       discriminate H|].
    subst table. cbn [map frame_rows]. rewrite length_map, length_seq.
    apply padded_length, longest_bound. left. }
  split.
  { intros name Hname Hnone. subst table.
    rewrite (dict_get_declared
               (fun n => padded max_len (field_array data n)) fields name Hname).
    unfold field_array, padded. rewrite Hnone. cbn.
    rewrite Nat.sub_0_r. reflexivity. }
  split.
  { intros name arr Hname Hsome. subst table.
    rewrite (dict_get_declared
               (fun n => padded max_len (field_array data n)) fields name Hname).
    unfold field_array, padded. rewrite Hsome. reflexivity. }
  apply fields_of_cases, Hfields.
Qed.

Lemma cycle_table_has_declared_columns_witness :
  let data :=
    [("Voltage_measured", [OFloat (Some 4%Q); OFloat (Some (41 # 10))]);
     ("Time", [OFloat (Some 0%Q); OFloat (Some 10%Q); OFloat (Some 20%Q)])] in
  let table :=
    map (fun name =>
           (name, padded (longest data charge_fields) (field_array data name)))
        charge_fields in
  longest data charge_fields = 3%nat
  /\ dict_get "Voltage_measured" table
     = Some [OFloat (Some 4%Q); OFloat (Some (41 # 10)); OStr ""]
  /\ dict_get "Current_charge" table = Some [OStr ""; OStr ""; OStr ""]
  /\ map fst table = charge_fields
  /\ Forall (fun kv => length kv.2 = 3%nat) table
  /\ length (frame_rows table) = 3%nat.
Proof.
  intros data table.
  pose proof (cycle_table_has_declared_columns charge_cycle "charge"
                "dataset/processed/data/00001.csv" fresh_world data
                charge_fields eq_refl eq_refl)
    as (_ & Hcols & Hlens & Hrows & _).
  split; [reflexivity|].
  split; [vm_compute; reflexivity|].
  split; [vm_compute; reflexivity|].
  split; [exact Hcols|]. split; [exact Hlens | exact Hrows].
Defined.

End CycleTable.

Section Paths.
Import LoadData.

Lemma append_assoc (a b c : string) : (a +:+ b) +:+ c = a +:+ (b +:+ c).
Proof.
  induction a as [|x a IH]; [reflexivity|].
  change (String x ((a +:+ b) +:+ c) = String x (a +:+ (b +:+ c))).
  rewrite IH. reflexivity.
Qed.

Lemma append_nonempty (a b : string) : b <> "" -> a +:+ b <> "".
Proof. destruct a; [auto | discriminate]. Qed.

Lemma path_join_relative (a b : string) :
  String.prefix "/" b = false -> path_join a b = path_prefix a +:+ b.
Proof.
  intros Hb. unfold path_join, path_prefix. rewrite Hb.
  destruct (bool_decide (a = "")); [reflexivity|].
  destruct (String.eqb _ "/"); [reflexivity|].
  rewrite append_assoc. reflexivity.
Qed.

Lemma digits_no_slash (d : Decimal.uint) (rest : string) :
  String.prefix "/" (NilZero.string_of_uint d +:+ rest) = false.
Proof. destruct d; reflexivity. Qed.

Lemma file_number_no_slash (n : N) :
  String.prefix "/" (file_number_of n) = false.
Proof.
  unfold file_number_of, zfill.
  destruct (5 - String.length (NilZero.string_of_uint (N.to_uint n)))%nat.
  - cbn [replicate string_of_list_ascii append]. apply digits_no_slash.
  - reflexivity.
Qed.

(** A per-cycle table never lands on the metadata index. *)
Lemma data_path_not_metadata (output_folder : string) (n : N) :
  path_join (path_join output_folder "data") (file_number_of n)
  <> path_join output_folder "metadata.csv".
Proof.
  rewrite (path_join_relative output_folder "data") by reflexivity.
  rewrite (path_join_relative output_folder "metadata.csv") by reflexivity.
  rewrite path_join_relative by apply file_number_no_slash.
  set (p := path_prefix output_folder).
  assert (exists q, path_prefix (p +:+ "data") = p +:+ (String "d" q))
    as [q ->].
  { unfold path_prefix at 1.
    destruct (bool_decide_reflect (p +:+ "data" = "")) as [Hempty|_].
    - exfalso. revert Hempty. apply append_nonempty. discriminate.
    - destruct (String.eqb _ "/").
      + exists "ata". reflexivity.
      + exists "ata/". rewrite append_assoc. reflexivity. }
  rewrite append_assoc. intros Heq.
  apply String.app_inj in Heq. discriminate Heq.
Qed.

End Paths.

Section Extraction.
Import LoadData.

Lemma process_cycle_data_effect (cycle : cycle) (cycle_type file_path : string)
    (w : world) :
  file_id (process_cycle_data cycle cycle_type file_path w).1 = file_id w
  /\ forall p, p <> file_path ->
       files (process_cycle_data cycle cycle_type file_path w).1 !! p
       = files w !! p.
Proof.
  unfold process_cycle_data.
  destruct (cyc_data cycle) as [data|]; [|split; reflexivity].
  destruct (fields_of cycle_type) as [fields|]; [|split; reflexivity].
  unfold bind, lift.
  destruct (cycle_frame data fields) as [e|df]; [split; reflexivity|].
  cbn. split; [reflexivity|].
  intros p Hp. apply lookup_insert_ne. congruence.
Qed.

Lemma first_value_state (cycle : cycle) (cycle_type wanted field : string)
    (w : world) :
  (first_value cycle cycle_type wanted field w).1 = w.
Proof.
  unfold first_value.
  destruct (String.eqb cycle_type wanted); [|reflexivity].
  destruct (cyc_data cycle) as [data|]; [|reflexivity].
  destruct (dict_get field data) as [[|x tl]|]; reflexivity.
Qed.

(** One completed iteration: the cycle gets the current identifier, one
    entry is appended to [cycle_info], and both counters advance, whether
    or not a table was written. *)
Lemma cycle_step_ok (battery_id data_folder : string)
    (cycle_info : list meta_row) (test_id : N) (c : cycle)
    (w w' : world) (acc' : list meta_row * N) :
  cycle_step battery_id data_folder (cycle_info, test_id) c w
  = (w', inr acc') ->
  file_id w' = (file_id w + 1)%N
  /\ (exists row,
        acc' = (cycle_info ++ [row], (test_id + 1)%N)
        /\ m_uid row = file_id w
        /\ m_type row = cyc_type c
        /\ m_battery_id row = battery_id
        /\ m_test_id row = test_id
        /\ m_filename row = file_number_of (file_id w))
  /\ (forall p,
        p <> path_join data_folder (file_number_of (file_id w)) ->
        files w' !! p = files w !! p).
Proof.
  unfold cycle_step, bind, get_file_id, set_file_id, ret.
  pose proof (process_cycle_data_effect c (cyc_type c)
                (path_join data_folder (file_number_of (file_id w))) w)
    as [Hid Hfiles].
  destruct (process_cycle_data _ _ _ w) as [w1 [e|[]]]; [discriminate|].
  cbn [fst] in Hid, Hfiles.
  pose proof (first_value_state c (cyc_type c) "discharge" "Capacity" w1) as H1.
  destruct (first_value c (cyc_type c) "discharge" "Capacity" w1)
    as [w2 [e|capacity]]; [discriminate|]. cbn in H1. subst w2.
  pose proof (first_value_state c (cyc_type c) "impedance" "Re" w1) as H2.
  destruct (first_value c (cyc_type c) "impedance" "Re" w1)
    as [w2 [e|re]]; [discriminate|]. cbn in H2. subst w2.
  pose proof (first_value_state c (cyc_type c) "impedance" "Rct" w1) as H3.
  destruct (first_value c (cyc_type c) "impedance" "Rct" w1)
    as [w2 [e|rct]]; [discriminate|]. cbn in H3. subst w2.
  intros [= <- <-]. cbn [file_id files].
  split; [rewrite Hid; reflexivity|].
  split; [|exact Hfiles].
  eexists. split; [reflexivity|]. cbn. auto.
Qed.

(** The identifiers [first, first + 1, ...] of [n] successive cycles. *)
Lemma for_cycles_ok (battery_id data_folder : string) (cycles : list cycle)
    (cycle_info : list meta_row) (test_id : N)
    (w w' : world) (acc' : list meta_row * N) :
  for_cycles battery_id data_folder (cycle_info, test_id) cycles w
  = (w', inr acc') ->
  file_id w' = (file_id w + N.of_nat (length cycles))%N
  /\ (exists rows,
        acc' = (cycle_info ++ rows, (test_id + N.of_nat (length cycles))%N)
        /\ length rows = length cycles
        /\ map m_uid rows
           = map (fun i => (file_id w + N.of_nat i)%N) (seq 0 (length cycles))
        /\ map m_type rows = map cyc_type cycles
        /\ map m_test_id rows
           = map (fun i => (test_id + N.of_nat i)%N) (seq 0 (length cycles))
        /\ map m_filename rows
           = map (fun i => file_number_of (file_id w + N.of_nat i)%N)
                 (seq 0 (length cycles)))
  /\ (forall p,
        (forall n, p <> path_join data_folder (file_number_of n)) ->
        files w' !! p = files w !! p).
Proof.
  revert cycle_info test_id w.
  induction cycles as [|c tl IH]; intros cycle_info test_id w.
  - cbn. intros [= <- <-]. rewrite N.add_0_r.
    split; [reflexivity|]. split; [|reflexivity].
    exists []. rewrite app_nil_r, N.add_0_r. auto 10.
  - cbn [for_cycles]. unfold bind at 1.
    destruct (cycle_step _ _ _ c w) as [w1 [e|acc1]] eqn:Hstep; [discriminate|].
    apply cycle_step_ok in Hstep
      as (Hid & (row & -> & Huid & Hty & _ & Htid & Hfn) & Hfiles).
    intros Hrest. apply IH in Hrest as (Hid' & (rows & -> & Hlen & Huids & Htys & Htids & Hfns) & Hfiles').
    simpl length. split; [rewrite Hid', Hid; lia|]. split.
    + exists (row :: rows). rewrite <- app_assoc.
      simpl length. simpl map. simpl seq. simpl app.
      rewrite <- !fmap_S_seq, <- !list_fmap_compose. unfold compose.
      split; [f_equal; lia|]. split; [lia|].
      rewrite Huid, Hty, Htid, Hfn, Huids, Htys, Htids, Hfns, Hid.
      rewrite !N.add_0_r.
      assert (forall i, (file_id w + 1 + N.of_nat i
                         = file_id w + N.of_nat (S i))%N) as Hshift
        by (intros; lia).
      assert (forall i, (test_id + 1 + N.of_nat i
                         = test_id + N.of_nat (S i))%N) as Hshift'
        by (intros; lia).
      split; [|split; [reflexivity|split]].
      * apply (f_equal (cons _)), list_fmap_ext. intros _ i _. apply Hshift.
      * apply (f_equal (cons _)), list_fmap_ext. intros _ i _. apply Hshift'.
      * apply (f_equal (cons _)), list_fmap_ext. intros _ i _.
        rewrite Hshift. reflexivity.
    + intros p Hp. rewrite Hfiles' by exact Hp. apply Hfiles, Hp.
Qed.

(** A completed call: one entry per cycle, numbered from the counter,
    appended to the metadata index after a header only when the index did
    not exist. *)
Lemma process_metadata_and_cycles_ok (cycle_data : list cycle)
    (battery_id output_folder : string) (w w' : world) :
  process_metadata_and_cycles cycle_data battery_id output_folder w
  = (w', inr tt) ->
  file_id w' = (file_id w + N.of_nat (length cycle_data))%N
  /\ exists rows,
      length rows = length cycle_data
      /\ map m_uid rows
         = map (fun i => (file_id w + N.of_nat i)%N)
               (seq 0 (length cycle_data))
      /\ map m_type rows = map cyc_type cycle_data
      /\ map m_filename rows
         = map (fun i => file_number_of (file_id w + N.of_nat i)%N)
               (seq 0 (length cycle_data))
      /\ files w' !! path_join output_folder "metadata.csv"
         = Some (match files w !! path_join output_folder "metadata.csv" with
                 | Some old => old ++ map meta_line rows
                 | None => Header metadata_columns :: map meta_line rows
                 end).
Proof.
  unfold process_metadata_and_cycles. unfold bind at 1.
  destruct (for_cycles _ _ _ cycle_data w) as [w1 [e|acc]] eqn:Hloop;
    [discriminate|].
  apply for_cycles_ok in Hloop
    as (Hid & (rows & -> & Hlen & Huids & Htys & _ & Hfns) & Hfiles).
  specialize (Hfiles (path_join output_folder "metadata.csv")
                (fun n Heq => data_path_not_metadata output_folder n
                                (eq_sym Heq))).
  unfold bind, path_exists, to_csv_append, print. cbn [fst snd app].
  intros [= <-]. cbn [file_id files].
  split; [exact Hid|]. exists rows.
  split; [exact Hlen|]. split; [exact Huids|]. split; [exact Htys|].
  split; [exact Hfns|].
  rewrite lookup_insert_eq, Hfiles. f_equal.
  destruct (files w !! path_join output_folder "metadata.csv") as [old|];
    reflexivity.
Qed.

(** C1, as the code has it. In a call that completes, every cycle of
    the record consumes one identifier and gets one metadata row, a
    skipped cycle (no data container, or a type outside the three known
    ones) as well: the counter advances by the number of cycles, and the
    row of the cycle at position [i] carries the identifier
    [file_id + i], the cycle's type and the file name made from that
    identifier. *)
Theorem every_cycle_consumes_an_identifier (cycle_data : list cycle)
    (battery_id output_folder : string) (w w' : world) :
  process_metadata_and_cycles cycle_data battery_id output_folder w
  = (w', inr tt) ->
  file_id w' = (file_id w + N.of_nat (length cycle_data))%N
  /\ exists rows before,
      files w' !! path_join output_folder "metadata.csv"
      = Some (before ++ map meta_line rows)
      /\ length rows = length cycle_data
      /\ forall i c,
          cycle_data !! i = Some c ->
          exists row,
            rows !! i = Some row
            /\ m_uid row = (file_id w + N.of_nat i)%N
            /\ m_type row = cyc_type c
            /\ m_filename row = file_number_of (file_id w + N.of_nat i)%N.
Proof.
  intros Hrun. apply process_metadata_and_cycles_ok in Hrun
    as (Hid & rows & Hlen & Huids & Htys & Hfns & Hmeta).
  split; [exact Hid|].
  exists rows,
    (match files w !! path_join output_folder "metadata.csv" with
     | Some old => old
     | None => [Header metadata_columns]
     end).
  split.
  { rewrite Hmeta. destruct (files w !! _); reflexivity. }
  split; [exact Hlen|].
  intros i c Hc.
  assert (i < length rows)%nat as Hi
    by (rewrite Hlen; eapply lookup_lt_Some; exact Hc).
  destruct (lookup_lt_is_Some_2 rows i Hi) as [row Hrow].
  exists row. split; [exact Hrow|].
  assert (i < length cycle_data)%nat as Hi' by lia.
  split; [|split].
  - apply (f_equal (fun l => l !! i)) in Huids.
    rewrite !list_lookup_fmap, Hrow, lookup_seq_lt in Huids by exact Hi'.
    cbn in Huids. congruence.
  - apply (f_equal (fun l => l !! i)) in Htys.
    rewrite !list_lookup_fmap, Hrow, Hc in Htys. cbn in Htys. congruence.
  - apply (f_equal (fun l => l !! i)) in Hfns.
    rewrite !list_lookup_fmap, Hrow, lookup_seq_lt in Hfns by exact Hi'.
    cbn in Hfns. congruence.
Qed.

Lemma every_cycle_consumes_an_identifier_witness :
  let w' :=
    (process_metadata_and_cycles [bare_cycle; rest_cycle; charge_cycle]
       "B0005" output_folder fresh_world).1 in
  file_id w' = (file_id fresh_world + N.of_nat 3)%N
  /\ exists rows before,
      files w' !! path_join output_folder "metadata.csv"
      = Some (before ++ map meta_line rows)
      /\ length rows = 3%nat
      /\ forall i c,
          [bare_cycle; rest_cycle; charge_cycle] !! i = Some c ->
          exists row,
            rows !! i = Some row
            /\ m_uid row = (file_id fresh_world + N.of_nat i)%N
            /\ m_type row = cyc_type c
            /\ m_filename row
               = file_number_of (file_id fresh_world + N.of_nat i)%N.
Proof.
  intros w'.
  apply (every_cycle_consumes_an_identifier
           [bare_cycle; rest_cycle; charge_cycle] "B0005" output_folder
           fresh_world w').
  vm_compute. reflexivity.
Defined.

(** C1 as stated fails on a record holding a cycle without data
    container, a cycle of an unknown type and a charge cycle: both skipped
    cycles get a metadata row and an identifier (1 and 2) although no
    table is written for them, the counter ends at 4, and the charge
    cycle, the first one serialized, is stored under identifier 3. *)
Lemma skipped_cycles_consume_identifiers :
  let w' := (run_script ∅ mixed_corpus).1 in
  (run_script ∅ mixed_corpus).2 = inr tt
  /\ file_id w' = 4%N
  /\ omap line_uid (default [] (files w' !! metadata_path)) = [1; 2; 3]%Z
  /\ files w' !! "dataset/processed/data/00001.csv" = None
  /\ files w' !! "dataset/processed/data/00002.csv" = None
  /\ is_Some (files w' !! "dataset/processed/data/00003.csv")
  /\ stdout w'
     = [String "010"%char "Processing B0005.mat (Battery ID: B0005)";
        "Skipping cycle, no 'data' field found: dataset/processed/data/00001.csv";
        "Skipping cycle, unknown cycle type: dataset/processed/data/00002.csv";
        "Saved charge data to dataset/processed/data/00003.csv";
        "Metadata saved to dataset/processed/metadata.csv";
        String "010"%char
          "Processing complete! Check the 'processed' folder for results."].
Proof.
  cbv zeta. repeat split; try (vm_compute; reflexivity).
  vm_compute. eexists. reflexivity.
Qed.

Lemma consecutive_sorted (first : N) (n s : nat) :
  StronglySorted N.lt (map (fun i => (first + N.of_nat i)%N) (seq s n)).
Proof.
  revert s. induction n as [|n IH]; intros s; cbn; constructor; [apply IH|].
  apply Forall_forall. intros x Hx.
  apply list_elem_of_In, in_map_iff in Hx as (i & <- & Hi).
  apply in_seq in Hi. lia.
Qed.

(** C8, as the code has it. Two successive calls in one run of the
    script against an existing metadata index: each call appends its rows
    after what the index held and writes no header, and the second call
    takes the counter where the first left it, so the identifiers of the
    appended rows are consecutive from the counter's value before the
    first call, hence strictly increasing. *)
Theorem metadata_appended_and_counter_continues
    (cycles1 cycles2 : list cycle) (battery1 battery2 output_folder : string)
    (w0 w1 w2 : world) (old : list csv_line) :
  files w0 !! path_join output_folder "metadata.csv" = Some old ->
  process_metadata_and_cycles cycles1 battery1 output_folder w0
  = (w1, inr tt) ->
  process_metadata_and_cycles cycles2 battery2 output_folder w1
  = (w2, inr tt) ->
  exists rows1 rows2,
    files w1 !! path_join output_folder "metadata.csv"
    = Some (old ++ map meta_line rows1)
    /\ files w2 !! path_join output_folder "metadata.csv"
       = Some (old ++ map meta_line rows1 ++ map meta_line rows2)
    /\ Forall (fun l => is_header l = false) (map meta_line (rows1 ++ rows2))
    /\ map m_uid (rows1 ++ rows2)
       = map (fun i => (file_id w0 + N.of_nat i)%N)
             (seq 0 (length cycles1 + length cycles2))
    /\ StronglySorted N.lt (map m_uid (rows1 ++ rows2))
    /\ file_id w2
       = (file_id w0 + N.of_nat (length cycles1 + length cycles2))%N.
Proof.
  intros Hold Hrun1 Hrun2.
  apply process_metadata_and_cycles_ok in Hrun1
    as (Hid1 & rows1 & Hlen1 & Huids1 & _ & _ & Hmeta1).
  apply process_metadata_and_cycles_ok in Hrun2
    as (Hid2 & rows2 & Hlen2 & Huids2 & _ & _ & Hmeta2).
  rewrite Hold in Hmeta1. rewrite Hmeta1 in Hmeta2.
  assert (map m_uid (rows1 ++ rows2)
          = map (fun i => (file_id w0 + N.of_nat i)%N)
                (seq 0 (length cycles1 + length cycles2))) as Huids.
  { rewrite map_app, Huids1, Huids2, Hid1, seq_app, map_app. f_equal.
    cbn [Nat.add].
    replace (seq (length cycles1) (length cycles2))
      with (Nat.add (length cycles1) <$> seq 0 (length cycles2))
      by (rewrite fmap_add_seq; f_equal; lia).
    rewrite <- list_fmap_compose.
    apply list_fmap_ext. intros _ i _. cbn. lia. }
  exists rows1, rows2.
  split; [exact Hmeta1|].
  split; [rewrite Hmeta2, <- app_assoc; reflexivity|].
  split; [apply Forall_fmap, Forall_forall; intros; reflexivity|].
  split; [exact Huids|].
  split; [rewrite Huids; apply consecutive_sorted|].
  rewrite Hid2, Hid1. lia.
Qed.

Lemma metadata_appended_and_counter_continues_witness :
  let w1 :=
    (process_metadata_and_cycles [charge_cycle] "B0005" output_folder
       indexed_world).1 in
  let w2 :=
    (process_metadata_and_cycles [rest_cycle; charge_cycle] "B0006"
       output_folder w1).1 in
  exists rows1 rows2,
    files w1 !! path_join output_folder "metadata.csv"
    = Some ([Header metadata_columns] ++ map meta_line rows1)
    /\ files w2 !! path_join output_folder "metadata.csv"
       = Some ([Header metadata_columns]
               ++ map meta_line rows1 ++ map meta_line rows2)
    /\ Forall (fun l => is_header l = false) (map meta_line (rows1 ++ rows2))
    /\ map m_uid (rows1 ++ rows2)
       = map (fun i => (file_id indexed_world + N.of_nat i)%N) (seq 0 (1 + 2))
    /\ StronglySorted N.lt (map m_uid (rows1 ++ rows2))
    /\ file_id w2 = (file_id indexed_world + N.of_nat (1 + 2))%N.
Proof.
  intros w1 w2.
  apply (metadata_appended_and_counter_continues
           [charge_cycle] [rest_cycle; charge_cycle] "B0005" "B0006"
           output_folder indexed_world w1 w2 [Header metadata_columns]).
  - vm_compute. reflexivity.
  - vm_compute. reflexivity.
  - vm_compute. reflexivity.
Defined.

(** C8 as stated fails when the script is run a second time over the
    files the first run left: the index keeps its single header, but line
    73 starts the counter at 1 again, so the identifiers 1, 2, 3 are
    issued twice and the counter ends at 4 as it did after the first
    run. *)
Lemma rerun_restarts_the_counter :
  let first := (run_script ∅ mixed_corpus).1 in
  let second := (run_script (files first) mixed_corpus).1 in
  file_id first = 4%N
  /\ file_id second = 4%N
  /\ omap line_uid (default [] (files first !! metadata_path)) = [1; 2; 3]%Z
  /\ omap line_uid (default [] (files second !! metadata_path))
     = [1; 2; 3; 1; 2; 3]%Z
  /\ length (filter (fun l => is_header l = true)
                    (default [] (files second !! metadata_path))) = 1%nat.
Proof. cbv zeta. repeat split; vm_compute; reflexivity. Qed.

End Extraction.

(** ** More of the extraction stage *)

Section CallRows.
Import LoadData.

Lemma process_cycle_data_result (c : cycle) (file_path : string) (w : world) :
  (process_cycle_data c (cyc_type c) file_path w).2 = inr tt
  /\ files (process_cycle_data c (cyc_type c) file_path w).1
     = match cycle_table c with
       | Some t => <[file_path := t]> (files w)
       | None => files w
       end.
Proof.
  unfold process_cycle_data, cycle_table.
  destruct (cyc_data c) as [data|]; [|split; reflexivity].
  destruct (fields_of (cyc_type c)) as [fields|] eqn:Hf; [|split; reflexivity].
  unfold bind, lift.
  rewrite (cycle_frame_spec data fields (fields_of_NoDup _ _ Hf)).
  unfold ret, to_csv, print. cbn [fst snd files].
  rewrite <- list_fmap_compose.
  split; [reflexivity|]. do 3 f_equal. apply list_fmap_id.
Qed.

Lemma first_value_inr (c : cycle) (wanted field : string) (w w' : world)
    (v : obj) :
  first_value c (cyc_type c) wanted field w = (w', inr v) ->
  v = gated_value c wanted field /\ has_value c wanted field.
Proof.
  unfold first_value, gated_value, has_value.
  destruct (String.eqb_spec (cyc_type c) wanted) as [Heq|Hne];
    [|intros [= _ <-]; split; [reflexivity | congruence]].
  destruct (cyc_data c) as [data|]; [|discriminate].
  destruct (dict_get field data) as [[|x tl]|] eqn:Hget; [discriminate| |];
    intros [= _ <-]; (split; [reflexivity|]);
    intros _; exists data; (split; [reflexivity|]); congruence.
Qed.

Lemma first_value_has (c : cycle) (wanted field : string) (w : world) :
  has_value c wanted field ->
  first_value c (cyc_type c) wanted field w
  = (w, inr (gated_value c wanted field)).
Proof.
  unfold first_value, gated_value, has_value. intros Hhas.
  destruct (String.eqb_spec (cyc_type c) wanted) as [Heq|Hne];
    [|reflexivity].
  destruct (Hhas Heq) as (data & -> & Hne).
  destruct (dict_get field data) as [[|x tl]|]; [congruence | |]; reflexivity.
Qed.

Lemma gated_value_gated (c : cycle) (wanted field : string) :
  has_value c wanted field -> gated c wanted field (gated_value c wanted field).
Proof.
  unfold gated, gated_value, has_value. intros Hhas. split.
  - intros Hne. destruct (String.eqb_spec (cyc_type c) wanted); congruence.
  - intros data Heq Hdata. destruct (Hhas Heq) as (data' & Hdata' & Hne).
    rewrite Hdata in *. injection Hdata' as <-.
    rewrite (proj2 (String.eqb_eq _ _) Heq).
    destruct (dict_get field data) as [[|x tl]|]; [congruence | |];
      reflexivity.
Qed.

(** One iteration, exactly: it completes on a well-formed cycle and only
    then, and its effect is the table of the cycle, the expected entry and
    the two increments. *)
Lemma cycle_step_exact (battery_id data_folder : string)
    (cycle_info : list meta_row) (test_id : N) (c : cycle) (w : world) :
  let file_path := path_join data_folder (file_number_of (file_id w)) in
  (well_formed c ->
   exists out,
     cycle_step battery_id data_folder (cycle_info, test_id) c w
     = ({| file_id := file_id w + 1;
           files := match cycle_table c with
                    | Some t => <[file_path := t]> (files w)
                    | None => files w
                    end;
           stdout := out |},
        inr (cycle_info ++ [expected_row battery_id (file_id w) test_id c],
             (test_id + 1)%N)))
  /\ (forall w' acc',
        cycle_step battery_id data_folder (cycle_info, test_id) c w
        = (w', inr acc') ->
        well_formed c).
Proof.
  intros file_path. unfold cycle_step, bind, get_file_id, set_file_id, ret.
  fold file_path.
  pose proof (process_cycle_data_result c file_path w) as [Hres Hfiles].
  pose proof (process_cycle_data_effect c (cyc_type c) file_path w)
    as [Hid _].
  destruct (process_cycle_data c (cyc_type c) file_path w) as [w1 r1].
  cbn [fst snd] in Hres, Hfiles, Hid. subst r1.
  split.
  - intros (H1 & H2 & H3).
    rewrite (first_value_has c "discharge" "Capacity" w1 H1).
    rewrite (first_value_has c "impedance" "Re" w1 H2).
    rewrite (first_value_has c "impedance" "Rct" w1 H3).
    exists (stdout w1). cbn [file_id files stdout].
    rewrite Hid, Hfiles. reflexivity.
  - intros w' acc'.
    destruct (first_value c (cyc_type c) "discharge" "Capacity" w1)
      as [w2 [e|v1]] eqn:E1; [discriminate|].
    pose proof (first_value_state c (cyc_type c) "discharge" "Capacity" w1)
      as S1. rewrite E1 in S1. cbn in S1. subst w2.
    destruct (first_value c (cyc_type c) "impedance" "Re" w1)
      as [w2 [e|v2]] eqn:E2; [discriminate|].
    pose proof (first_value_state c (cyc_type c) "impedance" "Re" w1)
      as S2. rewrite E2 in S2. cbn in S2. subst w2.
    destruct (first_value c (cyc_type c) "impedance" "Rct" w1)
      as [w2 [e|v3]] eqn:E3; [discriminate|].
    intros _.
    apply first_value_inr in E1 as [_ H1].
    apply first_value_inr in E2 as [_ H2].
    apply first_value_inr in E3 as [_ H3].
    repeat split; assumption.
Qed.

End CallRows.

Section FileNames.
Import LoadData.

Lemma append_length (a b : string) :
  String.length (a +:+ b) = (String.length a + String.length b)%nat.
Proof.
  induction a as [|x a IH]; [reflexivity|].
  change (S (String.length (a +:+ b))
          = S (String.length a + String.length b)).
  rewrite IH. reflexivity.
Qed.

Lemma append_inj_r (a b c : string) : a +:+ c = b +:+ c -> a = b.
Proof.
  revert b. induction a as [|x a IH]; intros [|y b] Heq.
  - reflexivity.
  - apply (f_equal String.length) in Heq.
    change (String.length c = S (String.length (b +:+ c))) in Heq.
    rewrite append_length in Heq. lia.
  - apply (f_equal String.length) in Heq.
    change (S (String.length (a +:+ c)) = String.length c) in Heq.
    rewrite append_length in Heq. lia.
  - change (String x (a +:+ c) = String y (b +:+ c)) in Heq.
    injection Heq as -> Heq. f_equal. apply IH, Heq.
Qed.

(** Reading a zero-padded number back. *)
Lemma zeros_decode (k : nat) (s : string) :
  N.of_uint
    <$> NilEmpty.uint_of_string
          (string_of_list_ascii (replicate k "0"%char) +:+ s)
  = N.of_uint <$> NilEmpty.uint_of_string s.
Proof.
  induction k as [|k IH]; [reflexivity|].
  change (N.of_uint
            <$> uint_of_char "0"
                  (NilEmpty.uint_of_string
                     (string_of_list_ascii (replicate k "0"%char) +:+ s))
          = N.of_uint <$> NilEmpty.uint_of_string s).
  rewrite <- IH.
  destruct (NilEmpty.uint_of_string _); reflexivity.
Qed.

Lemma digits_decode (n : N) :
  N.of_uint
    <$> NilEmpty.uint_of_string (NilZero.string_of_uint (N.to_uint n))
  = Some n.
Proof.
  assert (NilZero.string_of_uint (N.to_uint n)
          = NilEmpty.string_of_uint (N.to_uint n)) as ->.
  { destruct n as [|p]; [reflexivity|]. cbn.
    pose proof (Unsigned.to_uint_nonnil p).
    destruct (Pos.to_uint p); [congruence | reflexivity..]. }
  rewrite NilEmpty.usu. cbn. f_equal. apply DecimalN.Unsigned.of_to.
Qed.

Lemma file_number_inj (a b : N) : file_number_of a = file_number_of b -> a = b.
Proof.
  unfold file_number_of, zfill. intros Heq. apply append_inj_r in Heq.
  apply (f_equal (fun s => N.of_uint <$> NilEmpty.uint_of_string s)) in Heq.
  rewrite !zeros_decode, !digits_decode in Heq. congruence.
Qed.

Lemma data_path_inj (data_folder : string) (a b : N) :
  path_join data_folder (file_number_of a)
  = path_join data_folder (file_number_of b) ->
  a = b.
Proof.
  rewrite !path_join_relative by apply file_number_no_slash.
  intros Heq. apply String.app_inj in Heq. apply file_number_inj, Heq.
Qed.

(** X1. Distinct identifiers give distinct file names and distinct table
    paths: within a folder no two identifiers share a file. *)
Theorem file_names_distinct (data_folder : string) (a b : N) :
  (file_number_of a = file_number_of b <-> a = b)
  /\ (path_join data_folder (file_number_of a)
      = path_join data_folder (file_number_of b) <-> a = b).
Proof.
  split; (split; [|intros ->; reflexivity]).
  - apply file_number_inj.
  - apply data_path_inj.
Qed.

End FileNames.

Section Calls.
Import LoadData.

Lemma rows_from_lookup (battery_id : string) (cycles : list cycle)
    (fid test_id : N) (i : nat) :
  rows_from battery_id fid test_id cycles !! i
  = expected_row battery_id (fid + N.of_nat i) (test_id + N.of_nat i)
      <$> cycles !! i.
Proof.
  revert fid test_id i. induction cycles as [|c tl IH]; intros fid test_id i.
  - reflexivity.
  - destruct i as [|i].
    + cbn. rewrite !N.add_0_r. reflexivity.
    + cbn [rows_from].
      change (rows_from battery_id (fid + 1) (test_id + 1) tl !! i
              = expected_row battery_id (fid + N.of_nat (S i))
                  (test_id + N.of_nat (S i)) <$> tl !! i).
      rewrite IH.
      replace (fid + 1 + N.of_nat i)%N with (fid + N.of_nat (S i))%N by lia.
      replace (test_id + 1 + N.of_nat i)%N
        with (test_id + N.of_nat (S i))%N by lia.
      reflexivity.
Qed.

Lemma rows_from_length (battery_id : string) (cycles : list cycle)
    (fid test_id : N) :
  length (rows_from battery_id fid test_id cycles) = length cycles.
Proof.
  revert fid test_id. induction cycles as [|c tl IH]; intros; cbn; auto.
Qed.

(** The tables of earlier and later cycles do not disturb one another. *)
Lemma write_tables_other (data_folder : string) (cycles : list cycle)
    (fid : N) (fs : gmap string (list csv_line)) (p : string) :
  (forall i, (i < length cycles)%nat ->
             p <> path_join data_folder (file_number_of (fid + N.of_nat i))) ->
  write_tables data_folder fid cycles fs !! p = fs !! p.
Proof.
  revert fid fs. induction cycles as [|c tl IH]; intros fid fs Hp;
    [reflexivity|].
  cbn [write_tables]. rewrite IH.
  - destruct (cycle_table c); [|reflexivity].
    apply lookup_insert_ne. specialize (Hp 0%nat). cbn in Hp.
    rewrite N.add_0_r in Hp. intros Heq. apply Hp; [lia | auto].
  - intros i Hi. specialize (Hp (S i)). cbn [length] in Hp.
    replace (fid + 1 + N.of_nat i)%N with (fid + N.of_nat (S i))%N by lia.
    apply Hp. lia.
Qed.

Lemma write_tables_lookup (data_folder : string) (cycles : list cycle)
    (fid : N) (fs : gmap string (list csv_line)) (i : nat) (c : cycle) :
  cycles !! i = Some c ->
  write_tables data_folder fid cycles fs
    !! path_join data_folder (file_number_of (fid + N.of_nat i))
  = match cycle_table c with
    | Some t => Some t
    | None => fs !! path_join data_folder (file_number_of (fid + N.of_nat i))
    end.
Proof.
  revert fid fs i. induction cycles as [|c0 tl IH]; intros fid fs i Hc;
    [discriminate|].
  destruct i as [|i].
  - injection Hc as ->. cbn [write_tables]. rewrite N.add_0_r.
    rewrite write_tables_other.
    + destruct (cycle_table c); [apply lookup_insert_eq | reflexivity].
    + intros j _ Heq. apply data_path_inj in Heq. lia.
  - cbn in Hc. cbn [write_tables].
    replace (fid + N.of_nat (S i))%N with (fid + 1 + N.of_nat i)%N by lia.
    rewrite (IH _ _ _ Hc). destruct (cycle_table c); [reflexivity|].
    destruct (cycle_table c0); [|reflexivity].
    apply lookup_insert_ne. intros Heq. apply data_path_inj in Heq. lia.
Qed.

(** The loop on well-formed cycles, exactly. *)
Lemma for_cycles_exact (battery_id data_folder : string)
    (cycles : list cycle) (cycle_info : list meta_row) (test_id : N)
    (w : world) :
  Forall well_formed cycles ->
  exists out,
    for_cycles battery_id data_folder (cycle_info, test_id) cycles w
    = ({| file_id := file_id w + N.of_nat (length cycles);
          files := write_tables data_folder (file_id w) cycles (files w);
          stdout := out |},
       inr (cycle_info ++ rows_from battery_id (file_id w) test_id cycles,
            (test_id + N.of_nat (length cycles))%N)).
Proof.
  intros Hwf. revert cycle_info test_id w.
  induction Hwf as [|c tl Hc _ IH]; intros cycle_info test_id w.
  - exists (stdout w). cbn. unfold ret.
    rewrite app_nil_r, !N.add_0_r. destruct w; reflexivity.
  - cbn [for_cycles]. unfold bind at 1.
    destruct (proj1 (cycle_step_exact battery_id data_folder cycle_info
                       test_id c w) Hc) as [out1 ->].
    match goal with |- context [for_cycles _ _ _ tl ?w1] =>
      destruct (IH (cycle_info ++ [expected_row battery_id (file_id w) test_id c])
                  (test_id + 1)%N w1) as [out ->] end.
    exists out. cbn [file_id files rows_from write_tables].
    rewrite <- app_assoc. cbn [app].
    replace (file_id w + 1 + N.of_nat (length tl))%N
      with (file_id w + N.of_nat (length (c :: tl)))%N
      by (simpl length; lia).
    replace (test_id + 1 + N.of_nat (length tl))%N
      with (test_id + N.of_nat (length (c :: tl)))%N
      by (simpl length; lia).
    reflexivity.
Qed.

Lemma for_cycles_inr (battery_id data_folder : string) (cycles : list cycle)
    (acc : list meta_row * N) (w w' : world) (acc' : list meta_row * N) :
  for_cycles battery_id data_folder acc cycles w = (w', inr acc') ->
  Forall well_formed cycles.
Proof.
  revert acc w. induction cycles as [|c tl IH]; intros [info tid] w;
    [constructor|].
  cbn [for_cycles]. unfold bind at 1.
  destruct (cycle_step _ _ _ c w) as [w1 [e|acc1]] eqn:Hstep; [discriminate|].
  intros Hrest. constructor.
  - eapply (proj2 (cycle_step_exact battery_id data_folder info tid c w)).
    exact Hstep.
  - eapply IH, Hrest.
Qed.

(** Whatever the outcome, the loop writes only table paths. *)
Lemma cycle_step_frame (battery_id data_folder : string)
    (acc : list meta_row * N) (c : cycle) (w : world) (p : string) :
  p <> path_join data_folder (file_number_of (file_id w)) ->
  files (cycle_step battery_id data_folder acc c w).1 !! p = files w !! p.
Proof.
  intros Hp. destruct acc as [info tid].
  unfold cycle_step, bind, get_file_id, set_file_id, ret.
  pose proof (process_cycle_data_effect c (cyc_type c)
                (path_join data_folder (file_number_of (file_id w))) w)
    as [_ Hfiles].
  specialize (Hfiles p Hp).
  destruct (process_cycle_data _ _ _ w) as [w1 [e|[]]]; [exact Hfiles|].
  cbn [fst] in Hfiles.
  pose proof (first_value_state c (cyc_type c) "discharge" "Capacity" w1) as S1.
  destruct (first_value c (cyc_type c) "discharge" "Capacity" w1)
    as [w2 [e|v1]]; cbn in S1; subst w2; [exact Hfiles|].
  pose proof (first_value_state c (cyc_type c) "impedance" "Re" w1) as S2.
  destruct (first_value c (cyc_type c) "impedance" "Re" w1)
    as [w2 [e|v2]]; cbn in S2; subst w2; [exact Hfiles|].
  pose proof (first_value_state c (cyc_type c) "impedance" "Rct" w1) as S3.
  destruct (first_value c (cyc_type c) "impedance" "Rct" w1)
    as [w2 [e|v3]]; cbn in S3; subst w2; exact Hfiles.
Qed.

Lemma for_cycles_frame (battery_id data_folder : string)
    (cycles : list cycle) (acc : list meta_row * N) (w : world) (p : string) :
  (forall n, p <> path_join data_folder (file_number_of n)) ->
  files (for_cycles battery_id data_folder acc cycles w).1 !! p
  = files w !! p.
Proof.
  intros Hp. revert acc w. induction cycles as [|c tl IH]; intros acc w;
    [reflexivity|].
  cbn [for_cycles]. unfold bind at 1.
  pose proof (cycle_step_frame battery_id data_folder acc c w p (Hp _))
    as Hstep.
  destruct (cycle_step _ _ acc c w) as [w1 [e|acc1]]; [exact Hstep|].
  cbn [fst] in Hstep. rewrite IH. exact Hstep.
Qed.

Lemma process_metadata_and_cycles_exact (cycle_data : list cycle)
    (battery_id output_folder : string) (w : world) :
  Forall well_formed cycle_data ->
  exists out,
    process_metadata_and_cycles cycle_data battery_id output_folder w
    = ({| file_id := file_id w + N.of_nat (length cycle_data);
          files :=
            <[path_join output_folder "metadata.csv" :=
                match files w !! path_join output_folder "metadata.csv" with
                | Some old => old
                | None => [Header metadata_columns]
                end ++ map meta_line
                           (rows_from battery_id (file_id w) 0 cycle_data)]>
              (write_tables (path_join output_folder "data") (file_id w)
                            cycle_data (files w));
          stdout := out |},
       inr tt).
Proof.
  intros Hwf. unfold process_metadata_and_cycles. unfold bind at 1.
  destruct (for_cycles_exact battery_id (path_join output_folder "data")
              cycle_data [] 0%N w Hwf) as [out ->].
  unfold bind, path_exists, to_csv_append, print.
  cbn [fst snd app file_id files stdout].
  rewrite write_tables_other
    by (intros i _; apply not_eq_sym, data_path_not_metadata).
  eexists. f_equal. f_equal. f_equal.
  destruct (files w !! path_join output_folder "metadata.csv"); reflexivity.
Qed.

Lemma process_metadata_and_cycles_inr (cycle_data : list cycle)
    (battery_id output_folder : string) (w w' : world) :
  process_metadata_and_cycles cycle_data battery_id output_folder w
  = (w', inr tt) ->
  Forall well_formed cycle_data.
Proof.
  unfold process_metadata_and_cycles. unfold bind at 1.
  destruct (for_cycles _ _ _ cycle_data w) as [w1 [e|acc]] eqn:Hloop;
    [discriminate|].
  intros _. eapply for_cycles_inr, Hloop.
Qed.

(** X2. A call completes exactly when every cycle of the record is
    well formed: a discharge cycle has its data container and no empty
    [Capacity] array, an impedance cycle has its data container and no
    empty [Re] or [Rct] array.  When the call raises, the metadata index
    is left as it was. *)
Theorem call_completes_iff_well_formed (cycle_data : list cycle)
    (battery_id output_folder : string) (w : world) :
  ((exists w',
       process_metadata_and_cycles cycle_data battery_id output_folder w
       = (w', inr tt))
   <-> Forall well_formed cycle_data)
  /\ (forall w' e,
        process_metadata_and_cycles cycle_data battery_id output_folder w
        = (w', inl e) ->
        files w' !! path_join output_folder "metadata.csv"
        = files w !! path_join output_folder "metadata.csv").
Proof.
  split; [split|].
  - intros [w' Hrun]. eapply process_metadata_and_cycles_inr, Hrun.
  - intros Hwf.
    destruct (process_metadata_and_cycles_exact cycle_data battery_id
                output_folder w Hwf) as [out ->]. eauto.
  - intros w' e. unfold process_metadata_and_cycles. unfold bind at 1.
    pose proof (for_cycles_frame battery_id (path_join output_folder "data")
                  cycle_data ([], 0%N) w
                  (path_join output_folder "metadata.csv")
                  (fun n Heq => data_path_not_metadata output_folder n
                                  (eq_sym Heq))) as Hframe.
    destruct (for_cycles _ _ _ cycle_data w) as [w1 [e1|acc]].
    + intros [= <- _]. exact Hframe.
    + unfold bind, path_exists, to_csv_append, print. discriminate.
Qed.

(** What a completed call leaves: the index and the rows it appended. *)
Lemma completed_call (cycle_data : list cycle)
    (battery_id output_folder : string) (w w' : world) :
  process_metadata_and_cycles cycle_data battery_id output_folder w
  = (w', inr tt) ->
  file_id w' = (file_id w + N.of_nat (length cycle_data))%N
  /\ files w' !! path_join output_folder "metadata.csv"
     = Some (match files w !! path_join output_folder "metadata.csv" with
             | Some old => old
             | None => [Header metadata_columns]
             end ++ map meta_line
                        (rows_from battery_id (file_id w) 0 cycle_data))
  /\ forall p, p <> path_join output_folder "metadata.csv" ->
       files w' !! p
       = write_tables (path_join output_folder "data") (file_id w)
                      cycle_data (files w) !! p.
Proof.
  intros Hrun.
  pose proof (process_metadata_and_cycles_inr _ _ _ _ _ Hrun) as Hwf.
  destruct (process_metadata_and_cycles_exact cycle_data battery_id
              output_folder w Hwf) as [out Hexact].
  rewrite Hexact in Hrun. injection Hrun as <-. cbn [file_id files].
  split; [reflexivity|]. split; [apply lookup_insert_eq|].
  intros p Hp. apply lookup_insert_ne. congruence.
Qed.

(** X3. In a completed call the entry of the cycle at position [i]
    carries test identifier [i] (the count restarts at 0 with every
    call), the call's battery identifier, the formatted start time of the
    cycle and its ambient temperature. *)
Theorem rows_numbered_within_battery (cycle_data : list cycle)
    (battery_id output_folder : string) (w w' : world) :
  process_metadata_and_cycles cycle_data battery_id output_folder w
  = (w', inr tt) ->
  exists rows before,
    files w' !! path_join output_folder "metadata.csv"
    = Some (before ++ map meta_line rows)
    /\ length rows = length cycle_data
    /\ forall i c,
        cycle_data !! i = Some c ->
        exists row,
          rows !! i = Some row
          /\ m_test_id row = N.of_nat i
          /\ m_battery_id row = battery_id
          /\ m_start_time row = format_matlab_time (cyc_time c)
          /\ m_ambient_temperature row = cyc_ambient_temperature c.
Proof.
  intros Hrun. apply completed_call in Hrun as (_ & Hindex & _).
  eexists _, _. split; [exact Hindex|].
  split; [apply rows_from_length|].
  intros i c Hc. rewrite rows_from_lookup, Hc. cbn.
  eexists. split; [reflexivity|]. cbn. auto.
Qed.

Lemma rows_numbered_within_battery_witness :
  let w' :=
    (process_metadata_and_cycles [rest_cycle; charge_cycle] "B0006"
       output_folder indexed_world).1 in
  exists rows before,
    files w' !! path_join output_folder "metadata.csv"
    = Some (before ++ map meta_line rows)
    /\ length rows = 2%nat
    /\ forall i c,
        [rest_cycle; charge_cycle] !! i = Some c ->
        exists row,
          rows !! i = Some row
          /\ m_test_id row = N.of_nat i
          /\ m_battery_id row = "B0006"
          /\ m_start_time row = format_matlab_time (cyc_time c)
          /\ m_ambient_temperature row = cyc_ambient_temperature c.
Proof.
  intros w'.
  apply (rows_numbered_within_battery [rest_cycle; charge_cycle] "B0006"
           output_folder indexed_world w').
  vm_compute. reflexivity.
Defined.

(** X4. In a completed call the [Capacity] of an entry is the first
    element of the cycle's [Capacity] array when the cycle is a discharge
    that has one and the empty string otherwise; [Re] and [Rct] are gated
    in the same way on impedance cycles. *)
Theorem summary_columns_gated_by_type (cycle_data : list cycle)
    (battery_id output_folder : string) (w w' : world) :
  process_metadata_and_cycles cycle_data battery_id output_folder w
  = (w', inr tt) ->
  exists rows before,
    files w' !! path_join output_folder "metadata.csv"
    = Some (before ++ map meta_line rows)
    /\ length rows = length cycle_data
    /\ forall i c,
        cycle_data !! i = Some c ->
        exists row,
          rows !! i = Some row
          /\ gated c "discharge" "Capacity" (m_Capacity row)
          /\ gated c "impedance" "Re" (m_Re row)
          /\ gated c "impedance" "Rct" (m_Rct row).
Proof.
  intros Hrun.
  pose proof (process_metadata_and_cycles_inr _ _ _ _ _ Hrun) as Hwf.
  apply completed_call in Hrun as (_ & Hindex & _).
  eexists _, _. split; [exact Hindex|].
  split; [apply rows_from_length|].
  intros i c Hc. rewrite rows_from_lookup, Hc. cbn.
  eexists. split; [reflexivity|]. cbn.
  rewrite Forall_forall in Hwf.
  destruct (Hwf c (list_elem_of_lookup_2 _ _ _ Hc)) as (H1 & H2 & H3).
  auto using gated_value_gated.
Qed.

Lemma summary_columns_gated_by_type_witness :
  let cycles := [charge_cycle; discharge_cycle; impedance_cycle] in
  let w' :=
    (process_metadata_and_cycles cycles "B0005" output_folder fresh_world).1 in
  exists rows before,
    files w' !! path_join output_folder "metadata.csv"
    = Some (before ++ map meta_line rows)
    /\ length rows = 3%nat
    /\ forall i c,
        cycles !! i = Some c ->
        exists row,
          rows !! i = Some row
          /\ gated c "discharge" "Capacity" (m_Capacity row)
          /\ gated c "impedance" "Re" (m_Re row)
          /\ gated c "impedance" "Rct" (m_Rct row).
Proof.
  intros cycles w'.
  apply (summary_columns_gated_by_type cycles "B0005" output_folder
           fresh_world w').
  vm_compute. reflexivity.
Defined.

(** X5. After a completed call the table of every serialized cycle is
    in the store under the name made from the cycle's identifier, not
    overwritten by a later cycle, and the path of a skipped cycle holds
    what it held before the call. *)
Theorem tables_stored_under_their_identifier (cycle_data : list cycle)
    (battery_id output_folder : string) (w w' : world) :
  process_metadata_and_cycles cycle_data battery_id output_folder w
  = (w', inr tt) ->
  forall i c,
    cycle_data !! i = Some c ->
    let file_path :=
      path_join (path_join output_folder "data")
                (file_number_of (file_id w + N.of_nat i)) in
    files w' !! file_path
    = match cycle_table c with
      | Some t => Some t
      | None => files w !! file_path
      end.
Proof.
  intros Hrun i c Hc file_path.
  apply completed_call in Hrun as (_ & _ & Hother).
  rewrite Hother by apply data_path_not_metadata.
  apply write_tables_lookup, Hc.
Qed.

Lemma tables_stored_under_their_identifier_witness :
  let cycles := [charge_cycle; rest_cycle; discharge_cycle] in
  let w' :=
    (process_metadata_and_cycles cycles "B0005" output_folder fresh_world).1 in
  files w' !! "dataset/processed/data/00001.csv" = cycle_table charge_cycle
  /\ files w' !! "dataset/processed/data/00002.csv" = None
  /\ files w' !! "dataset/processed/data/00003.csv"
     = cycle_table discharge_cycle.
Proof.
  intros cycles w'.
  assert (process_metadata_and_cycles cycles "B0005" output_folder
            fresh_world = (w', inr tt)) as Hrun
    by (vm_compute; reflexivity).
  pose proof (tables_stored_under_their_identifier cycles "B0005"
                output_folder fresh_world w' Hrun) as Hstored.
  split; [exact (Hstored 0%nat charge_cycle eq_refl)|].
  split; [exact (Hstored 1%nat rest_cycle eq_refl)|].
  exact (Hstored 2%nat discharge_cycle eq_refl).
Defined.

End Calls.

Section WholeRun.
Import LoadData.

Lemma rows_from_columns (battery_id : string) (cycles : list cycle)
    (fid test_id : N) :
  map m_uid (rows_from battery_id fid test_id cycles)
  = map (fun i => (fid + N.of_nat i)%N) (seq 0 (length cycles))
  /\ map m_test_id (rows_from battery_id fid test_id cycles)
     = map (fun i => (test_id + N.of_nat i)%N) (seq 0 (length cycles))
  /\ map m_battery_id (rows_from battery_id fid test_id cycles)
     = replicate (length cycles) battery_id.
Proof.
  revert fid test_id. induction cycles as [|c tl IH]; intros fid test_id;
    [auto|].
  destruct (IH (fid + 1)%N (test_id + 1)%N) as (Hu & Ht & Hb).
  simpl length. simpl seq. cbn [rows_from map replicate].
  rewrite Hu, Ht, Hb, <- !fmap_S_seq, <- !list_fmap_compose, !N.add_0_r.
  repeat split; apply (f_equal (cons _)); try reflexivity;
    apply list_fmap_ext; intros _ i _; cbn; lia.
Qed.

Lemma shifted_seq (first : N) (a n : nat) :
  map (fun i => (first + N.of_nat a + N.of_nat i)%N) (seq 0 n)
  = map (fun i => (first + N.of_nat i)%N) (seq a n).
Proof.
  replace (seq a n) with (Nat.add a <$> seq 0 n)
    by (rewrite fmap_add_seq; f_equal; lia).
  rewrite <- list_fmap_compose. apply list_fmap_ext. intros _ i _. cbn. lia.
Qed.

Lemma run_rows_columns (kept : list (string * list cycle)) (fid : N) :
  map m_uid (run_rows fid kept)
  = map (fun i => (fid + N.of_nat i)%N) (seq 0 (total_cycles kept))
  /\ map m_test_id (run_rows fid kept)
     = flat_map (fun e => map N.of_nat (seq 0 (length e.2))) kept
  /\ map m_battery_id (run_rows fid kept)
     = flat_map (fun e => replicate (length e.2) (before_dot e.1)) kept.
Proof.
  revert fid. induction kept as [|[filename cs] tl IH]; intros fid; [auto|].
  destruct (IH (fid + N.of_nat (length cs))%N) as (Hu & Ht & Hb).
  destruct (rows_from_columns (before_dot filename) cs fid 0)
    as (Hu1 & Ht1 & Hb1).
  unfold total_cycles in *. cbn [run_rows map sum_list_with flat_map fst snd].
  rewrite !map_app, Hu, Ht, Hb, Hu1, Ht1, Hb1.
  change (sum_list (length cs :: map (fun e => length e.2) tl))
    with (length cs + sum_list (map (fun e => length e.2) tl))%nat.
  rewrite seq_app, map_app, shifted_seq. auto.
Qed.

Lemma for_files_filter (listing : list (string * list cycle)) (w : world) :
  for_files listing w = for_files (filter (fun e => processed e) listing) w.
Proof.
  revert w. induction listing as [|[filename cs] tl IH]; intros w;
    [reflexivity|].
  rewrite filter_cons. cbn [for_files].
  change (endswith filename ".mat"
          && negb (bool_decide (filename ∈ excluded)))
    with (processed (filename, cs)).
  destruct (processed (filename, cs)) eqn:Hp.
  - rewrite decide_True by exact I.
    cbn [for_files].
    change (endswith filename ".mat"
            && negb (bool_decide (filename ∈ excluded)))
      with (processed (filename, cs)).
    rewrite Hp. unfold bind at 1 3.
    destruct (bind _ _ w) as [w1 [e|[]]]; [reflexivity | apply IH].
  - rewrite decide_False by exact id.
    unfold bind at 1, ret. apply IH.
Qed.

(** X6. An entry of the listing that is not a [.mat] file, or that is
    one of the four excluded files, has no effect at all: the run is the
    run over the remaining entries. *)
Theorem unprocessed_entries_have_no_effect
    (listing : list (string * list cycle)) (w : world) :
  for_files listing w = for_files (filter (fun e => processed e) listing) w
  /\ main (Some listing) w
     = main (Some (filter (fun e => processed e) listing)) w.
Proof.
  split; [apply for_files_filter|].
  unfold main, bind. rewrite for_files_filter. reflexivity.
Qed.

Lemma for_files_completed (listing : list (string * list cycle))
    (w w' : world) :
  for_files listing w = (w', inr tt) ->
  let kept := filter (fun e => processed e) listing in
  file_id w' = (file_id w + N.of_nat (total_cycles kept))%N
  /\ files w' !! metadata_path
     = match kept with
       | [] => files w !! metadata_path
       | _ :: _ =>
           Some (match files w !! metadata_path with
                 | Some old => old
                 | None => [Header metadata_columns]
                 end ++ map meta_line (run_rows (file_id w) kept))
       end.
Proof.
  revert w. induction listing as [|[filename cs] tl IH]; intros w.
  - cbn. intros [= <-]. rewrite N.add_0_r. auto.
  - cbn [for_files]. rewrite filter_cons.
    change (endswith filename ".mat"
            && negb (bool_decide (filename ∈ excluded)))
      with (processed (filename, cs)).
    destruct (processed (filename, cs)).
    + rewrite decide_True by exact I.
      unfold bind at 1. unfold bind at 1. unfold print at 1.
      destruct (process_metadata_and_cycles cs (before_dot filename)
                  output_folder _) as [w1 [e|[]]] eqn:Hcall; [discriminate|].
      apply completed_call in Hcall as (Hid & Hindex & _).
      cbn [file_id files] in Hid, Hindex.
      fold metadata_path in Hindex.
      intros Hrest. apply IH in Hrest as [Hid' Hindex'].
      cbv zeta.
      change (total_cycles ((filename, cs)
                              :: filter (fun e => processed e) tl))
        with (length cs
              + total_cycles (filter (fun e => processed e) tl))%nat.
      cbn [run_rows].
      split; [rewrite Hid', Hid; lia|].
      rewrite Hindex'. rewrite Hid.
      destruct (filter (fun e => processed e) tl) as [|e tl'].
      * cbn [run_rows]. rewrite app_nil_r. exact Hindex.
      * rewrite Hindex, map_app, app_assoc. reflexivity.
    + rewrite decide_False by exact id.
      unfold bind at 1, ret. apply IH.
Qed.

(** X7. In a run that completes, the identifiers issued across all
    processed files are consecutive from the counter's starting value 1,
    the test identifiers restart at 0 with every file, every entry carries
    the name of its file up to the first dot, and the index holds what it
    held before the run (a header when it did not exist) followed by
    exactly these entries; with no processed file the index is not
    touched. *)
Theorem run_numbers_all_cycles (on_disk : gmap string (list csv_line))
    (listing : list (string * list cycle)) (w' : world) :
  run_script on_disk (Some listing) = (w', inr tt) ->
  let kept := filter (fun e => processed e) listing in
  file_id w' = (1 + N.of_nat (total_cycles kept))%N
  /\ exists rows,
      files w' !! metadata_path
      = match kept with
        | [] => on_disk !! metadata_path
        | _ :: _ =>
            Some (match on_disk !! metadata_path with
                  | Some old => old
                  | None => [Header metadata_columns]
                  end ++ map meta_line rows)
        end
      /\ map m_uid rows
         = map (fun i => (1 + N.of_nat i)%N) (seq 0 (total_cycles kept))
      /\ map m_test_id rows
         = flat_map (fun e => map N.of_nat (seq 0 (length e.2))) kept
      /\ map m_battery_id rows
         = flat_map (fun e => replicate (length e.2) (before_dot e.1)) kept.
Proof.
  intros Hscript kept. revert Hscript.
  unfold run_script, main. unfold bind at 1.
  destruct (for_files listing _) as [w1 [e|[]]] eqn:Hrun; [discriminate|].
  unfold print. intros [= <-]. cbn [file_id files].
  apply for_files_completed in Hrun as [Hid Hindex].
  cbn [file_id files] in Hid, Hindex. fold kept in Hid, Hindex.
  split; [exact Hid|].
  exists (run_rows 1 kept). split; [exact Hindex|].
  apply run_rows_columns.
Qed.

Lemma run_numbers_all_cycles_witness :
  let listing :=
    [("B0005.mat", [charge_cycle; discharge_cycle]);
     ("B0049.mat", [charge_cycle]);
     ("README.txt", []);
     ("B0006.mat", [rest_cycle; impedance_cycle; charge_cycle])] in
  let w' := (run_script ∅ (Some listing)).1 in
  file_id w' = 6%N
  /\ exists rows,
      files w' !! metadata_path
      = Some ([Header metadata_columns] ++ map meta_line rows)
      /\ map m_uid rows = [1; 2; 3; 4; 5]%N
      /\ map m_test_id rows = [0; 1; 0; 1; 2]%N
      /\ map m_battery_id rows
         = ["B0005"; "B0005"; "B0006"; "B0006"; "B0006"].
Proof.
  intros listing w'.
  assert (run_script ∅ (Some listing) = (w', inr tt)) as Hrun
    by (vm_compute; reflexivity).
  exact (run_numbers_all_cycles ∅ listing w' Hrun).
Defined.

End WholeRun.

Section Formatting.
Import LoadData.

Lemma round_half_even_cases (n : Z) (d : positive) :
  let a := round_half_even (n # d) in
  (2 * Z.abs (a * Z.pos d - n) <= Z.pos d)%Z
  /\ ((2 * Z.abs (a * Z.pos d - n) = Z.pos d)%Z -> Z.even a = true).
Proof.
  unfold round_half_even. cbn [Qnum Qden].
  pose proof (Z.div_mod n (Z.pos d) ltac:(lia)) as Hdm.
  pose proof (Z.mod_pos_bound n (Z.pos d) ltac:(lia)) as Hb.
  set (a := (n / Z.pos d)%Z) in *. set (r := (n mod Z.pos d)%Z) in *.
  destruct (Z.compare_spec (2 * r) (Z.pos d)) as [He|Hl|Hg].
  - destruct (Z.even a) eqn:Hev.
    + split; [lia | auto].
    + split; [lia|]. intros _. rewrite Z.even_add, Hev. reflexivity.
  - split; lia.
  - split; lia.
Qed.

(** X8. The rounding used by the fixed-point formatter returns an
    integer nearest to its argument, and the even one when the argument is
    half-way between two integers. *)
Theorem round_half_even_nearest (q : Q) :
  (Qabs (inject_Z (round_half_even q) - q) <= 1 # 2)%Q
  /\ ((Qabs (inject_Z (round_half_even q) - q) == 1 # 2)%Q ->
      Z.even (round_half_even q) = true).
Proof.
  destruct q as [n d].
  destruct (round_half_even_cases n d) as [Hle Htie].
  set (a := round_half_even (n # d)) in *.
  assert ((inject_Z a - (n # d) == (a * Z.pos d - n) # d)%Q) as Hdiff.
  { unfold Qeq, Qminus, Qplus, Qopp, inject_Z. cbn. lia. }
  split.
  - rewrite Hdiff. unfold Qle, Qabs. cbn. lia.
  - intros Heq. apply Htie. rewrite Hdiff in Heq.
    unfold Qeq, Qabs in Heq. cbn in Heq. lia.
Qed.

Lemma format_f_inr (prec : nat) (v : pyval) (s : string) :
  format_f prec v = inr s -> accepted prec v = true.
Proof.
  unfold accepted. destruct v; cbn; try congruence.
  - unfold float_overflow_bound.
    destruct (Z.leb_spec (2 ^ 1024 - 2 ^ 970) (Z.abs z)); [congruence|].
    intros _. apply Z.ltb_lt. assumption.
  - intros ->. reflexivity.
Qed.

Lemma format_f_ok (prec : nat) (v : pyval) :
  accepted prec v = true -> exists s, format_f prec v = inr s.
Proof.
  unfold accepted.
  destruct v as [|b|z|[q| |neg]|s|l|l|l|format]; cbn; try discriminate;
    eauto.
  - unfold float_overflow_bound. intros Hlt. apply Z.ltb_lt in Hlt.
    destruct (Z.leb_spec (2 ^ 1024 - 2 ^ 970) (Z.abs z)); [lia | eauto].
  - destruct (format (format_spec prec)); [discriminate | eauto].
Qed.

Lemma tolist_accepted (prec : nat) (v : pyval) :
  accepted prec (tolist v) = accepted prec v.
Proof. destruct v; reflexivity. Qed.

Lemma format_list_iff (items : list pyval) :
  format_matlab_time (PyList items) <> "[]"
  <-> length items = 6%nat
      /\ forallb id (zip_with accepted field_precisions items) = true.
Proof.
  split.
  - destruct items as [|t0 [|t1 [|t2 [|t3 [|t4 [|t5 [|t6 tl]]]]]]];
      cbn; try congruence.
    unfold ebind.
    destruct (format_f 0 t0) as [?|s0] eqn:H0; [congruence|].
    destruct (format_f 0 t1) as [?|s1] eqn:H1; [congruence|].
    destruct (format_f 0 t2) as [?|s2] eqn:H2; [congruence|].
    destruct (format_f 0 t3) as [?|s3] eqn:H3; [congruence|].
    destruct (format_f 0 t4) as [?|s4] eqn:H4; [congruence|].
    destruct (format_f 3 t5) as [?|s5] eqn:H5; [congruence|].
    intros _. split; [reflexivity|].
    rewrite (format_f_inr _ _ _ H0), (format_f_inr _ _ _ H1),
      (format_f_inr _ _ _ H2), (format_f_inr _ _ _ H3),
      (format_f_inr _ _ _ H4), (format_f_inr _ _ _ H5).
    reflexivity.
  - intros [Hlen Hall].
    destruct items as [|t0 [|t1 [|t2 [|t3 [|t4 [|t5 [|t6 tl]]]]]]];
      try discriminate Hlen.
    cbn [forallb zip_with field_precisions id] in Hall.
    repeat (apply andb_prop in Hall as [? Hall]).
    destruct (format_f_ok 0 t0) as [s0 F0]; [assumption|].
    destruct (format_f_ok 0 t1) as [s1 F1]; [assumption|].
    destruct (format_f_ok 0 t2) as [s2 F2]; [assumption|].
    destruct (format_f_ok 0 t3) as [s3 F3]; [assumption|].
    destruct (format_f_ok 0 t4) as [s4 F4]; [assumption|].
    destruct (format_f_ok 3 t5) as [s5 F5]; [assumption|].
    unfold format_matlab_time, ebind. rewrite F0, F1, F2, F3, F4, F5.
    intros Heq. apply (f_equal String.length) in Heq.
    rewrite !append_length in Heq. simpl in Heq. lia.
Qed.

(** X9. The formatter returns something other than the sentinel exactly
    on a list or array of six components each of which its field formats:
    a [bool], a [float], an [int] that is not too large for a float, or
    an object whose own [__format__] returns a string for the spec of the
    field.  A vector holding an int too large for a float yields the
    sentinel. *)
Theorem format_matlab_time_sentinel_iff (v : pyval) :
  (format_matlab_time v <> "[]" <-> six_accepted v)
  /\ format_matlab_time
       (PyList [PyInt 2008; PyInt 4; PyInt 2; PyInt 0; PyInt 0;
                PyInt (2 ^ 1024)])
     = "[]".
Proof.
  assert (forall items,
             format_matlab_time (NdArray items)
             = format_matlab_time (PyList (map tolist items))) as Harr
    by reflexivity.
  split; [|vm_compute; reflexivity].
  split.
  - intros Hne. destruct v; try (cbn in Hne; congruence).
    + apply format_list_iff in Hne as [Hlen Hall].
      exists items; auto.
    + rewrite Harr in Hne. apply format_list_iff in Hne as [Hlen Hall].
      rewrite length_map in Hlen.
      rewrite (zip_with_tolist _ _ _ tolist_accepted) in Hall.
      exists items; auto.
  - intros (items & [-> | ->] & Hlen & Hall).
    + apply format_list_iff. split; assumption.
    + rewrite Harr. apply format_list_iff. rewrite length_map.
      split; [exact Hlen|].
      rewrite (zip_with_tolist _ _ _ tolist_accepted). exact Hall.
Qed.

End Formatting.

(** ** More of the health estimator *)

Section Trimming.
Import ProcessData.

Lemma mask_index_shift (mask : list bool) (i : nat) :
  mask_index (S i) mask = map S (mask_index i mask).
Proof.
  revert i. induction mask as [|[] tl IH]; intros i; cbn;
    rewrite ?IH; reflexivity.
Qed.

Lemma index_min_shift (ix : list nat) :
  index_min (map S ix) = S <$> index_min ix.
Proof.
  destruct ix as [|i tl]; [reflexivity|]. cbn. f_equal.
  revert i. induction tl as [|j tl IH]; intros i; [reflexivity|].
  cbn [map fold_left]. rewrite <- IH. f_equal.
Qed.

(** Trimming, row by row: stop at the first row below the cut-off. *)
Lemma trimmed_df_cons (cfg : config) (r : row) (df : list row) :
  trimmed_df cfg (r :: df)
  = if cell_ltb (Voltage_measured r) (disc_cutoff_voltage cfg)
    then []
    else r :: trimmed_df cfg df.
Proof.
  unfold trimmed_df, cutoff_idx. cbn [map mask_index].
  destruct (cell_ltb (Voltage_measured r) (disc_cutoff_voltage cfg)).
  - cbn [index_min]. rewrite fold_min_lower; [reflexivity|].
    eapply Forall_impl; [apply mask_index_lower|]. cbn. lia.
  - rewrite mask_index_shift, index_min_shift.
    destruct (index_min _); reflexivity.
Qed.

Lemma trimmed_df_nil (cfg : config) : trimmed_df cfg [] = [].
Proof. reflexivity. Qed.

Lemma trimmed_not_below (cfg : config) (df : list row) :
  Forall (fun r => cell_ltb (Voltage_measured r) (disc_cutoff_voltage cfg)
                   = false)
         (trimmed_df cfg df).
Proof.
  induction df as [|r tl IH]; [constructor|].
  rewrite trimmed_df_cons.
  destruct (cell_ltb _ _) eqn:Hr; constructor; assumption.
Qed.

Lemma trimmed_unchanged (cfg : config) (df : list row) :
  Forall (fun r => cell_ltb (Voltage_measured r) (disc_cutoff_voltage cfg)
                   = false) df ->
  trimmed_df cfg df = df.
Proof.
  induction 1 as [|r tl Hr _ IH]; [reflexivity|].
  rewrite trimmed_df_cons, Hr, IH. reflexivity.
Qed.

(** X10. Trimming never looks past the first row below the cut-off:
    whatever follows that row, the result is the rows before it.  Trimming
    a trimmed frame changes nothing, and a trimmed frame is never longer
    than the frame. *)
Theorem trimming_stops_at_first_low_row (cfg : config) :
  (forall front r rest,
      Forall (fun x => cell_ltb (Voltage_measured x) (disc_cutoff_voltage cfg)
                       = false) front ->
      cell_ltb (Voltage_measured r) (disc_cutoff_voltage cfg) = true ->
      trimmed_df cfg (front ++ r :: rest) = front)
  /\ (forall df, trimmed_df cfg (trimmed_df cfg df) = trimmed_df cfg df)
  /\ (forall df, (length (trimmed_df cfg df) <= length df)%nat).
Proof.
  split; [|split].
  - intros front r rest Hfront Hr.
    induction Hfront as [|x tl Hx _ IH]; cbn [app];
      rewrite trimmed_df_cons.
    + rewrite Hr. reflexivity.
    + rewrite Hx, IH. reflexivity.
  - intros df. apply trimmed_unchanged, trimmed_not_below.
  - intros df. induction df as [|r tl IH]; [reflexivity|].
    rewrite trimmed_df_cons. destruct (cell_ltb _ _); simpl length; lia.
Qed.

(** X11. With a non-negative [min_capacity], an empty table and a table
    whose first row is already below the cut-off contribute no rows: the
    trimmed series is empty and its capacity 0. *)
Theorem empty_series_contributes_nothing (cfg : config) (battery : string)
    (cycle_number : nat) (df : list row) :
  (0 <= min_capacity cfg)%Q ->
  match df with
  | [] => True
  | r :: _ => cell_ltb (Voltage_measured r) (disc_cutoff_voltage cfg) = true
  end ->
  trimmed_df cfg df = []
  /\ process_frame cfg battery cycle_number df = inr [].
Proof.
  intros Hmin Hdf.
  assert (trimmed_df cfg df = []) as Hnil.
  { destruct df as [|r tl]; [reflexivity|].
    rewrite trimmed_df_cons, Hdf. reflexivity. }
  split; [exact Hnil|].
  apply process_frame_low_capacity. rewrite Hnil. exact Hmin.
Qed.

Lemma empty_series_contributes_nothing_witness :
  trimmed_df default_config
    (numeric_row (26 # 10) (-2) 24 0 :: steady_tail) = []
  /\ process_frame default_config "B0005" 1
       (numeric_row (26 # 10) (-2) 24 0 :: steady_tail) = inr [].
Proof.
  apply (empty_series_contributes_nothing default_config "B0005" 1
           (numeric_row (26 # 10) (-2) 24 0 :: steady_tail)).
  - vm_compute. discriminate.
  - vm_compute. reflexivity.
Defined.

End Trimming.

Section Output.
Import ProcessData.

(** An appended frame has [num_bins] rows, all carrying the battery and
    cycle number of the metadata row. *)
Lemma appended_group (cfg : config) (data_folder : string)
    (files : gmap string csv_content) (rn : md_row * nat)
    (g : list health_row) :
  g ∈ appended cfg data_folder files rn ->
  (0 < num_bins cfg)%Z
  /\ Z.of_nat (length g) = num_bins cfg
  /\ forall h, h ∈ g ->
       h_battery_id h = md_battery_id rn.1 /\ h_cycle_number h = rn.2.
Proof.
  unfold appended, try_body.
  destruct (read_csv _ _) as [e|df]; [inversion 1|].
  destruct (process_frame_cases cfg (md_battery_id rn.1) rn.2 df)
    as [-> | [[e ->] | (bins & Hpos & _ & Hsplit & Hlen & ->)]];
    [inversion 1 | inversion 1 |].
  intros Hg. apply list_elem_of_singleton in Hg as ->.
  split; [exact Hpos|]. split; [exact Hlen|].
  destruct (array_split_bins _ _ _ Hpos Hsplit) as (_ & _ & _ & Hsub).
  intros h Hh. apply agg_rows_elem in Hh as (r0 & b & Hb & _ & -> & -> & _).
  assert (r0 ∈ augment cfg (md_battery_id rn.1) rn.2 (trimmed_df cfg df))
    as Hr0 by (eapply Hsub; [exact Hb | left]).
  unfold augment in Hr0.
  apply elem_of_zip_with in Hr0 as (x & y & -> & _ & _). auto.
Qed.

Lemma groups_length (groups : list (list health_row)) (k : Z) :
  Forall (fun g => Z.of_nat (length g) = k) groups ->
  Z.of_nat (length (concat groups)) = (k * Z.of_nat (length groups))%Z.
Proof.
  induction 1 as [|g tl Hg _ IH]; [cbn; lia|].
  cbn [concat]. rewrite length_app. simpl length. lia.
Qed.

Lemma cumcount_from_fst (seen : list string) (rows : list md_row) :
  map fst (cumcount_from seen rows) = rows.
Proof.
  revert seen. induction rows as [|r tl IH]; intros seen; [reflexivity|].
  cbn. rewrite IH. reflexivity.
Qed.

(** X12. The health dataset, when written, has [num_bins] rows for
    every accepted cycle and nothing else: its row count is [num_bins]
    times the number of accepted cycles, of which there is at least one;
    when nothing is written no cycle was accepted. *)
Theorem dataset_row_count (cfg : config) (data_folder : string)
    (files : gmap string csv_content) (metadata : list md_row)
    (output_path : string) :
  let groups :=
    flat_map (appended cfg data_folder files)
             (with_cycle_number (discharge_metadata metadata)) in
  match written (compute_battery_health metadata data_folder files
                   output_path cfg) with
  | Some (path, rows) =>
      path = output_path
      /\ rows = concat groups
      /\ Z.of_nat (length rows) = (num_bins cfg * Z.of_nat (length groups))%Z
      /\ (0 < length groups)%nat
  | None => groups = []
  end.
Proof.
  intros groups. unfold compute_battery_health. rewrite loop_spec.
  cbn [processed_dfs printed app]. fold groups.
  assert (Forall (fun g => Z.of_nat (length g) = num_bins cfg) groups) as Hall.
  { apply Forall_forall. intros g Hg.
    apply list_elem_of_In, in_flat_map in Hg as (rn & _ & Hg).
    apply list_elem_of_In, appended_group in Hg. tauto. }
  destruct groups as [|g gs] eqn:Hgroups; cbn [written]; [reflexivity|].
  split; [reflexivity|]. split; [reflexivity|].
  split; [apply groups_length, Hall | simpl length; lia].
Qed.

(** X13. Every row of the health dataset stems from a discharge row of
    the metadata index and carries that row's battery identifier and its
    cycle number: cycles of another type never reach the output. *)
Theorem dataset_rows_stem_from_discharge_cycles (cfg : config)
    (data_folder : string) (files : gmap string csv_content)
    (metadata : list md_row) (output_path path : string)
    (rows : list health_row) (h : health_row) :
  written (compute_battery_health metadata data_folder files
             output_path cfg) = Some (path, rows) ->
  h ∈ rows ->
  exists r n,
    (r, n) ∈ with_cycle_number (discharge_metadata metadata)
    /\ r ∈ metadata
    /\ md_type r = "discharge"
    /\ h_battery_id h = md_battery_id r
    /\ h_cycle_number h = n.
Proof.
  unfold compute_battery_health. rewrite loop_spec.
  cbn [processed_dfs printed app].
  remember (flat_map (appended cfg data_folder files)
              (with_cycle_number (discharge_metadata metadata))) as groups
    eqn:Hgroups.
  destruct groups as [|g gs]; [discriminate|].
  cbn [written]. intros [= _ <-] Hh.
  change (h ∈ concat (g :: gs)) in Hh. rewrite Hgroups in Hh.
  apply list_elem_of_In, in_concat in Hh as (g' & Hg' & Hh).
  apply in_flat_map in Hg' as ([r n] & Hrn & Hg').
  apply list_elem_of_In in Hrn, Hg', Hh.
  apply appended_group in Hg' as (_ & _ & Hrows).
  destruct (Hrows h Hh) as [Hb Hc]. cbn [fst snd] in Hb, Hc.
  assert (r ∈ discharge_metadata metadata) as Hr.
  { unfold with_cycle_number in Hrn.
    rewrite <- (cumcount_from_fst [] (discharge_metadata metadata)).
    apply list_elem_of_fmap. exists (r, n). auto. }
  unfold discharge_metadata in Hr. apply list_elem_of_filter in Hr as [Hty Hr].
  exists r, n. auto.
Qed.

Lemma dataset_rows_stem_from_discharge_cycles_witness :
  let metadata :=
    [mkMd "charge" "B0005" "00001.csv"; mkMd "discharge" "B0005" "00002.csv"]
  in
  let files : gmap string csv_content :=
    {[ "d/00002.csv" := Frame steady_df ]} in
  exists path rows h,
    written (compute_battery_health metadata "d" files "out.csv"
               default_config) = Some (path, rows)
    /\ h ∈ rows
    /\ exists r n,
        (r, n) ∈ with_cycle_number (discharge_metadata metadata)
        /\ r ∈ metadata
        /\ md_type r = "discharge"
        /\ h_battery_id h = md_battery_id r
        /\ h_cycle_number h = n.
Proof.
  intros metadata files.
  assert (exists path h tl,
             written (compute_battery_health metadata "d" files "out.csv"
                        default_config) = Some (path, h :: tl))
    as (path & h & tl & Hw)
    by (vm_compute; eexists _, _, _; reflexivity).
  exists path, (h :: tl), h. split; [exact Hw|]. split; [left|].
  apply (dataset_rows_stem_from_discharge_cycles default_config "d" files
           metadata "out.csv" path (h :: tl) h Hw). left.
Defined.

End Output.

Section Metadata.
Import ProcessData.

Lemma cumcount_from_lookup (rows : list md_row) (seen : list string)
    (i : nat) :
  cumcount_from seen rows !! i
  = (fun r =>
       (r, (length (filter (fun b => b = md_battery_id r) seen)
            + length (filter (fun x => md_battery_id x = md_battery_id r)
                             (take (S i) rows)))%nat))
      <$> rows !! i.
Proof.
  revert seen i. induction rows as [|r0 tl IH]; intros seen i;
    [reflexivity|].
  destruct i as [|i].
  - change (Some (r0, S (length (filter (fun b => b = md_battery_id r0) seen)))
            = Some (r0, (length (filter (fun b => b = md_battery_id r0) seen)
                         + length (filter (fun x => md_battery_id x
                                                   = md_battery_id r0)
                                          [r0]))%nat)).
    rewrite filter_cons, decide_True by reflexivity.
    rewrite filter_nil. simpl length. do 2 f_equal. lia.
  - cbn [cumcount_from].
    change (cumcount_from (md_battery_id r0 :: seen) tl !! i
            = (fun r =>
                 (r, (length (filter (fun b => b = md_battery_id r) seen)
                      + length (filter
                                  (fun x => md_battery_id x = md_battery_id r)
                                  (r0 :: take (S i) tl)))%nat))
                <$> tl !! i).
    rewrite IH. destruct (tl !! i) as [r|]; [|reflexivity].
    cbn [fmap option_fmap option_map]. do 2 f_equal.
    rewrite !filter_cons.
    destruct (decide (md_battery_id r0 = md_battery_id r)); simpl length; lia.
Qed.

(** X14. The cycle number of a discharge row is the number of discharge
    rows of its battery up to and including it, in the order of the
    metadata index; it does not depend on the rows of other batteries or
    of other types in between. *)
Theorem cycle_number_counts_discharges_of_battery (metadata : list md_row)
    (i : nat) :
  with_cycle_number (discharge_metadata metadata) !! i
  = (fun r =>
       (r, length (filter (fun x => md_battery_id x = md_battery_id r)
                          (take (S i) (discharge_metadata metadata)))))
      <$> discharge_metadata metadata !! i.
Proof.
  unfold with_cycle_number. rewrite cumcount_from_lookup.
  destruct (discharge_metadata metadata !! i); reflexivity.
Qed.

Example cycle_numbers_interleaved :
  map snd
    (with_cycle_number
       (discharge_metadata
          [mkMd "charge" "B0005" "00001.csv";
           mkMd "discharge" "B0005" "00002.csv";
           mkMd "discharge" "B0006" "00003.csv";
           mkMd "impedance" "B0005" "00004.csv";
           mkMd "discharge" "B0005" "00005.csv";
           mkMd "discharge" "B0006" "00006.csv"]))
  = [1; 1; 2; 2]%nat.
Proof. reflexivity. Qed.

Lemma fold_left_agree {A B} (f g : A -> B -> A) (l : list B) (a : A) :
  (forall x b, b ∈ l -> f x b = g x b) -> fold_left f l a = fold_left g l a.
Proof.
  revert a. induction l as [|b tl IH]; intros a Hfg; [reflexivity|].
  cbn. rewrite (Hfg a b) by left. apply IH.
  intros x b' Hb'. apply Hfg. right. exact Hb'.
Qed.

(** X15. The outcome depends on the store only through the tables named
    by discharge rows: two stores that agree on those paths give the same
    outcome, whatever else they hold. *)
Theorem outcome_reads_only_discharge_tables (cfg : config)
    (data_folder output_path : string) (metadata : list md_row)
    (files1 files2 : gmap string csv_content) :
  (forall r, r ∈ metadata -> md_type r = "discharge" ->
             files1 !! table_path data_folder r
             = files2 !! table_path data_folder r) ->
  compute_battery_health metadata data_folder files1 output_path cfg
  = compute_battery_health metadata data_folder files2 output_path cfg.
Proof.
  intros Hagree. unfold compute_battery_health.
  rewrite (fold_left_agree (loop_step cfg data_folder files1)
             (loop_step cfg data_folder files2)); [reflexivity|].
  intros st [r n] Hrn.
  assert (r ∈ discharge_metadata metadata) as Hr.
  { rewrite <- (cumcount_from_fst [] (discharge_metadata metadata)).
    apply list_elem_of_fmap. exists (r, n). auto. }
  unfold discharge_metadata in Hr. apply list_elem_of_filter in Hr as [Hty Hr].
  unfold loop_step, try_body, read_csv. cbn [fst snd].
  change (data_folder +:+ "/" +:+ md_filename r)
    with (table_path data_folder r).
  rewrite (Hagree r Hr Hty). reflexivity.
Qed.

Lemma outcome_reads_only_discharge_tables_witness :
  let metadata :=
    [mkMd "charge" "B0005" "00001.csv"; mkMd "discharge" "B0005" "00002.csv"]
  in
  compute_battery_health metadata "d" {[ "d/00002.csv" := Frame steady_df ]}
    "out.csv" default_config
  = compute_battery_health metadata "d"
      (<[ "d/00001.csv" := Malformed (KeyError "'Voltage_measured'") ]>
         {[ "d/00002.csv" := Frame steady_df ]})
      "out.csv" default_config.
Proof.
  intros metadata.
  apply (outcome_reads_only_discharge_tables default_config "d" "out.csv"
           metadata).
  intros r Hr Hty.
  apply list_elem_of_In in Hr. destruct Hr as [<-|[<-|[]]];
    [discriminate Hty | reflexivity].
Defined.

(** X16. With a non-positive [num_bins] no dataset is ever written:
    [array_split] raises for every cycle that passes the capacity test,
    and the handler drops the cycle. *)
Theorem nonpositive_num_bins_writes_nothing (cfg : config)
    (data_folder output_path : string) (metadata : list md_row)
    (files : gmap string csv_content) :
  (num_bins cfg <= 0)%Z ->
  written (compute_battery_health metadata data_folder files output_path cfg)
  = None
  /\ last (stdout (compute_battery_health metadata data_folder files
                     output_path cfg))
     = Some "No valid files found!".
Proof.
  intros Hbins. unfold compute_battery_health. rewrite loop_spec.
  cbn [processed_dfs printed app].
  destruct (flat_map _ _) as [|g gs] eqn:Hgroups.
  - cbn [written stdout]. split; [reflexivity | apply last_snoc].
  - exfalso.
    assert (In g (flat_map (appended cfg data_folder files)
                    (with_cycle_number (discharge_metadata metadata))))
      as Hg by (rewrite Hgroups; left; reflexivity).
    apply in_flat_map in Hg as (rn & _ & Hg).
    apply list_elem_of_In, appended_group in Hg. lia.
Qed.

Lemma nonpositive_num_bins_writes_nothing_witness :
  let cfg := {| num_bins := 0; nominal_capacity := 2;
                min_capacity := 14 # 10; disc_cutoff_voltage := 27 # 10 |} in
  let out :=
    compute_battery_health [mkMd "discharge" "B0005" "00002.csv"] "d"
      {[ "d/00002.csv" := Frame steady_df ]} "out.csv" cfg in
  written out = None /\ last (stdout out) = Some "No valid files found!".
Proof.
  intros cfg out.
  apply (nonpositive_num_bins_writes_nothing cfg "d" "out.csv"
           [mkMd "discharge" "B0005" "00002.csv"]
           {[ "d/00002.csv" := Frame steady_df ]}).
  vm_compute. discriminate.
Defined.

End Metadata.

Section TimeOrigin.
Import Estimator.
Context {A : arith}.
Implicit Types (cfg : config A) (df trimmed : list (row A)).

Lemma cutoff_idx_forget cfg df :
  cutoff_idx cfg (map forget_time df) = cutoff_idx cfg df.
Proof. unfold cutoff_idx. rewrite map_map. reflexivity. Qed.

Lemma diff_take (k : nat) (xs : list (num A)) :
  diff (take k xs) = take k (diff xs).
Proof.
  destruct xs as [|x tl], k as [|k]; try reflexivity.
  cbn [take diff]. f_equal.
  rewrite zip_with_take.
  change (x :: take k tl) with (take (S k) (x :: tl)).
  rewrite <- (zip_with_take_r' _ k (take k tl) (take (S k) (x :: tl))).
  - rewrite take_take. f_equal. f_equal. lia.
  - rewrite length_take. lia.
Qed.

Lemma Delta_Q_columns trimmed :
  Delta_Q trimmed
  = zip_with (fmul A) (map Current_measured (map forget_time trimmed))
      (map (fun x => fdiv A x (of_int A 3600))
           (fillna (of_int A 0) (diff (map Time trimmed)))).
Proof. unfold Delta_Q, Time_diff_hr. rewrite map_map. reflexivity. Qed.

Lemma augment_forget cfg (battery : string) (cycle_number : nat) trimmed :
  map forget_arow_time (augment cfg battery cycle_number trimmed)
  = zip_with
      (fun r soc =>
         {| a_row := r; a_battery_id := battery;
            a_cycle_number := cycle_number; a_SoC := soc;
            a_SoH := SoH cfg trimmed |})
      (map forget_time trimmed) (SoC trimmed).
Proof.
  unfold augment. generalize (SoC trimmed) as socs.
  generalize (SoH cfg trimmed) as soh.
  induction trimmed as [|r tl IH]; intros soh [|soc socs]; try reflexivity.
  cbn [map zip_with]. rewrite IH. reflexivity.
Qed.

Lemma agg_rows_forget (bins : list (list (arow A))) :
  agg_rows (map (map forget_arow_time) bins) = agg_rows bins.
Proof.
  induction bins as [|[|r0 b] tl IH]; [reflexivity | exact IH |].
  cbn [map agg_rows]. rewrite IH. f_equal.
  cbn [forget_arow_time forget_time a_row a_SoC a_SoH a_battery_id
       a_cycle_number Voltage_measured Current_measured
       Temperature_measured].
  rewrite !map_map. reflexivity.
Qed.

(** The rows of a cycle, from the augmented frame without its time
    stamps. *)
Lemma process_frame_forget cfg (battery : string) (cycle_number : nat) df :
  process_frame cfg battery cycle_number df
  = if flt A (min_capacity cfg) (capacity (trimmed_df cfg df)) then
      match Numpy.array_split
              (map forget_arow_time
                 (augment cfg battery cycle_number (trimmed_df cfg df)))
              (num_bins cfg) with
      | inl e => inl e
      | inr bins =>
          if (Z.of_nat (length (agg_rows bins)) =? num_bins cfg)%Z
          then inr [agg_rows bins]
          else inr []
      end
    else inr [].
Proof.
  unfold process_frame. destruct (flt A _ _); [|reflexivity].
  rewrite array_split_map.
  destruct (Numpy.array_split _ _) as [e|bins]; [reflexivity|].
  rewrite agg_rows_forget. reflexivity.
Qed.

(** X20. The time stamps of a table enter the rows of a cycle only
    through the differences of successive stamps: two tables with the
    same voltage, current and temperature columns and the same successive
    time differences give the same rows, in float64 as in any
    arithmetic. *)
Theorem rows_depend_on_time_differences
    cfg (battery : string) (cycle_number : nat) df df' :
  map forget_time df = map forget_time df' ->
  diff (map Time df) = diff (map Time df') ->
  process_frame cfg battery cycle_number df
  = process_frame cfg battery cycle_number df'.
Proof.
  intros Hcols Hdiff.
  assert (cutoff_idx cfg df = cutoff_idx cfg df') as Hk
    by (rewrite <- (cutoff_idx_forget cfg df), Hcols;
        apply cutoff_idx_forget).
  assert (map forget_time (trimmed_df cfg df)
          = map forget_time (trimmed_df cfg df')) as Hcols'.
  { unfold trimmed_df. rewrite Hk.
    destruct (cutoff_idx cfg df') as [k|]; [|exact Hcols].
    rewrite <- !firstn_map. f_equal. exact Hcols. }
  assert (diff (map Time (trimmed_df cfg df))
          = diff (map Time (trimmed_df cfg df'))) as Hdiff'.
  { unfold trimmed_df. rewrite Hk.
    destruct (cutoff_idx cfg df') as [k|]; [|exact Hdiff].
    rewrite <- !firstn_map.
    change (diff (take k (map Time df)) = diff (take k (map Time df'))).
    rewrite !diff_take, Hdiff. reflexivity. }
  assert (Delta_Q (trimmed_df cfg df) = Delta_Q (trimmed_df cfg df')) as HdQ
    by (rewrite !Delta_Q_columns, Hcols', Hdiff'; reflexivity).
  assert (capacity (trimmed_df cfg df) = capacity (trimmed_df cfg df'))
    as Hcap by (unfold capacity; rewrite HdQ; reflexivity).
  rewrite !process_frame_forget, !augment_forget.
  unfold SoC, SoH, Cumulative_Q. rewrite Hcols', HdQ, Hcap. reflexivity.
Qed.

End TimeOrigin.

(** In float64, the same readings on a clock 1000 s ahead, whose
    successive differences are the same floats, give the same 20 rows. *)
Lemma rows_depend_on_time_differences_witness :
  let cfg := Estimator.float_default_config in
  let samples := Estimator.discharge_samples 180 20 in
  let df := map Estimator.sample_row samples in
  let df' := map Estimator.sample_row (map (Estimator.later 1000) samples) in
  map Estimator.forget_time df = map Estimator.forget_time df'
  /\ Estimator.diff (map Estimator.Time df)
     = Estimator.diff (map Estimator.Time df')
  /\ Estimator.process_frame cfg "B0005" 1 df
     = Estimator.process_frame cfg "B0005" 1 df'
  /\ (exists cycle_df,
        Estimator.process_frame cfg "B0005" 1 df = inr [cycle_df]
        /\ length cycle_df = 20%nat).
Proof.
  intros cfg samples df df'.
  assert (map Estimator.forget_time df = map Estimator.forget_time df')
    as Hcols by (vm_compute; reflexivity).
  assert (Estimator.diff (map Estimator.Time df)
          = Estimator.diff (map Estimator.Time df')) as Hdiff
    by (vm_compute; reflexivity).
  split; [exact Hcols|]. split; [exact Hdiff|].
  split;
    [exact (rows_depend_on_time_differences cfg "B0005" 1 df df'
              Hcols Hdiff)|].
  eexists. split; [vm_compute; reflexivity | reflexivity].
Defined.
